(** * Medical-Store-Management-System: sales transactions and derived metrics

    A shallow embedding of the computational core of the repository:

    - [src/types]                     the entity records;
    - [src/utils/analytics.ts]        [calculateDashboardStats];
    - [src/components/Analytics.tsx]  the [analyticsData] memo;
    - [src/lib/supabase.ts]           [productService], [clientService],
                                      [salesService];
    - [src/database-setup.sql]        the foreign keys and their cascades;
    - [src/hooks/useDatabase.ts]      [loadAllData] and the operations on
                                      products, clients and sales;
    - [src/components/Clients.tsx]    [handleSubmit], [getClientStats];
    - [src/components/Sales.tsx]      the totals and [removeSaleItem].

    Conventions of the embedding.

    - A JavaScript [number] holding money is a rational ([Q]); one holding
      a count, a stock level or a quantity is an integer ([Z]).  Rounding
      of IEEE doubles is outside the model.
    - An ISO-8601 date string is the instant it denotes, in milliseconds
      since the epoch ([Z]); [new Date(s).getTime()] is then the identity.
    - The built-in [Date] (local calendar) is a record [Calendar] of
      functions; [utc] is the proleptic Gregorian calendar in UTC.
    - [Array.prototype.sort] is the stable in-place sort of ECMAScript
      2019; the array it was called on holds the sorted sequence
      afterwards, so a function that sorts one of its arguments returns
      the new content of that argument as well.
    - A JavaScript [Map] is an association list in insertion order.
    - [async] functions talking to the hosted database are written in a
      monad of state and exceptions; state written before a [throw]
      stays written.
    - The hosted database is a collaborator: it keeps what it is given
      (no rounding to two decimals); an update by id fails when no row
      has the id; the foreign keys of database-setup.sql are checked and
      their cascades followed; a number that is [NaN] arrives as [null]
      and is refused by [NOT NULL]; and any request may fail besides
      ([Db.outage]: a lost connection, or a constraint the model does
      not follow).
    - An object of the hook's [products] or [clients] array is either
      one made by [mapDbToProduct] / [mapDbToClient] or a row as
      [getAll] returned it ([Held.t]); on a row, the properties the
      table spells differently read [undefined].  Where a statement
      takes an array of the hook as a list of [Product.t] or
      [Client.t], the columns of its objects are meant ([Held.all], a
      coercion).
    - [calculateDashboardStats] and [analyticsData] are modelled on
      arrays of their declared types. *)

From Stdlib Require Import ZArith QArith Qround List String Ascii Bool Lia.
From Stdlib Require Import Sorted Permutation DecimalString Lqa.
Import ListNotations.

Set Implicit Arguments.

Local Open Scope Z_scope.

(* ================================================================== *)
(** * JavaScript built-ins *)
(* ================================================================== *)

Module JS.

Section Sort.
Variable A : Type.
(** [before a b] is [compareFn(a, b) <= 0]: [a] may stay in front
    of [b]. *)
Variable before : A -> A -> bool.

Fixpoint insert (x : A) (l : list A) : list A :=
  match l with
  | [] => [x]
  | y :: l' => if before x y then x :: y :: l' else y :: insert x l'
  end.

(** [arr.sort(compareFn)]: stable; an element is never moved in
    front of an earlier one it compares equal to. *)
Fixpoint sort (l : list A) : list A :=
  match l with
  | [] => []
  | x :: l' => insert x (sort l')
  end.
End Sort.

(** [arr.slice(0, n)] *)
Definition slice0 (A : Type) (n : nat) (l : list A) : list A := firstn n l.

(** [arr.reduce((sum, x) => sum + f(x), 0)] over money *)
Definition sumQ (A : Type) (f : A -> Q) (l : list A) : Q :=
  fold_left (fun sum x => (sum + f x)%Q) l 0%Q.

(** the same over integers *)
Definition sumZ (A : Type) (f : A -> Z) (l : list A) : Z :=
  fold_left (fun sum x => sum + f x) l 0.

(** [arr.find(pred)] *)
Definition find (A : Type) (pred : A -> bool) (l : list A) : option A :=
  List.find pred l.

(** [Map<string, V>]: keys in order of first insertion. *)
Section Map.
Variable V : Type.
Definition Map := list (string * V).

Fixpoint get (k : string) (m : Map) : option V :=
  match m with
  | [] => None
  | (k', v) :: m' => if String.eqb k' k then Some v else get k m'
  end.

(** [m.set(k, v)]: an existing key keeps its position. *)
Fixpoint set (k : string) (v : V) (m : Map) : Map :=
  match m with
  | [] => [(k, v)]
  | (k', v') :: m' =>
      if String.eqb k' k then (k', v) :: m' else (k', v') :: set k v m'
  end.

(** [Array.from(m.entries())] and [Array.from(m.keys())] *)
Definition entries (m : Map) : list (string * V) := m.
Definition keys (m : Map) : list string := map fst m.
End Map.

(** [String(n).padStart(2, '0')] for a non-negative integer *)
Definition pad2 (n : Z) : string :=
  let s := NilZero.string_of_int (Z.to_int n) in
  if (String.length s <? 2)%nat then String "0"%char s else s.

(** [a.localeCompare(b) <= 0] on strings of digits and dashes *)
Definition locale_le (a b : string) : bool :=
  match String.compare a b with
  | Gt => false
  | _ => true
  end.

End JS.

(** [Date]: the host's local calendar. *)
Record Calendar := {
  getFullYear : Z -> Z;          (* new Date(t).getFullYear() *)
  getMonth : Z -> Z;             (* zero-based month *)
  getDate : Z -> Z;              (* day of the month *)
  mkDate : Z -> Z -> Z -> Z      (* new Date(y, m, d).getTime() *)
}.

Definition msPerDay : Z := 1000 * 60 * 60 * 24.

(** The proleptic Gregorian calendar in UTC. *)
Module UTC.
Definition days_from_civil (y m d : Z) : Z :=
  let y' := if m <=? 2 then y - 1 else y in
  let era := y' / 400 in
  let yoe := y' - era * 400 in
  let mp := (m + 9) mod 12 in
  let doy := (153 * mp + 2) / 5 + d - 1 in
  let doe := yoe * 365 + yoe / 4 - yoe / 100 + doy in
  era * 146097 + doe - 719468.

(** (year, month 1..12, day) of a day number *)
Definition civil_from_days (z : Z) : Z * Z * Z :=
  let z' := z + 719468 in
  let era := z' / 146097 in
  let doe := z' - era * 146097 in
  let yoe := (doe - doe / 1460 + doe / 36524 - doe / 146096) / 365 in
  let y := yoe + era * 400 in
  let doy := doe - (365 * yoe + yoe / 4 - yoe / 100) in
  let mp := (5 * doy + 2) / 153 in
  let d := doy - (153 * mp + 2) / 5 + 1 in
  let m := if mp <? 10 then mp + 3 else mp - 9 in
  (if m <=? 2 then y + 1 else y, m, d).

Definition civil (t : Z) : Z * Z * Z := civil_from_days (t / msPerDay).
End UTC.

Definition utc : Calendar := {|
  getFullYear := fun t => fst (fst (UTC.civil t));
  getMonth := fun t => snd (fst (UTC.civil t)) - 1;
  getDate := fun t => snd (UTC.civil t);
  mkDate := fun y m d => UTC.days_from_civil y (m + 1) d * msPerDay
|}.

(* ================================================================== *)
(** * src/types *)
(* ================================================================== *)

Module Product.
Record t := {
  id : string;
  name : string;
  category : string;
  manufacturer : string;
  batchNumber : string;
  expiryDate : Z;
  currentStock : Z;
  minStockLevel : Z;
  unitPrice : Q;
  sellingPrice : Q;
  description : string;
  createdAt : Z;
  updatedAt : Z
  }.
End Product.

Module Client.
Record t := {
  id : string;
  name : string;
  email : string;
  phone : string;
  address : string;
  totalPurchases : Q;
  lastPurchaseDate : Z;
  createdAt : Z
  }.
End Client.

Module SaleItem.
Record t := {
  productId : string;
  productName : string;
  quantity : Z;
  unitPrice : Q;
  totalPrice : Q
  }.
End SaleItem.

Inductive PaymentMethod := cash | card | digital.

Module Sale.
Record t := {
  id : string;
  clientId : string;
  clientName : string;
  items : list SaleItem.t;
  totalAmount : Q;
  discount : Q;
  finalAmount : Q;
  paymentMethod : PaymentMethod;
  createdAt : Z
  }.
End Sale.

Module TopProduct.
Record t := {
  productId : string;
  productName : string;
  quantitySold : Z;
  revenue : Q
  }.
End TopProduct.

Module DashboardStats.
Record t := {
  totalProducts : Z;
  lowStockProducts : Z;
  totalSales : Q;
  totalClients : Z;
  todaySales : Q;
  avgDailySales : Q;
  avgMonthlySales : Q;
  avgYearlySales : Q;
  recentSales : list Sale.t;
  topProducts : list TopProduct.t
  }.
End DashboardStats.


(** Division with its denominator observed.  JavaScript's [/] never
  throws; [div_checked] is [/] made partial at a zero denominator, and
  the [_checked] variants below are the source's computations written
  with it, so that "no division by zero is ever evaluated" becomes
  "the checked computation returns a value". *)
Definition div_checked (a b : Q) : option Q :=
  if Qeq_bool b 0 then None else Some (a / b)%Q.

(* ================================================================== *)
(** * src/utils/analytics.ts *)
(* ================================================================== *)

Module Metrics.

(** The three arrays handed to [calculateDashboardStats].  They are the
    caller's arrays, not copies. *)
Record Arrays := {
  products : list Product.t;
  sales : list Sale.t;
  clients : list Client.t
}.

(** [sales.filter(sale => new Date(sale.createdAt) >= since)] *)
Definition since (t : Z) (sales : list Sale.t) : list Sale.t :=
  filter (fun sale => Sale.createdAt sale >=? t) sales.

(** [xs.reduce((sum, sale) => sum + sale.finalAmount, 0)] *)
Definition total (sales : list Sale.t) : Q := JS.sumQ Sale.finalAmount sales.

Definition today (cal : Calendar) (now : Z) : Z :=
  mkDate cal (getFullYear cal now) (getMonth cal now) (getDate cal now).

Definition thisMonth (cal : Calendar) (now : Z) : Z :=
  mkDate cal (getFullYear cal now) (getMonth cal now) 1.

Definition thisYear (cal : Calendar) (now : Z) : Z :=
  mkDate cal (getFullYear cal now) 0 1.

Definition todayTotal cal now sales : Q := total (since (today cal now) sales).
Definition monthTotal cal now sales : Q := total (since (thisMonth cal now) sales).
Definition yearTotal cal now sales : Q := total (since (thisYear cal now) sales).

(** [daysInMonth > 0 ? monthTotal / daysInMonth : 0] *)
Definition avgDailySales cal now sales : Q :=
  let daysInMonth := getDate cal now in
  if daysInMonth >? 0
  then (monthTotal cal now sales / inject_Z daysInMonth)%Q
  else 0%Q.

(** [now.getMonth() > 0 ? yearTotal / (now.getMonth() + 1) : yearTotal] *)
Definition avgMonthlySales cal now sales : Q :=
  if getMonth cal now >? 0
  then (yearTotal cal now sales / inject_Z (getMonth cal now + 1))%Q
  else yearTotal cal now sales.

Definition lowStockProducts (products : list Product.t) : Z :=
  Z.of_nat (List.length (filter
    (fun p => Product.currentStock p <=? Product.minStockLevel p) products)).

(** [(a, b) => new Date(b.createdAt).getTime() - new Date(a.createdAt).getTime()] *)
Definition byCreatedAtDesc (a b : Sale.t) : bool :=
  Sale.createdAt b - Sale.createdAt a <=? 0.

(** The value type of the [productSales] map. *)
Record Acc := { name : string; quantity : Z; revenue : Q }.

(** The body of the inner [forEach]. *)
Definition addItem (productSales : JS.Map Acc) (item : SaleItem.t) : JS.Map Acc :=
  let existing :=
    match JS.get (SaleItem.productId item) productSales with
    | Some e => e
    | None => {| name := SaleItem.productName item; quantity := 0; revenue := 0 |}
    end in
  JS.set (SaleItem.productId item)
    {| name := SaleItem.productName item;
       quantity := quantity existing + SaleItem.quantity item;
       revenue := (revenue existing + SaleItem.totalPrice item)%Q |}
    productSales.

(** The two nested [forEach] loops over the array as it stands when
    they run. *)
Definition productSales (sales : list Sale.t) : JS.Map Acc :=
  fold_left (fun m sale => fold_left addItem (Sale.items sale) m) sales [].

Definition toTopProduct (e : string * Acc) : TopProduct.t :=
  {| TopProduct.productId := fst e;
     TopProduct.productName := name (snd e);
     TopProduct.quantitySold := quantity (snd e);
     TopProduct.revenue := revenue (snd e) |}.

(** [(a, b) => b.quantitySold - a.quantitySold] *)
Definition byQuantityDesc (a b : TopProduct.t) : bool :=
  TopProduct.quantitySold b - TopProduct.quantitySold a <=? 0.

Definition topProducts (sales : list Sale.t) : list TopProduct.t :=
  JS.slice0 5
    (JS.sort byQuantityDesc (map toTopProduct (JS.entries (productSales sales)))).

(** [calculateDashboardStats(products, sales, clients)], evaluated at the
    instant [now].  The second component is the content of the three
    argument arrays on return: [sales.sort(...)] on line 36 sorts the
    argument itself, and the loops of lines 43-56 then run over the
    sorted array; the window sums of lines 14-22 were taken before.
    [daysInYear] (line 26) is computed and not used. *)
Definition calculateDashboardStats (cal : Calendar) (now : Z) (a : Arrays)
  : DashboardStats.t * Arrays :=
  let daysInYear := (now - thisYear cal now) / msPerDay + 1 in
  let sorted := JS.sort byCreatedAtDesc (sales a) in
  ({| DashboardStats.totalProducts := Z.of_nat (List.length (products a));
      DashboardStats.lowStockProducts := lowStockProducts (products a);
      DashboardStats.totalSales := total (sales a);
      DashboardStats.totalClients := Z.of_nat (List.length (clients a));
      DashboardStats.todaySales := todayTotal cal now (sales a);
      DashboardStats.avgDailySales := avgDailySales cal now (sales a);
      DashboardStats.avgMonthlySales := avgMonthlySales cal now (sales a);
      DashboardStats.avgYearlySales := yearTotal cal now (sales a);
      DashboardStats.recentSales := JS.slice0 5 sorted;
      DashboardStats.topProducts := topProducts sorted |},
   {| products := products a; sales := sorted; clients := clients a |}).

(** The same function with every [/] checked. *)
Definition avgDailySales_checked cal now sales : option Q :=
  let daysInMonth := getDate cal now in
  if daysInMonth >? 0
  then div_checked (monthTotal cal now sales) (inject_Z daysInMonth)
  else Some 0%Q.

Definition avgMonthlySales_checked cal now sales : option Q :=
  if getMonth cal now >? 0
  then div_checked (yearTotal cal now sales) (inject_Z (getMonth cal now + 1))
  else Some (yearTotal cal now sales).

Definition calculateDashboardStats_checked (cal : Calendar) (now : Z) (a : Arrays)
  : option (DashboardStats.t * Arrays) :=
  match avgDailySales_checked cal now (sales a) with
  | None => None
  | Some daily =>
    match avgMonthlySales_checked cal now (sales a) with
    | None => None
    | Some monthly =>
      let sorted := JS.sort byCreatedAtDesc (sales a) in
      Some
        ({| DashboardStats.totalProducts := Z.of_nat (List.length (products a));
            DashboardStats.lowStockProducts := lowStockProducts (products a);
            DashboardStats.totalSales := total (sales a);
            DashboardStats.totalClients := Z.of_nat (List.length (clients a));
            DashboardStats.todaySales := todayTotal cal now (sales a);
            DashboardStats.avgDailySales := daily;
            DashboardStats.avgMonthlySales := monthly;
            DashboardStats.avgYearlySales := yearTotal cal now (sales a);
            DashboardStats.recentSales := JS.slice0 5 sorted;
            DashboardStats.topProducts := topProducts sorted |},
         {| products := products a; sales := sorted; clients := clients a |})
    end
  end.

End Metrics.


(* ================================================================== *)
(** * src/components/Analytics.tsx *)
(* ================================================================== *)

Module Analytics.

(** ['7d' | '30d' | '90d' | '1y'] *)
Inductive TimeRange := R7d | R30d | R90d | R1y.

Definition days (timeRange : TimeRange) : Z :=
  match timeRange with
  | R7d => 7
  | R30d => 30
  | R90d => 90
  | R1y => 365
  end.

(** [getDateRange()]: [endDate] is [now]. *)
Definition startDate (now : Z) (timeRange : TimeRange) : Z :=
  now - days timeRange * 24 * 60 * 60 * 1000.

Definition filteredSales (now : Z) (timeRange : TimeRange) (sales : list Sale.t)
  : list Sale.t :=
  filter (fun sale =>
            (Sale.createdAt sale >=? startDate now timeRange)
            && (Sale.createdAt sale <=? now)) sales.

Definition totalRevenue now timeRange sales : Q :=
  JS.sumQ Sale.finalAmount (filteredSales now timeRange sales).

(** [filteredSales.length > 0 ? totalRevenue / filteredSales.length : 0] *)
Definition avgSaleValue now timeRange sales : Q :=
  let n := Z.of_nat (List.length (filteredSales now timeRange sales)) in
  if n >? 0 then (totalRevenue now timeRange sales / inject_Z n)%Q else 0%Q.

(** [Math.max(1, Math.ceil((endDate - startDate) / (1000*60*60*24)))] *)
Definition daysInRange (now : Z) (timeRange : TimeRange) : Z :=
  Z.max 1 (Qceiling (inject_Z (now - startDate now timeRange) / inject_Z msPerDay)).

Definition avgDailyRevenue now timeRange sales : Q :=
  (totalRevenue now timeRange sales / inject_Z (daysInRange now timeRange))%Q.
Definition avgWeeklyRevenue now timeRange sales : Q :=
  (avgDailyRevenue now timeRange sales * 7)%Q.
Definition avgMonthlyRevenue now timeRange sales : Q :=
  (avgDailyRevenue now timeRange sales * 30)%Q.
Definition avgYearlyRevenue now timeRange sales : Q :=
  (avgDailyRevenue now timeRange sales * 365)%Q.

(** Product performance *)
Module ProductPerf.
Record t := { name : string; quantity : Z; revenue : Q; profit : Q }.
End ProductPerf.

Definition addItem (products : list Product.t)
  (productSales : JS.Map ProductPerf.t) (item : SaleItem.t) : JS.Map ProductPerf.t :=
  let product :=
    JS.find (fun p => String.eqb (Product.id p) (SaleItem.productId item)) products in
  let existing :=
    match JS.get (SaleItem.productId item) productSales with
    | Some e => e
    | None => {| ProductPerf.name := SaleItem.productName item;
                 ProductPerf.quantity := 0;
                 ProductPerf.revenue := 0;
                 ProductPerf.profit := 0 |}
    end in
  let profit :=
    match product with
    | Some p => ((SaleItem.unitPrice item - Product.unitPrice p)
                 * inject_Z (SaleItem.quantity item))%Q
    | None => 0%Q
    end in
  JS.set (SaleItem.productId item)
    {| ProductPerf.name := SaleItem.productName item;
       ProductPerf.quantity := ProductPerf.quantity existing + SaleItem.quantity item;
       ProductPerf.revenue := (ProductPerf.revenue existing + SaleItem.totalPrice item)%Q;
       ProductPerf.profit := (ProductPerf.profit existing + profit)%Q |}
    productSales.

Definition productSales products (filtered : list Sale.t) : JS.Map ProductPerf.t :=
  fold_left (fun m sale => fold_left (addItem products) (Sale.items sale) m)
            filtered [].

(** [(a, b) => b.revenue - a.revenue] *)
Definition byProductRevenueDesc (a b : string * ProductPerf.t) : bool :=
  Qle_bool (ProductPerf.revenue (snd b) - ProductPerf.revenue (snd a)) 0.

Definition topProducts products filtered : list (string * ProductPerf.t) :=
  JS.slice0 10 (JS.sort byProductRevenueDesc (JS.entries (productSales products filtered))).

(** Client analytics *)
Module ClientPerf.
Record t := { name : string; orders : Z; revenue : Q; avgOrder : Q }.
End ClientPerf.

Definition existingClient (clientPurchases : JS.Map ClientPerf.t) (sale : Sale.t)
  : ClientPerf.t :=
  match JS.get (Sale.clientId sale) clientPurchases with
  | Some e => e
  | None => {| ClientPerf.name := Sale.clientName sale;
               ClientPerf.orders := 0;
               ClientPerf.revenue := 0;
               ClientPerf.avgOrder := 0 |}
  end.

(** The body of the second [filteredSales.forEach]; [newData.avgOrder]
    is assigned [newData.revenue / newData.orders] before the [set]. *)
Definition addPurchase (clientPurchases : JS.Map ClientPerf.t) (sale : Sale.t)
  : JS.Map ClientPerf.t :=
  let existing := existingClient clientPurchases sale in
  let orders := ClientPerf.orders existing + 1 in
  let revenue := (ClientPerf.revenue existing + Sale.finalAmount sale)%Q in
  JS.set (Sale.clientId sale)
    {| ClientPerf.name := Sale.clientName sale;
       ClientPerf.orders := orders;
       ClientPerf.revenue := revenue;
       ClientPerf.avgOrder := (revenue / inject_Z orders)%Q |}
    clientPurchases.

Definition clientPurchases (filtered : list Sale.t) : JS.Map ClientPerf.t :=
  fold_left addPurchase filtered [].

Definition byClientRevenueDesc (a b : string * ClientPerf.t) : bool :=
  Qle_bool (ClientPerf.revenue (snd b) - ClientPerf.revenue (snd a)) 0.

Definition topClients filtered : list (string * ClientPerf.t) :=
  JS.slice0 10 (JS.sort byClientRevenueDesc (JS.entries (clientPurchases filtered))).

(** Monthly trends *)
Module MonthAcc.
Record t := { revenue : Q; orders : Z }.
End MonthAcc.

(** [`${saleDate.getFullYear()}-${String(saleDate.getMonth() + 1).padStart(2, '0')}`] *)
Definition monthLabel (cal : Calendar) (t : Z) : string :=
  (NilZero.string_of_int (Z.to_int (getFullYear cal t))
   ++ "-" ++ JS.pad2 (getMonth cal t + 1))%string.

Definition addMonth (cal : Calendar) (monthlyData : JS.Map MonthAcc.t) (sale : Sale.t)
  : JS.Map MonthAcc.t :=
  let month := monthLabel cal (Sale.createdAt sale) in
  let existing :=
    match JS.get month monthlyData with
    | Some e => e
    | None => {| MonthAcc.revenue := 0; MonthAcc.orders := 0 |}
    end in
  JS.set month
    {| MonthAcc.revenue := (MonthAcc.revenue existing + Sale.finalAmount sale)%Q;
       MonthAcc.orders := MonthAcc.orders existing + 1 |}
    monthlyData.

Definition monthlyTrends cal (filtered : list Sale.t) : list (string * MonthAcc.t) :=
  JS.sort (fun a b => JS.locale_le (fst a) (fst b))
          (JS.entries (fold_left (addMonth cal) filtered [])).

Record AnalyticsData := {
  r_totalRevenue : Q;
  r_avgSaleValue : Q;
  r_avgDailyRevenue : Q;
  r_avgWeeklyRevenue : Q;
  r_avgMonthlyRevenue : Q;
  r_avgYearlyRevenue : Q;
  r_filteredSales : list Sale.t;
  r_topProducts : list (string * ProductPerf.t);
  r_topClients : list (string * ClientPerf.t);
  r_monthlyTrends : list (string * MonthAcc.t)
}.

(** The [useMemo] callback computing [analyticsData], at the instant
    [now].  It reads [sales] and [products]; [clients] is only a
    dependency of the memo. *)
Definition analyticsData (cal : Calendar) (now : Z) (timeRange : TimeRange)
  (sales : list Sale.t) (products : list Product.t) (clients : list Client.t)
  : AnalyticsData :=
  let filtered := filteredSales now timeRange sales in
  {| r_totalRevenue := totalRevenue now timeRange sales;
     r_avgSaleValue := avgSaleValue now timeRange sales;
     r_avgDailyRevenue := avgDailyRevenue now timeRange sales;
     r_avgWeeklyRevenue := avgWeeklyRevenue now timeRange sales;
     r_avgMonthlyRevenue := avgMonthlyRevenue now timeRange sales;
     r_avgYearlyRevenue := avgYearlyRevenue now timeRange sales;
     r_filteredSales := filtered;
     r_topProducts := topProducts products filtered;
     r_topClients := topClients filtered;
     r_monthlyTrends := monthlyTrends cal filtered |}.

(** The same computation with every [/] checked. *)
Definition avgSaleValue_checked now timeRange sales : option Q :=
  let n := Z.of_nat (List.length (filteredSales now timeRange sales)) in
  if n >? 0 then div_checked (totalRevenue now timeRange sales) (inject_Z n)
  else Some 0%Q.

Definition avgDailyRevenue_checked now timeRange sales : option Q :=
  div_checked (totalRevenue now timeRange sales) (inject_Z (daysInRange now timeRange)).

Definition addPurchase_checked (acc : option (JS.Map ClientPerf.t)) (sale : Sale.t)
  : option (JS.Map ClientPerf.t) :=
  match acc with
  | None => None
  | Some clientPurchases =>
    let existing := existingClient clientPurchases sale in
    let orders := ClientPerf.orders existing + 1 in
    let revenue := (ClientPerf.revenue existing + Sale.finalAmount sale)%Q in
    match div_checked revenue (inject_Z orders) with
    | None => None
    | Some avg =>
      Some (JS.set (Sale.clientId sale)
              {| ClientPerf.name := Sale.clientName sale;
                 ClientPerf.orders := orders;
                 ClientPerf.revenue := revenue;
                 ClientPerf.avgOrder := avg |}
              clientPurchases)
    end
  end.

Definition clientPurchases_checked (filtered : list Sale.t)
  : option (JS.Map ClientPerf.t) :=
  fold_left addPurchase_checked filtered (Some []).

Definition analyticsData_checked (cal : Calendar) (now : Z) (timeRange : TimeRange)
  (sales : list Sale.t) (products : list Product.t) (clients : list Client.t)
  : option AnalyticsData :=
  let filtered := filteredSales now timeRange sales in
  match avgSaleValue_checked now timeRange sales,
        avgDailyRevenue_checked now timeRange sales,
        clientPurchases_checked filtered with
  | Some avgSale, Some avgDaily, Some purchases =>
    Some
      {| r_totalRevenue := totalRevenue now timeRange sales;
         r_avgSaleValue := avgSale;
         r_avgDailyRevenue := avgDaily;
         r_avgWeeklyRevenue := (avgDaily * 7)%Q;
         r_avgMonthlyRevenue := (avgDaily * 30)%Q;
         r_avgYearlyRevenue := (avgDaily * 365)%Q;
         r_filteredSales := filtered;
         r_topProducts := topProducts products filtered;
         r_topClients :=
           JS.slice0 10 (JS.sort byClientRevenueDesc (JS.entries purchases));
         r_monthlyTrends := monthlyTrends cal filtered |}
  | _, _, _ => None
  end.

End Analytics.

(* ================================================================== *)
(** * What the hook's arrays hold, and numbers that may be NaN *)
(* ================================================================== *)

(** An object of the arrays [products] and [clients] of the hook.

    [productService.create] and [.update] (and the same of
    [clientService]) pass the row the server returns through
    [mapDbToProduct] / [mapDbToClient]; [productService.getAll] and
    [clientService.getAll] return [data || []], the rows as the server
    sent them.  Both kinds are stored in the arrays, typed [Product[]]
    and [Client[]] all the same.

    A row has the columns of its table (database-setup.sql).  Read
    through the interface, the properties spelled alike in both ([id],
    [name], [category], [manufacturer], [description]; [id], [name],
    [email], [phone], [address]) are there, and the others
    ([currentStock] against [current_stock], [totalPurchases] against
    [total_purchases], ...) are [undefined]. *)
Module Held.

Inductive t (A : Type) : Type :=
| mapped (a : A)
| row (a : A).

(** The values the object carries, under whichever names. *)
Definition columns (A : Type) (h : t A) : A :=
  match h with
  | mapped a => a
  | row a => a
  end.

(** [h.prop] for a property spelled differently in the table. *)
Definition camel (A B : Type) (prop : A -> B) (h : t A) : option B :=
  match h with
  | mapped a => Some (prop a)
  | row _ => None
  end.

Definition isMapped (A : Type) (h : t A) : bool :=
  match h with
  | mapped _ => true
  | row _ => false
  end.

Definition array (A : Type) : Type := list (t A).

(** The columns of every object of an array. *)
Definition all (A : Type) (l : array A) : list A := map (@columns A) l.

End Held.

Coercion Held.all : Held.array >-> list.

(** A [number] that may be [NaN]. *)
Module Number.

Inductive t (A : Type) : Type :=
| num (a : A)
| NaN.
Arguments NaN {A}.

(** [a - b] and [a + b] where [a] may be [undefined]. *)
Definition minus (a : option Z) (b : Z) : t Z :=
  match a with
  | Some x => num (x - b)
  | None => NaN
  end.

Definition plus (a : option Q) (b : Q) : t Q :=
  match a with
  | Some x => num (x + b)%Q
  | None => NaN
  end.

End Number.

(* ================================================================== *)
(** * The hosted database and the monad of [async] code *)
(* ================================================================== *)

(** [Partial<Product>] and [Partial<Client>]: [None] is [undefined].
    [currentStock] and [totalPurchases] are the numbers [addSale]
    computes. *)
Module ProductUpdate.
Record t := {
  name : option string;
  category : option string;
  manufacturer : option string;
  batchNumber : option string;
  expiryDate : option Z;
  currentStock : option (Number.t Z);
  minStockLevel : option Z;
  unitPrice : option Q;
  sellingPrice : option Q;
  description : option string
}.
Definition empty : t :=
  {| name := None; category := None; manufacturer := None; batchNumber := None;
     expiryDate := None; currentStock := None; minStockLevel := None;
     unitPrice := None; sellingPrice := None; description := None |}.
End ProductUpdate.

Module ClientUpdate.
Record t := {
  name : option string;
  email : option string;
  phone : option string;
  address : option string;
  totalPurchases : option (Number.t Q);
  lastPurchaseDate : option Z
}.
Definition empty : t :=
  {| name := None; email := None; phone := None; address := None;
     totalPurchases := None; lastPurchaseDate := None |}.
End ClientUpdate.

(** [Omit<Sale, 'id' | 'createdAt'>], [Omit<Client, 'id' | 'createdAt'>]
    and [Omit<Product, 'id' | 'createdAt' | 'updatedAt'>] *)
Module SaleData.
Record t := {
  clientId : string;
  clientName : string;
  items : list SaleItem.t;
  totalAmount : Q;
  discount : Q;
  finalAmount : Q;
  paymentMethod : PaymentMethod
}.
End SaleData.

Module ClientData.
Record t := {
  name : string;
  email : string;
  phone : string;
  address : string;
  totalPurchases : Q;
  lastPurchaseDate : Z
}.
End ClientData.

(** [Omit<Product, 'id' | 'createdAt' | 'updatedAt'>]; an absent
    [description] is the empty string ([product.description || '']). *)
Module ProductData.
Record t := {
  name : string;
  category : string;
  manufacturer : string;
  batchNumber : string;
  expiryDate : Z;
  currentStock : Z;
  minStockLevel : Z;
  unitPrice : Q;
  sellingPrice : Q;
  description : string
}.
End ProductData.

Module Db.

(** Rows of [sales] and [sale_items] (database-setup.sql).  A row of
    [products] or [clients] is kept as the [Product.t] or [Client.t]
    that [mapDbToProduct] / [mapDbToClient] make of it: both copy the
    columns field by field. *)
Record SaleRow := {
  id : string;
  client_id : string;
  client_name : string;
  total_amount : Q;
  discount : Q;
  final_amount : Q;
  payment_method : PaymentMethod;
  created_at : Z
}.

Record SaleItemRow := {
  sale_id : string;
  product_id : string;
  product_name : string;
  quantity : Z;
  unit_price : Q;
  total_price : Q
}.

(** The requests the services send. *)
Inductive Request :=
| SelectProducts
| SelectClients
| SelectSales
| InsertProduct (data : ProductData.t)
| InsertSale (client_id client_name : string) (total_amount discount final_amount : Q)
             (payment_method : PaymentMethod)
| InsertSaleItems (rows : list SaleItemRow)
| InsertClient (data : ClientData.t)
| UpdateProduct (updateData : ProductUpdate.t) (id : string)
| UpdateClient (updateData : ClientUpdate.t) (id : string)
| DeleteProduct (id : string)
| DeleteClient (id : string).

(** What the server will do, request by request; requests are numbered
    from 0 in the order they are sent.  [outage n] says that request
    [n] is answered with an error and changes nothing: the connection
    is down, or the statement is rejected for a reason the model does
    not follow (a duplicate email, say).  The foreign keys
    of the schema and [NOT NULL] on the two numbers that may be [NaN]
    are followed: see the requests below. *)
Record Env := {
  outage : nat -> bool;
  gen_random_uuid : nat -> string;
  now : nat -> Z
}.

Record t := {
  env : Env;
  products : list Product.t;
  clients : list Client.t;
  sales : list SaleRow;
  sale_items : list SaleItemRow;
  log : list Request            (* every request sent so far, oldest first *)
}.

Definition sent (req : Request) (db : t) : t :=
  {| env := env db; products := products db; clients := clients db;
     sales := sales db; sale_items := sale_items db; log := log db ++ [req] |}.

Definition with_products (ps : list Product.t) (db : t) : t :=
  {| env := env db; products := ps; clients := clients db;
     sales := sales db; sale_items := sale_items db; log := log db |}.

Definition with_clients (cs : list Client.t) (db : t) : t :=
  {| env := env db; products := products db; clients := cs;
     sales := sales db; sale_items := sale_items db; log := log db |}.

Definition with_sales (ss : list SaleRow) (db : t) : t :=
  {| env := env db; products := products db; clients := clients db;
     sales := ss; sale_items := sale_items db; log := log db |}.

Definition with_sale_items (rows : list SaleItemRow) (db : t) : t :=
  {| env := env db; products := products db; clients := clients db;
     sales := sales db; sale_items := rows; log := log db |}.

Definition orElse (A : Type) (o : option A) (d : A) : A :=
  match o with Some a => a | None => d end.

(** The number to store for a column that an update may name. *)
Definition orElseNum (A : Type) (o : option (Number.t A)) (d : A) : A :=
  match o with Some (Number.num a) => a | _ => d end.

(** [JSON.stringify] writes [NaN] as [null], and [current_stock] and
    [total_purchases] are declared [NOT NULL]. *)
Definition notNull (A : Type) (o : option (Number.t A)) : bool :=
  match o with Some Number.NaN => false | _ => true end.

(** The targets of the foreign keys [sales.client_id],
    [sale_items.product_id] and [sale_items.sale_id]. *)
Definition hasProduct (id : string) (db : t) : bool :=
  existsb (fun p => String.eqb (Product.id p) id) (products db).

Definition hasClient (id : string) (db : t) : bool :=
  existsb (fun c => String.eqb (Client.id c) id) (clients db).

Definition hasSale (sid : string) (db : t) : bool :=
  existsb (fun s => String.eqb (id s) sid) (sales db).

(** [UPDATE products SET ... ]; the trigger [update_products_updated_at]
    stamps the row. *)
Definition setProduct (u : ProductUpdate.t) (stamp : Z) (p : Product.t) : Product.t :=
  {| Product.id := Product.id p;
     Product.name := orElse (ProductUpdate.name u) (Product.name p);
     Product.category := orElse (ProductUpdate.category u) (Product.category p);
     Product.manufacturer := orElse (ProductUpdate.manufacturer u) (Product.manufacturer p);
     Product.batchNumber := orElse (ProductUpdate.batchNumber u) (Product.batchNumber p);
     Product.expiryDate := orElse (ProductUpdate.expiryDate u) (Product.expiryDate p);
     Product.currentStock :=
       orElseNum (ProductUpdate.currentStock u) (Product.currentStock p);
     Product.minStockLevel := orElse (ProductUpdate.minStockLevel u) (Product.minStockLevel p);
     Product.unitPrice := orElse (ProductUpdate.unitPrice u) (Product.unitPrice p);
     Product.sellingPrice := orElse (ProductUpdate.sellingPrice u) (Product.sellingPrice p);
     Product.description := orElse (ProductUpdate.description u) (Product.description p);
     Product.createdAt := Product.createdAt p;
     Product.updatedAt := stamp |}.

Definition setClient (u : ClientUpdate.t) (c : Client.t) : Client.t :=
  {| Client.id := Client.id c;
     Client.name := orElse (ClientUpdate.name u) (Client.name c);
     Client.email := orElse (ClientUpdate.email u) (Client.email c);
     Client.phone := orElse (ClientUpdate.phone u) (Client.phone c);
     Client.address := orElse (ClientUpdate.address u) (Client.address c);
     Client.totalPurchases :=
       orElseNum (ClientUpdate.totalPurchases u) (Client.totalPurchases c);
     Client.lastPurchaseDate :=
       orElse (ClientUpdate.lastPurchaseDate u) (Client.lastPurchaseDate c);
     Client.createdAt := Client.createdAt c |}.

(** Each request below returns the [data] of its answer [{ data, error }],
    [None] standing for an [error], and the database after it.

    [from('products').update(updateData).eq('id', id).select().single()]:
    an error when the stock sent is [null] or no row has that id. *)
Definition updateProduct (updateData : ProductUpdate.t) (id : string) (db : t)
  : option Product.t * t :=
  let n := List.length (log db) in
  let db := sent (UpdateProduct updateData id) db in
  if outage (env db) n then (None, db)
  else if negb (notNull (ProductUpdate.currentStock updateData)) then (None, db)
  else
    match List.find (fun p => String.eqb (Product.id p) id) (products db) with
    | None => (None, db)
    | Some row =>
      let stamp := now (env db) n in
      (Some (setProduct updateData stamp row),
       with_products
         (map (fun p => if String.eqb (Product.id p) id
                        then setProduct updateData stamp p else p)
              (products db)) db)
    end.

(** [from('clients').update(updateData).eq('id', id).select().single()] *)
Definition updateClient (updateData : ClientUpdate.t) (id : string) (db : t)
  : option Client.t * t :=
  let n := List.length (log db) in
  let db := sent (UpdateClient updateData id) db in
  if outage (env db) n then (None, db)
  else if negb (notNull (ClientUpdate.totalPurchases updateData)) then (None, db)
  else
    match List.find (fun c => String.eqb (Client.id c) id) (clients db) with
    | None => (None, db)
    | Some row =>
      (Some (setClient updateData row),
       with_clients
         (map (fun c => if String.eqb (Client.id c) id
                        then setClient updateData c else c)
              (clients db)) db)
    end.

(** [from('products').insert({...}).select().single()] *)
Definition insertProduct (data : ProductData.t) (db : t) : option Product.t * t :=
  let n := List.length (log db) in
  let db := sent (InsertProduct data) db in
  if outage (env db) n then (None, db)
  else
    let row :=
      {| Product.id := gen_random_uuid (env db) n;
         Product.name := ProductData.name data;
         Product.category := ProductData.category data;
         Product.manufacturer := ProductData.manufacturer data;
         Product.batchNumber := ProductData.batchNumber data;
         Product.expiryDate := ProductData.expiryDate data;
         Product.currentStock := ProductData.currentStock data;
         Product.minStockLevel := ProductData.minStockLevel data;
         Product.unitPrice := ProductData.unitPrice data;
         Product.sellingPrice := ProductData.sellingPrice data;
         Product.description := ProductData.description data;
         Product.createdAt := now (env db) n;
         Product.updatedAt := now (env db) n |} in
    (Some row, with_products (products db ++ [row]) db).

(** [from('clients').insert({...}).select().single()] *)
Definition insertClient (data : ClientData.t) (db : t) : option Client.t * t :=
  let n := List.length (log db) in
  let db := sent (InsertClient data) db in
  if outage (env db) n then (None, db)
  else
    let row :=
      {| Client.id := gen_random_uuid (env db) n;
         Client.name := ClientData.name data;
         Client.email := ClientData.email data;
         Client.phone := ClientData.phone data;
         Client.address := ClientData.address data;
         Client.totalPurchases := ClientData.totalPurchases data;
         Client.lastPurchaseDate := ClientData.lastPurchaseDate data;
         Client.createdAt := now (env db) n |} in
    (Some row, with_clients (clients db ++ [row]) db).

(** [from('sales').insert({...}).select().single()]; [client_id]
    [REFERENCES clients(id)]. *)
Definition insertSale (client_id client_name : string)
  (total_amount discount final_amount : Q) (payment_method : PaymentMethod) (db : t)
  : option SaleRow * t :=
  let n := List.length (log db) in
  let db := sent (InsertSale client_id client_name total_amount discount
                             final_amount payment_method) db in
  if outage (env db) n then (None, db)
  else if negb (hasClient client_id db) then (None, db)
  else
    let row :=
      {| id := gen_random_uuid (env db) n;
         client_id := client_id;
         client_name := client_name;
         total_amount := total_amount;
         discount := discount;
         final_amount := final_amount;
         payment_method := payment_method;
         created_at := now (env db) n |} in
    (Some row, with_sales (sales db ++ [row]) db).

(** [from('sale_items').insert(saleItemsData)]: one statement, all rows
    or none; [sale_id] [REFERENCES sales(id)] and [product_id]
    [REFERENCES products(id)]. *)
Definition insertSaleItems (rows : list SaleItemRow) (db : t) : option unit * t :=
  let n := List.length (log db) in
  let db := sent (InsertSaleItems rows) db in
  if outage (env db) n then (None, db)
  else if negb (forallb (fun r => hasSale (sale_id r) db && hasProduct (product_id r) db)
                        rows)
  then (None, db)
  else (Some tt, with_sale_items (sale_items db ++ rows) db).

(** [from('products').delete().eq('id', id)]; [sale_items.product_id]
    is declared [ON DELETE CASCADE]. *)
Definition deleteProduct (id : string) (db : t) : option unit * t :=
  let n := List.length (log db) in
  let db := sent (DeleteProduct id) db in
  if outage (env db) n then (None, db)
  else
    (Some tt,
     with_sale_items
       (filter (fun r => negb (String.eqb (product_id r) id)) (sale_items db))
       (with_products
          (filter (fun p => negb (String.eqb (Product.id p) id)) (products db)) db)).

(** [from('clients').delete().eq('id', id)]: the client's sales go with
    it ([sales.client_id ... ON DELETE CASCADE]) and their items with
    them ([sale_items.sale_id ... ON DELETE CASCADE]). *)
Definition deleteClient (cid : string) (db : t) : option unit * t :=
  let n := List.length (log db) in
  let db := sent (DeleteClient cid) db in
  if outage (env db) n then (None, db)
  else
    let gone := map id (filter (fun s => String.eqb (client_id s) cid) (sales db)) in
    (Some tt,
     with_sale_items
       (filter (fun r => negb (existsb (String.eqb (sale_id r)) gone)) (sale_items db))
       (with_sales
          (filter (fun s => negb (String.eqb (client_id s) cid)) (sales db))
          (with_clients
             (filter (fun c => negb (String.eqb (Client.id c) cid)) (clients db)) db))).

(** The three selects, each [.order('created_at', { ascending: false })].
    Rows that tie on [created_at] come in the order of the table. *)
Definition selectProducts (db : t) : option (list Product.t) * t :=
  let n := List.length (log db) in
  let db := sent SelectProducts db in
  if outage (env db) n then (None, db)
  else (Some (JS.sort (fun a b => Product.createdAt b <=? Product.createdAt a)
                      (products db)), db).

Definition selectClients (db : t) : option (list Client.t) * t :=
  let n := List.length (log db) in
  let db := sent SelectClients db in
  if outage (env db) n then (None, db)
  else (Some (JS.sort (fun a b => Client.createdAt b <=? Client.createdAt a)
                      (clients db)), db).

(** Every row of [sales] with, embedded, the rows of [sale_items] that
    refer to it. *)
Definition selectSales (db : t) : option (list (SaleRow * list SaleItemRow)) * t :=
  let n := List.length (log db) in
  let db := sent SelectSales db in
  if outage (env db) n then (None, db)
  else
    (Some (map (fun s => (s, filter (fun r => String.eqb (sale_id r) (id s))
                                    (sale_items db)))
               (JS.sort (fun a b => created_at b <=? created_at a) (sales db))), db).

End Db.

(** The state of the [useDatabase] hook.  [loading] is left out: none of
    the functions below reads it. *)
Module Hook.
Record t := {
  products : Held.array Product.t;
  clients : Held.array Client.t;
  sales : list Sale.t;
  error : option string
}.
End Hook.

Record World := {
  hook : Hook.t;
  db : Db.t
}.

(** What an [await] yields: a value, or a thrown error. *)
Inductive Outcome (A : Type) :=
| Returned (a : A)
| Thrown (request : nat).      (* the error of the request with that number *)
Arguments Thrown {A} request.

Definition Async (A : Type) : Type := World -> Outcome A * World.

Definition ret (A : Type) (a : A) : Async A := fun w => (Returned a, w).

Definition bind (A B : Type) (m : Async A) (k : A -> Async B) : Async B :=
  fun w =>
    match m w with
    | (Returned a, w') => k a w'
    | (Thrown e, w') => (Thrown e, w')
    end.

Definition throw (A : Type) (e : nat) : Async A := fun w => (Thrown e, w).
Arguments throw {A} e.

(** [try { body } catch (err) { handler(err) }] *)
Definition try_catch (A : Type) (body : Async A) (handler : nat -> Async A) : Async A :=
  fun w =>
    match body w with
    | (Returned a, w') => (Returned a, w')
    | (Thrown e, w') => handler e w'
    end.

Declare Scope async_scope.
Delimit Scope async_scope with async.
Notation "x <- m ;; k" := (bind m (fun x => k))
  (at level 61, m at next level, right associativity) : async_scope.
Notation "m ;;; k" := (bind m (fun _ => k))
  (at level 61, right associativity) : async_scope.

(** [for (const x of xs) { await body(x) }] *)
Fixpoint for_of (A : Type) (xs : list A) (body : A -> Async unit) : Async unit :=
  match xs with
  | [] => ret tt
  | x :: xs' => bind (body x) (fun _ => for_of xs' body)
  end.

(** [await Promise.all([a, b, c])]: the three calls are started in
    turn and none is held back by the failure of another; the result is
    the three values, or an error when one of them failed (the first in
    the order of the array is taken here; [loadAllData] does not look at
    it). *)
Definition all3 (A B C : Type) (a : Async A) (b : Async B) (c : Async C)
  : Async (A * B * C) :=
  fun w =>
    let ra := a w in
    let rb := b (snd ra) in
    let rc := c (snd rb) in
    match fst ra, fst rb, fst rc with
    | Returned x, Returned y, Returned z => (Returned (x, y, z), snd rc)
    | Thrown e, _, _ => (Thrown e, snd rc)
    | _, Thrown e, _ => (Thrown e, snd rc)
    | _, _, Thrown e => (Thrown e, snd rc)
    end.

(** One request to the database: [if (error) throw error]. *)
Definition request (A : Type) (call : Db.t -> option A * Db.t) : Async A :=
  fun w =>
    let n := List.length (Db.log (db w)) in
    match call (db w) with
    | (Some data, db') => (Returned data, {| hook := hook w; db := db' |})
    | (None, db') => (Thrown n, {| hook := hook w; db := db' |})
    end.

(** [setProducts(f)], [setClients(f)], [setSales(f)], [setError(msg)],
    [setError(null)] *)
Definition setProducts (f : Held.array Product.t -> Held.array Product.t) : Async unit :=
  fun w =>
    (Returned tt,
     {| hook := {| Hook.products := f (Hook.products (hook w));
                   Hook.clients := Hook.clients (hook w);
                   Hook.sales := Hook.sales (hook w);
                   Hook.error := Hook.error (hook w) |};
        db := db w |}).

Definition setClients (f : Held.array Client.t -> Held.array Client.t) : Async unit :=
  fun w =>
    (Returned tt,
     {| hook := {| Hook.products := Hook.products (hook w);
                   Hook.clients := f (Hook.clients (hook w));
                   Hook.sales := Hook.sales (hook w);
                   Hook.error := Hook.error (hook w) |};
        db := db w |}).

Definition setSales (f : list Sale.t -> list Sale.t) : Async unit :=
  fun w =>
    (Returned tt,
     {| hook := {| Hook.products := Hook.products (hook w);
                   Hook.clients := Hook.clients (hook w);
                   Hook.sales := f (Hook.sales (hook w));
                   Hook.error := Hook.error (hook w) |};
        db := db w |}).

Definition setError (msg : string) : Async unit :=
  fun w =>
    (Returned tt,
     {| hook := {| Hook.products := Hook.products (hook w);
                   Hook.clients := Hook.clients (hook w);
                   Hook.sales := Hook.sales (hook w);
                   Hook.error := Some msg |};
        db := db w |}).

Definition resetError : Async unit :=
  fun w =>
    (Returned tt,
     {| hook := {| Hook.products := Hook.products (hook w);
                   Hook.clients := Hook.clients (hook w);
                   Hook.sales := Hook.sales (hook w);
                   Hook.error := None |};
        db := db w |}).

(* ================================================================== *)
(** * src/lib/supabase.ts *)
(* ================================================================== *)

Local Open Scope async_scope.

(** [if (updates.name) updateData.name = updates.name]: a string is
    copied when it is neither [undefined] nor empty. *)
Definition truthy (o : option string) : option string :=
  match o with
  | Some EmptyString => None
  | other => other
  end.

Module productService.

(** [return data || []]: the rows, not passed through
    [mapDbToProduct]. *)
Definition getAll : Async (Held.array Product.t) :=
  data <- request Db.selectProducts ;;
  ret (map (@Held.row Product.t) data).

Definition create (product : ProductData.t) : Async Product.t :=
  request (Db.insertProduct product).

(** [NaN !== undefined], so a stock that is [NaN] is copied. *)
Definition updateData (updates : ProductUpdate.t) : ProductUpdate.t :=
  {| ProductUpdate.name := truthy (ProductUpdate.name updates);
     ProductUpdate.category := truthy (ProductUpdate.category updates);
     ProductUpdate.manufacturer := truthy (ProductUpdate.manufacturer updates);
     ProductUpdate.batchNumber := truthy (ProductUpdate.batchNumber updates);
     ProductUpdate.expiryDate := ProductUpdate.expiryDate updates;
     ProductUpdate.currentStock := ProductUpdate.currentStock updates;
     ProductUpdate.minStockLevel := ProductUpdate.minStockLevel updates;
     ProductUpdate.unitPrice := ProductUpdate.unitPrice updates;
     ProductUpdate.sellingPrice := ProductUpdate.sellingPrice updates;
     ProductUpdate.description := ProductUpdate.description updates |}.

Definition update (id : string) (updates : ProductUpdate.t) : Async Product.t :=
  request (Db.updateProduct (updateData updates) id).

Definition delete (id : string) : Async unit :=
  request (Db.deleteProduct id).

End productService.

Module clientService.

(** [return data || []]: the rows, not passed through
    [mapDbToClient]. *)
Definition getAll : Async (Held.array Client.t) :=
  data <- request Db.selectClients ;;
  ret (map (@Held.row Client.t) data).

Definition create (client : ClientData.t) : Async Client.t :=
  request (Db.insertClient client).

Definition updateData (updates : ClientUpdate.t) : ClientUpdate.t :=
  {| ClientUpdate.name := truthy (ClientUpdate.name updates);
     ClientUpdate.email := truthy (ClientUpdate.email updates);
     ClientUpdate.phone := truthy (ClientUpdate.phone updates);
     ClientUpdate.address := truthy (ClientUpdate.address updates);
     ClientUpdate.totalPurchases := ClientUpdate.totalPurchases updates;
     ClientUpdate.lastPurchaseDate := ClientUpdate.lastPurchaseDate updates |}.

Definition update (id : string) (updates : ClientUpdate.t) : Async Client.t :=
  request (Db.updateClient (updateData updates) id).

Definition delete (id : string) : Async unit :=
  request (Db.deleteClient id).

End clientService.

Module salesService.

Definition item (r : Db.SaleItemRow) : SaleItem.t :=
  {| SaleItem.productId := Db.product_id r;
     SaleItem.productName := Db.product_name r;
     SaleItem.quantity := Db.quantity r;
     SaleItem.unitPrice := Db.unit_price r;
     SaleItem.totalPrice := Db.total_price r |}.

Definition sale (row : Db.SaleRow * list Db.SaleItemRow) : Sale.t :=
  {| Sale.id := Db.id (fst row);
     Sale.clientId := Db.client_id (fst row);
     Sale.clientName := Db.client_name (fst row);
     Sale.items := map item (snd row);
     Sale.totalAmount := Db.total_amount (fst row);
     Sale.discount := Db.discount (fst row);
     Sale.finalAmount := Db.final_amount (fst row);
     Sale.paymentMethod := Db.payment_method (fst row);
     Sale.createdAt := Db.created_at (fst row) |}.

(** Here the rows are mapped, field by field. *)
Definition getAll : Async (list Sale.t) :=
  salesData <- request Db.selectSales ;;
  ret (map sale salesData).

Definition saleItemsData (sale_id : string) (items : list SaleItem.t)
  : list Db.SaleItemRow :=
  map (fun item =>
         {| Db.sale_id := sale_id;
            Db.product_id := SaleItem.productId item;
            Db.product_name := SaleItem.productName item;
            Db.quantity := SaleItem.quantity item;
            Db.unit_price := SaleItem.unitPrice item;
            Db.total_price := SaleItem.totalPrice item |}) items.

(** Two requests, one after the other: the row of [sales], then the
    rows of [sale_items].  The comment "Start a transaction" on line 350
    notwithstanding, nothing ties them together. *)
Definition create (sale : SaleData.t) : Async Sale.t :=
  saleData <- request (Db.insertSale (SaleData.clientId sale) (SaleData.clientName sale)
                         (SaleData.totalAmount sale) (SaleData.discount sale)
                         (SaleData.finalAmount sale) (SaleData.paymentMethod sale)) ;;
  request (Db.insertSaleItems (saleItemsData (Db.id saleData) (SaleData.items sale))) ;;;
  ret {| Sale.id := Db.id saleData;
         Sale.clientId := Db.client_id saleData;
         Sale.clientName := Db.client_name saleData;
         Sale.items := SaleData.items sale;
         Sale.totalAmount := Db.total_amount saleData;
         Sale.discount := Db.discount saleData;
         Sale.finalAmount := Db.final_amount saleData;
         Sale.paymentMethod := Db.payment_method saleData;
         Sale.createdAt := Db.created_at saleData |}.

End salesService.

(* ================================================================== *)
(** * src/hooks/useDatabase.ts *)
(* ================================================================== *)

Module useDatabase.

(** The arrays are set to what the three [getAll] returned: rows for
    the products and the clients, mapped sales. *)
Definition loadAllData : Async unit :=
  try_catch
    (resetError ;;;
     data <- all3 productService.getAll clientService.getAll salesService.getAll ;;
     setProducts (fun _ => fst (fst data)) ;;;
     setClients (fun _ => snd (fst data)) ;;;
     setSales (fun _ => snd data))
    (fun _ => setError "Failed to load data from database").

Definition addProduct (productData : ProductData.t) : Async Product.t :=
  try_catch
    (newProduct <- productService.create productData ;;
     setProducts (fun prev => Held.mapped newProduct :: prev) ;;;
     ret newProduct)
    (fun err => setError "Failed to add product" ;;; throw err).

Definition updateProduct (id : string) (updates : ProductUpdate.t) : Async Product.t :=
  try_catch
    (updatedProduct <- productService.update id updates ;;
     setProducts (map (fun p => if String.eqb (Product.id (Held.columns p)) id
                                then Held.mapped updatedProduct else p)) ;;;
     ret updatedProduct)
    (fun err => setError "Failed to update product" ;;; throw err).

Definition deleteProduct (id : string) : Async unit :=
  try_catch
    (productService.delete id ;;;
     setProducts (filter (fun p => negb (String.eqb (Product.id (Held.columns p)) id))))
    (fun err => setError "Failed to delete product" ;;; throw err).

Definition addClient (clientData : ClientData.t) : Async Client.t :=
  try_catch
    (newClient <- clientService.create clientData ;;
     setClients (fun prev => Held.mapped newClient :: prev) ;;;
     ret newClient)
    (fun err => setError "Failed to add client" ;;; throw err).

Definition updateClient (id : string) (updates : ClientUpdate.t) : Async Client.t :=
  try_catch
    (updatedClient <- clientService.update id updates ;;
     setClients (map (fun c => if String.eqb (Client.id (Held.columns c)) id
                               then Held.mapped updatedClient else c)) ;;;
     ret updatedClient)
    (fun err => setError "Failed to update client" ;;; throw err).

Definition deleteClient (id : string) : Async unit :=
  try_catch
    (clientService.delete id ;;;
     setClients (filter (fun c => negb (String.eqb (Client.id (Held.columns c)) id))) ;;;
     setSales (filter (fun s => negb (String.eqb (Sale.clientId s) id))))
    (fun err => setError "Failed to delete client" ;;; throw err).

(** The body of the [for (const item of saleData.items)] loop;
    [products] is the array the closure was created with.
    [product.currentStock] is [undefined] on a row, and the difference
    is then [NaN]. *)
Definition updateStock (products : Held.array Product.t) (item : SaleItem.t) : Async unit :=
  match JS.find (fun p => String.eqb (Product.id (Held.columns p)) (SaleItem.productId item))
                products with
  | Some product =>
      updateProduct (SaleItem.productId item)
        {| ProductUpdate.name := None;
           ProductUpdate.category := None;
           ProductUpdate.manufacturer := None;
           ProductUpdate.batchNumber := None;
           ProductUpdate.expiryDate := None;
           ProductUpdate.currentStock :=
             Some (Number.minus (Held.camel Product.currentStock product)
                                (SaleItem.quantity item));
           ProductUpdate.minStockLevel := None;
           ProductUpdate.unitPrice := None;
           ProductUpdate.sellingPrice := None;
           ProductUpdate.description := None |} ;;;
      ret tt
  | None => ret tt
  end.

(** [client.totalPurchases] is [undefined] on a row, and the sum is
    then [NaN]. *)
Definition updatePurchases (clients : Held.array Client.t) (saleData : SaleData.t)
  (newSale : Sale.t) : Async unit :=
  match JS.find (fun c => String.eqb (Client.id (Held.columns c)) (SaleData.clientId saleData))
                clients with
  | Some client =>
      updateClient (Client.id (Held.columns client))
        {| ClientUpdate.name := None;
           ClientUpdate.email := None;
           ClientUpdate.phone := None;
           ClientUpdate.address := None;
           ClientUpdate.totalPurchases :=
             Some (Number.plus (Held.camel Client.totalPurchases client)
                               (SaleData.finalAmount saleData));
           ClientUpdate.lastPurchaseDate := Some (Sale.createdAt newSale) |} ;;;
      ret tt
  | None => ret tt
  end.

(** [addSale] reads [products] and [clients] through its closure: they
    are the hook's arrays of the render that created the function, that
    is, of the moment of the call; the [set...] calls inside act on the
    current state. *)
Definition addSale (saleData : SaleData.t) : Async Sale.t :=
  fun w =>
    let products := Hook.products (hook w) in
    let clients := Hook.clients (hook w) in
    try_catch
      (newSale <- salesService.create saleData ;;
       setSales (fun prev => newSale :: prev) ;;;
       for_of (SaleData.items saleData) (updateStock products) ;;;
       updatePurchases clients saleData newSale ;;;
       ret newSale)
      (fun err => setError "Failed to add sale" ;;; throw err)
      w.

End useDatabase.

(* ================================================================== *)
(** * src/components/Clients.tsx *)
(* ================================================================== *)

Module Clients.

(** The four fields read from the submitted form. *)
Record FormData := {
  name : string;
  email : string;
  phone : string;
  address : string
}.

(** A call whose promise is dropped: [onUpdateClient] and [onAddClient]
    are typed [=> void] and not awaited. *)
Definition fire (A : Type) (m : Async A) : Async unit :=
  fun w => (Returned tt, snd (m w)).

(** [handleSubmit(formData, isEdit)] with the component's
    [editingClient], an object of the [clients] array; [now] is
    [new Date()].  The component's own [setEditingClient(null)] /
    [setShowAddForm(false)] are left out. *)
Definition handleSubmit (now : Z) (editingClient : option (Held.t Client.t))
  (formData : FormData) (isEdit : bool) : Async unit :=
  match isEdit, editingClient with
  | true, Some editing =>
      fire (useDatabase.updateClient (Client.id (Held.columns editing))
              {| ClientUpdate.name := Some (name formData);
                 ClientUpdate.email := Some (email formData);
                 ClientUpdate.phone := Some (phone formData);
                 ClientUpdate.address := Some (address formData);
                 ClientUpdate.totalPurchases := Some (Number.num 0%Q);
                 ClientUpdate.lastPurchaseDate := Some now |})
  | _, _ =>
      fire (useDatabase.addClient
              {| ClientData.name := name formData;
                 ClientData.email := email formData;
                 ClientData.phone := phone formData;
                 ClientData.address := address formData;
                 ClientData.totalPurchases := 0%Q;
                 ClientData.lastPurchaseDate := now |})
  end.

(** [getClientStats(clientId)]: the totals recomputed from the sales. *)
Definition clientSales (sales : list Sale.t) (clientId : string) : list Sale.t :=
  filter (fun sale => String.eqb (Sale.clientId sale) clientId) sales.

Definition statsTotalPurchases (sales : list Sale.t) (clientId : string) : Q :=
  JS.sumQ Sale.finalAmount (clientSales sales clientId).



(** [Math.max(...clientSales.map(s => new Date(s.createdAt).getTime()))]
    when there is a sale, [null] otherwise. *)
Definition statsLastPurchase (sales : list Sale.t) (clientId : string) : option Z :=
  match clientSales sales clientId with
  | [] => None
  | s :: rest =>
      Some (fold_left (fun m x => Z.max m (Sale.createdAt x)) rest (Sale.createdAt s))
  end.

End Clients.

(* ================================================================== *)
(** * Fixtures *)
(* ================================================================== *)

Module Fixtures.

(** 2024-01-15T10:00:00Z *)
Definition t0 : Z := 1705312800000.

Definition paracetamol : Product.t :=
  {| Product.id := "p1"; Product.name := "Paracetamol"; Product.category := "Analgesic";
     Product.manufacturer := "Acme"; Product.batchNumber := "B1";
     Product.expiryDate := t0 + 400 * msPerDay;
     Product.currentStock := 10; Product.minStockLevel := 5;
     Product.unitPrice := 6; Product.sellingPrice := 10;
     Product.description := ""; Product.createdAt := t0 - 30 * msPerDay;
     Product.updatedAt := t0 - 30 * msPerDay |}.

Definition bandage : Product.t :=
  {| Product.id := "p2"; Product.name := "Bandage"; Product.category := "Dressing";
     Product.manufacturer := "Acme"; Product.batchNumber := "B2";
     Product.expiryDate := t0 + 500 * msPerDay;
     Product.currentStock := 3; Product.minStockLevel := 5;
     Product.unitPrice := 3; Product.sellingPrice := 5;
     Product.description := ""; Product.createdAt := t0 - 20 * msPerDay;
     Product.updatedAt := t0 - 20 * msPerDay |}.

Definition alice : Client.t :=
  {| Client.id := "c1"; Client.name := "Alice"; Client.email := "alice@example.org";
     Client.phone := "555-0100"; Client.address := "1 Main Street";
     Client.totalPurchases := 0; Client.lastPurchaseDate := t0 - 10 * msPerDay;
     Client.createdAt := t0 - 10 * msPerDay |}.

Definition item (productId productName : string) (quantity : Z) (unitPrice : Q)
  : SaleItem.t :=
  {| SaleItem.productId := productId; SaleItem.productName := productName;
     SaleItem.quantity := quantity; SaleItem.unitPrice := unitPrice;
     SaleItem.totalPrice := (inject_Z quantity * unitPrice)%Q |}.

(** Scenario B: 2 x 10.00 and 1 x 5.00, discount 2.00. *)
Definition scenarioB : SaleData.t :=
  {| SaleData.clientId := "c1"; SaleData.clientName := "Alice";
     SaleData.items := [item "p1" "Paracetamol" 2 10; item "p2" "Bandage" 1 5];
     SaleData.totalAmount := 25; SaleData.discount := 2; SaleData.finalAmount := 23;
     SaleData.paymentMethod := cash |}.

(** One line item given twice for the same product. *)
Definition twice : SaleData.t :=
  {| SaleData.clientId := "c1"; SaleData.clientName := "Alice";
     SaleData.items := [item "p1" "Paracetamol" 2 10; item "p1" "Paracetamol" 3 10];
     SaleData.totalAmount := 50; SaleData.discount := 0; SaleData.finalAmount := 50;
     SaleData.paymentMethod := card |}.

(** A sale to a client the hook does not hold. *)
Definition stranger : SaleData.t :=
  {| SaleData.clientId := "c9"; SaleData.clientName := "Zed";
     SaleData.items := [item "p1" "Paracetamol" 2 10; item "p7" "Withdrawn" 1 4];
     SaleData.totalAmount := 24; SaleData.discount := 0; SaleData.finalAmount := 24;
     SaleData.paymentMethod := digital |}.

(** More than is in stock, and a product the hook does not hold. *)
Definition mixed : SaleData.t :=
  {| SaleData.clientId := "c1"; SaleData.clientName := "Alice";
     SaleData.items := [item "p2" "Bandage" 5 5; item "p7" "Withdrawn" 1 4];
     SaleData.totalAmount := 29; SaleData.discount := 0; SaleData.finalAmount := 29;
     SaleData.paymentMethod := cash |}.

(** More than is in stock. *)
Definition oversell : SaleData.t :=
  {| SaleData.clientId := "c1"; SaleData.clientName := "Alice";
     SaleData.items := [item "p2" "Bandage" 5 5];
     SaleData.totalAmount := 25; SaleData.discount := 0; SaleData.finalAmount := 25;
     SaleData.paymentMethod := cash |}.

Definition uuid (n : nat) : string :=
  ("uuid-" ++ NilZero.string_of_uint (Nat.to_uint n))%string.

(** A server that answers every request, and ones that fail exactly
    request [k]. *)
Definition healthy : Db.Env :=
  {| Db.outage := fun _ => false;
     Db.gen_random_uuid := uuid;
     Db.now := fun n => t0 + Z.of_nat n |}.

Definition failing (k : nat) : Db.Env :=
  {| Db.outage := fun n => Nat.eqb n k;
     Db.gen_random_uuid := uuid;
     Db.now := fun n => t0 + Z.of_nat n |}.

(** A product and a client the database has and the hook may not
    hold. *)
Definition withdrawn : Product.t :=
  {| Product.id := "p7"; Product.name := "Withdrawn"; Product.category := "Analgesic";
     Product.manufacturer := "Acme"; Product.batchNumber := "B7";
     Product.expiryDate := t0 + 100 * msPerDay;
     Product.currentStock := 1; Product.minStockLevel := 0;
     Product.unitPrice := 2; Product.sellingPrice := 4;
     Product.description := ""; Product.createdAt := t0 - 40 * msPerDay;
     Product.updatedAt := t0 - 40 * msPerDay |}.

Definition zed : Client.t :=
  {| Client.id := "c9"; Client.name := "Zed";
     Client.email := "zed@example.org"; Client.phone := "555-0199";
     Client.address := "9 Side Street"; Client.totalPurchases := 0;
     Client.lastPurchaseDate := t0 - 5 * msPerDay;
     Client.createdAt := t0 - 5 * msPerDay |}.

(** The hook holds two products and a client as [addProduct] and
    [addClient] leave them, mapped; the database has their rows. *)
Definition world (e : Db.Env) : World :=
  {| hook := {| Hook.products := [Held.mapped paracetamol; Held.mapped bandage];
                Hook.clients := [Held.mapped alice];
                Hook.sales := [];
                Hook.error := None |};
     db := {| Db.env := e;
              Db.products := [paracetamol; bandage];
              Db.clients := [alice];
              Db.sales := [];
              Db.sale_items := [];
              Db.log := [] |} |}.

(** The database also has a product and a client the hook does not
    hold. *)
Definition wider (e : Db.Env) : World :=
  {| hook := hook (world e);
     db := {| Db.env := e;
              Db.products := [withdrawn; paracetamol; bandage];
              Db.clients := [alice; zed];
              Db.sales := [];
              Db.sale_items := [];
              Db.log := [] |} |}.

(** The application as it starts: the same database, and a hook that
    holds nothing yet; and the state once [loadAllData] has run. *)
Definition started (e : Db.Env) : World :=
  {| hook := {| Hook.products := []; Hook.clients := []; Hook.sales := [];
                Hook.error := None |};
     db := db (world e) |}.

Definition loaded (e : Db.Env) : World :=
  snd (useDatabase.loadAllData (started e)).

(** Ten more boxes of paracetamol are taken into stock. *)
Definition restock : ProductUpdate.t :=
  {| ProductUpdate.name := None; ProductUpdate.category := None;
     ProductUpdate.manufacturer := None; ProductUpdate.batchNumber := None;
     ProductUpdate.expiryDate := None;
     ProductUpdate.currentStock := Some (Number.num 20);
     ProductUpdate.minStockLevel := None; ProductUpdate.unitPrice := None;
     ProductUpdate.sellingPrice := None; ProductUpdate.description := None |}.

(** Two boxes of paracetamol for Alice. *)
Definition single : SaleData.t :=
  {| SaleData.clientId := "c1"; SaleData.clientName := "Alice";
     SaleData.items := [item "p1" "Paracetamol" 2 10];
     SaleData.totalAmount := 20; SaleData.discount := 0; SaleData.finalAmount := 20;
     SaleData.paymentMethod := cash |}.

Definition sale (id clientId clientName : string) (items : list SaleItem.t)
  (finalAmount : Q) (createdAt : Z) : Sale.t :=
  {| Sale.id := id; Sale.clientId := clientId; Sale.clientName := clientName;
     Sale.items := items; Sale.totalAmount := finalAmount; Sale.discount := 0;
     Sale.finalAmount := finalAmount; Sale.paymentMethod := cash;
     Sale.createdAt := createdAt |}.

(** Two sales, the older one first. *)
Definition older : Sale.t :=
  sale "s1" "c1" "Alice" [item "p1" "Paracetamol 500" 2 10] 20 (t0 - 2 * msPerDay).
Definition newer : Sale.t :=
  sale "s2" "c1" "Alice" [item "p1" "Paracetamol" 1 10] 10 (t0 - 1 * msPerDay).

(** Five products sold once each, and one taken back. *)
Definition returned : Sale.t :=
  sale "s3" "c1" "Alice"
       [item "p1" "Paracetamol" 1 10; item "p2" "Bandage" 1 5; item "p3" "Syrup" 1 7;
        item "p4" "Gauze" 1 2; item "p5" "Plaster" 1 1; item "p6" "Thermometer" (-1) 9]
       16 t0.

(** A clock whose day of the month reads 0: no real calendar, only a
    way to reach the defensive branch of [avgDailySales]. *)
Definition stopped : Calendar :=
  {| getFullYear := fun _ => 2024; getMonth := fun _ => 0; getDate := fun _ => 0;
     mkDate := fun _ _ _ => 0 |}.

End Fixtures.

(* ================================================================== *)
(** * Vocabulary of the statements *)
(* ================================================================== *)

Module Spec.

(** The year-to-date sum divided by the number of months begun: the
    formula [avgMonthlySales] uses from February on. *)
Definition generalFormula (cal : Calendar) (now : Z) (sales : list Sale.t) : Q :=
  (Metrics.yearTotal cal now sales / inject_Z (getMonth cal now + 1))%Q.

(** "The January branch gives something else than the general formula
    would." *)
Definition januaryBranchDistinct (cal : Calendar) (now : Z) (sales : list Sale.t) : Prop :=
  ~ (Metrics.avgMonthlySales cal now sales == generalFormula cal now sales)%Q.

(** Every line item of every sale, in the order of the sales. *)
Definition allItems (sales : list Sale.t) : list SaleItem.t :=
  flat_map Sale.items sales.

(** The line items for one product. *)
Definition itemsOf (productId : string) (items : list SaleItem.t) : list SaleItem.t :=
  filter (fun item => String.eqb (SaleItem.productId item) productId) items.

Definition quantityOf (productId : string) (items : list SaleItem.t) : Z :=
  JS.sumZ SaleItem.quantity (itemsOf productId items).

Definition revenueOf (productId : string) (items : list SaleItem.t) : Q :=
  JS.sumQ SaleItem.totalPrice (itemsOf productId items).

(** The name on the last line item for the product, if there is one. *)
Definition lastNameOf (productId : string) (items : list SaleItem.t) : option string :=
  last (map (fun item => Some (SaleItem.productName item)) (itemsOf productId items)) None.

(** What grouping a sequence of line items by product gives for one
    product. *)
Definition accOf (productId : string) (items : list SaleItem.t) : option Metrics.Acc :=
  match lastNameOf productId items with
  | None => None
  | Some name =>
      Some {| Metrics.name := name;
              Metrics.quantity := quantityOf productId items;
              Metrics.revenue := revenueOf productId items |}
  end.

(** A per-client record of the analytics is well formed. *)
Definition ordered (e : string * Analytics.ClientPerf.t) : Prop :=
  1 <= Analytics.ClientPerf.orders (snd e) /\
  Analytics.ClientPerf.avgOrder (snd e)
  = (Analytics.ClientPerf.revenue (snd e)
     / inject_Z (Analytics.ClientPerf.orders (snd e)))%Q.

(** The server answers every request it is sent. *)
Definition answers (w : World) : Prop :=
  forall n, Db.outage (Db.env (db w)) n = false.

(** Every product and every client the hook holds has its row in the
    database. *)
Definition backed (w : World) : Prop :=
  (forall p : Product.t, In p (Hook.products (hook w)) ->
             In (Product.id p) (map Product.id (Db.products (db w)))) /\
  (forall c : Client.t, In c (Hook.clients (hook w)) ->
             In (Client.id c) (map Client.id (Db.clients (db w)))).

(** Every object the hook holds has been through [mapDbToProduct] or
    [mapDbToClient]: none is a row as [getAll] returned it. *)
Definition mapped (w : World) : Prop :=
  Forall (fun p => Held.isMapped p = true) (Hook.products (hook w)) /\
  Forall (fun c => Held.isMapped c = true) (Hook.clients (hook w)).

(** The foreign keys of a sale hold: its client and the product of
    each of its line items have their rows. *)
Definition referenced (saleData : SaleData.t) (w : World) : Prop :=
  In (SaleData.clientId saleData) (map Client.id (Db.clients (db w))) /\
  (forall item, In item (SaleData.items saleData) ->
                In (SaleItem.productId item) (map Product.id (Db.products (db w)))).

(** [{ currentStock: stock }] and [{ currentStock: NaN }] *)
Definition stockUpdate (stock : Z) : ProductUpdate.t :=
  {| ProductUpdate.name := None; ProductUpdate.category := None;
     ProductUpdate.manufacturer := None; ProductUpdate.batchNumber := None;
     ProductUpdate.expiryDate := None;
     ProductUpdate.currentStock := Some (Number.num stock);
     ProductUpdate.minStockLevel := None; ProductUpdate.unitPrice := None;
     ProductUpdate.sellingPrice := None; ProductUpdate.description := None |}.

Definition stockUpdateNaN : ProductUpdate.t :=
  {| ProductUpdate.name := None; ProductUpdate.category := None;
     ProductUpdate.manufacturer := None; ProductUpdate.batchNumber := None;
     ProductUpdate.expiryDate := None; ProductUpdate.currentStock := Some Number.NaN;
     ProductUpdate.minStockLevel := None; ProductUpdate.unitPrice := None;
     ProductUpdate.sellingPrice := None; ProductUpdate.description := None |}.

(** [{ totalPurchases: total, lastPurchaseDate: date }] and
    [{ totalPurchases: NaN, lastPurchaseDate: date }] *)
Definition purchaseUpdate (total : Q) (date : Z) : ClientUpdate.t :=
  {| ClientUpdate.name := None; ClientUpdate.email := None;
     ClientUpdate.phone := None; ClientUpdate.address := None;
     ClientUpdate.totalPurchases := Some (Number.num total);
     ClientUpdate.lastPurchaseDate := Some date |}.

Definition purchaseUpdateNaN (date : Z) : ClientUpdate.t :=
  {| ClientUpdate.name := None; ClientUpdate.email := None;
     ClientUpdate.phone := None; ClientUpdate.address := None;
     ClientUpdate.totalPurchases := Some Number.NaN;
     ClientUpdate.lastPurchaseDate := Some date |}.

Definition hasId (id : string) (p : Product.t) : bool := String.eqb (Product.id p) id.
Definition isClient (id : string) (c : Client.t) : bool := String.eqb (Client.id c) id.

(** The stock updates a sale calls for, given the products the hook
    holds: one per line item whose product is found, none for the
    others. *)
Definition stockRequests (products : list Product.t) (items : list SaleItem.t)
  : list Db.Request :=
  flat_map
    (fun item =>
       match List.find (hasId (SaleItem.productId item)) products with
       | Some product =>
           [Db.UpdateProduct
              (stockUpdate (Product.currentStock product - SaleItem.quantity item))
              (SaleItem.productId item)]
       | None => []
       end) items.

(** The client update a sale calls for, given the clients the hook
    holds. *)
Definition purchaseRequests (clients : list Client.t) (saleData : SaleData.t)
  (createdAt : Z) : list Db.Request :=
  match List.find (isClient (SaleData.clientId saleData)) clients with
  | Some client =>
      [Db.UpdateClient
         (purchaseUpdate (Client.totalPurchases client + SaleData.finalAmount saleData)
                         createdAt)
         (Client.id client)]
  | None => []
  end.

(** The two requests of [salesService.create]. *)
Definition createRequests (saleData : SaleData.t) (sale_id : string) : list Db.Request :=
  [Db.InsertSale (SaleData.clientId saleData) (SaleData.clientName saleData)
                 (SaleData.totalAmount saleData) (SaleData.discount saleData)
                 (SaleData.finalAmount saleData) (SaleData.paymentMethod saleData);
   Db.InsertSaleItems (salesService.saleItemsData sale_id (SaleData.items saleData))].

(** The stock on record for a product id, in the hook and in the
    database. *)
Definition stockOf (id : string) (products : list Product.t) : option Z :=
  option_map Product.currentStock (List.find (hasId id) products).

Definition purchasesOf (id : string) (clients : list Client.t) : option (Q * Z) :=
  option_map (fun c => (Client.totalPurchases c, Client.lastPurchaseDate c))
             (List.find (isClient id) clients).

(** The totals the hook keeps for each client agree with its sales:
    [totalPurchases] is the sum of their [finalAmount], and
    [lastPurchaseDate] the latest [createdAt] when there is a sale. *)
Definition tracksSales (sales : list Sale.t) (c : Client.t) : bool :=
  Qeq_bool (Client.totalPurchases c) (Clients.statsTotalPurchases sales (Client.id c))
  && match Clients.statsLastPurchase sales (Client.id c) with
     | Some latest => Client.lastPurchaseDate c =? latest
     | None => true
     end.

Definition totalsTrackSales (w : World) : bool :=
  forallb (tracksSales (Hook.sales (hook w))) (Hook.clients (hook w)).

(** The objects of the hook with a given id. *)
Definition holds (id : string) (p : Held.t Product.t) : bool :=
  String.eqb (Product.id (Held.columns p)) id.
Definition holdsClient (id : string) (c : Held.t Client.t) : bool :=
  String.eqb (Client.id (Held.columns c)) id.

(** The sale [salesService.create] returns when the server answers:
    the data sent, with the id and the time of the request. *)
Definition persisted (saleData : SaleData.t) (w : World) : Sale.t :=
  let n := List.length (Db.log (db w)) in
  {| Sale.id := Db.gen_random_uuid (Db.env (db w)) n;
     Sale.clientId := SaleData.clientId saleData;
     Sale.clientName := SaleData.clientName saleData;
     Sale.items := SaleData.items saleData;
     Sale.totalAmount := SaleData.totalAmount saleData;
     Sale.discount := SaleData.discount saleData;
     Sale.finalAmount := SaleData.finalAmount saleData;
     Sale.paymentMethod := SaleData.paymentMethod saleData;
     Sale.createdAt := Db.now (Db.env (db w)) n |}.

(** Its row in [sales]. *)
Definition saleRow (sale : Sale.t) : Db.SaleRow :=
  {| Db.id := Sale.id sale;
     Db.client_id := Sale.clientId sale;
     Db.client_name := Sale.clientName sale;
     Db.total_amount := Sale.totalAmount sale;
     Db.discount := Sale.discount sale;
     Db.final_amount := Sale.finalAmount sale;
     Db.payment_method := Sale.paymentMethod sale;
     Db.created_at := Sale.createdAt sale |}.

(** Two worlds that differ at most in their products and in the log of
    requests, and two that differ at most in their clients and the log. *)
Definition sameButProducts (w w' : World) : Prop :=
  Hook.clients (hook w') = Hook.clients (hook w) /\
  Hook.sales (hook w') = Hook.sales (hook w) /\
  Hook.error (hook w') = Hook.error (hook w) /\
  Db.env (db w') = Db.env (db w) /\
  Db.clients (db w') = Db.clients (db w) /\
  Db.sales (db w') = Db.sales (db w) /\
  Db.sale_items (db w') = Db.sale_items (db w).

Definition sameButClients (w w' : World) : Prop :=
  Hook.products (hook w') = Hook.products (hook w) /\
  Hook.sales (hook w') = Hook.sales (hook w) /\
  Hook.error (hook w') = Hook.error (hook w) /\
  Db.env (db w') = Db.env (db w) /\
  Db.products (db w') = Db.products (db w) /\
  Db.sales (db w') = Db.sales (db w) /\
  Db.sale_items (db w') = Db.sale_items (db w).

End Spec.

(* ================================================================== *)
(** * Grouping loops *)
(* ================================================================== *)

(** The four grouping loops of the metrics share one shape:
    [m.set(key(x), step(m.get(key(x)) || init(x), x))].  [Group.add] is
    that shape and [Group.value] what it computes for one key: the fold of
    [step] over the elements with that key, in order, from [init] of the
    first of them. *)
Module Group.
Section Fold.
Variables X V : Type.
Variable key : X -> string.
Variable init : X -> V.
Variable step : V -> X -> V.

Definition add (m : JS.Map V) (x : X) : JS.Map V :=
  JS.set (key x)
         (step (match JS.get (key x) m with Some e => e | None => init x end) x)
         m.

Definition members (k : string) (xs : list X) : list X :=
  filter (fun x => String.eqb (key x) k) xs.

Definition value (k : string) (xs : list X) : option V :=
  match members k xs with
  | [] => None
  | x0 :: rest => Some (fold_left step (x0 :: rest) (init x0))
  end.
End Fold.
End Group.

(* ================================================================== *)
(** * More vocabulary *)
(* ================================================================== *)

Module Shape.

(** The start value and the step of the per-client loop of
    Analytics.tsx (lines 71-88), of its per-month loop (97-105) and of
    its per-product loop (42-61). *)
Definition clientInit (sale : Sale.t) : Analytics.ClientPerf.t :=
  {| Analytics.ClientPerf.name := Sale.clientName sale;
     Analytics.ClientPerf.orders := 0;
     Analytics.ClientPerf.revenue := 0;
     Analytics.ClientPerf.avgOrder := 0 |}.

Definition clientStep (existing : Analytics.ClientPerf.t) (sale : Sale.t)
  : Analytics.ClientPerf.t :=
  {| Analytics.ClientPerf.name := Sale.clientName sale;
     Analytics.ClientPerf.orders := Analytics.ClientPerf.orders existing + 1;
     Analytics.ClientPerf.revenue :=
       (Analytics.ClientPerf.revenue existing + Sale.finalAmount sale)%Q;
     Analytics.ClientPerf.avgOrder :=
       ((Analytics.ClientPerf.revenue existing + Sale.finalAmount sale)
        / inject_Z (Analytics.ClientPerf.orders existing + 1))%Q |}.



(** The profit the per-product loop books for one line item. *)
Definition profitOf (products : list Product.t) (item : SaleItem.t) : Q :=
  match JS.find (fun p => String.eqb (Product.id p) (SaleItem.productId item)) products with
  | Some p => ((SaleItem.unitPrice item - Product.unitPrice p)
               * inject_Z (SaleItem.quantity item))%Q
  | None => 0%Q
  end.

Definition productInit (item : SaleItem.t) : Analytics.ProductPerf.t :=
  {| Analytics.ProductPerf.name := SaleItem.productName item;
     Analytics.ProductPerf.quantity := 0;
     Analytics.ProductPerf.revenue := 0;
     Analytics.ProductPerf.profit := 0 |}.

Definition productStep (products : list Product.t)
  (existing : Analytics.ProductPerf.t) (item : SaleItem.t) : Analytics.ProductPerf.t :=
  {| Analytics.ProductPerf.name := SaleItem.productName item;
     Analytics.ProductPerf.quantity :=
       Analytics.ProductPerf.quantity existing + SaleItem.quantity item;
     Analytics.ProductPerf.revenue :=
       (Analytics.ProductPerf.revenue existing + SaleItem.totalPrice item)%Q;
     Analytics.ProductPerf.profit :=
       (Analytics.ProductPerf.profit existing + profitOf products item)%Q |}.


End Shape.

(* ================================================================== *)
(** * src/components/Sales.tsx *)
(* ================================================================== *)

Module Sales.


Definition totalAmount (saleItems : list SaleItem.t) : Q :=
  JS.sumQ SaleItem.totalPrice saleItems.

Definition finalAmount (saleItems : list SaleItem.t) (discount : Q) : Q :=
  (totalAmount saleItems - discount)%Q.

End Sales.

(* ================================================================== *)
(** * The hook and the database side by side *)
(* ================================================================== *)

(** How the hook's state and the database stand to each other. *)
Module Sync.

(** The hook's sales are the rows of [sales], in some order. *)
Definition mirrors (w : World) : Prop :=
  Permutation (map Spec.saleRow (Hook.sales (hook w))) (Db.sales (db w)).

(** The sales of database [d] as [salesService.getAll] returns them:
    each with its line items, newest first. *)
Definition stored (d : Db.t) : list Sale.t :=
  map salesService.sale
      (map (fun s => (s, filter (fun r => String.eqb (Db.sale_id r) (Db.id s))
                                (Db.sale_items d)))
           (JS.sort (fun a b => Db.created_at b <=? Db.created_at a) (Db.sales d))).

(** A sale without the lines of one product. *)
Definition withoutProduct (id : string) (sale : Sale.t) : Sale.t :=
  {| Sale.id := Sale.id sale;
     Sale.clientId := Sale.clientId sale;
     Sale.clientName := Sale.clientName sale;
     Sale.items :=
       filter (fun item => negb (String.eqb (SaleItem.productId item) id)) (Sale.items sale);
     Sale.totalAmount := Sale.totalAmount sale;
     Sale.discount := Sale.discount sale;
     Sale.finalAmount := Sale.finalAmount sale;
     Sale.paymentMethod := Sale.paymentMethod sale;
     Sale.createdAt := Sale.createdAt sale |}.

(** From [w] to [w'] nothing is taken away: products, clients, sales,
    items and requests are only added, in the hook and in the database;
    an object that was there is still there under its id. *)
Definition grows (w w' : World) : Prop :=
  (exists more, map Product.id (Hook.products (hook w'))
                = more ++ map Product.id (Hook.products (hook w))) /\
  (exists more, map Product.id (Db.products (db w'))
                = map Product.id (Db.products (db w)) ++ more) /\
  (exists more, map Client.id (Hook.clients (hook w'))
                = more ++ map Client.id (Hook.clients (hook w))) /\
  (exists more, map Client.id (Db.clients (db w'))
                = map Client.id (Db.clients (db w)) ++ more) /\
  (exists more, Hook.sales (hook w') = more ++ Hook.sales (hook w)) /\
  (exists more, Db.sales (db w') = Db.sales (db w) ++ more) /\
  (exists more, Db.sale_items (db w') = Db.sale_items (db w) ++ more) /\
  (exists more, Db.log (db w') = Db.log (db w) ++ more).

(** A step that takes nothing away and keeps the hook backed by the
    database when it was. *)
Definition safe (w w' : World) : Prop :=
  grows w w' /\ (Spec.backed w -> Spec.backed w').

(** Started where [P] holds, [m] ends where [Q] holds of its value when
    it returns, and where [E] holds when it throws. *)
Definition hoare (A : Type) (P : World -> Prop) (m : Async A)
  (Q : A -> World -> Prop) (E : World -> Prop) : Prop :=
  forall w, P w ->
            match m w with
            | (Returned a, w') => Q a w'
            | (Thrown _, w') => E w'
            end.

End Sync.

(** The world after a request has been sent that changes no table. *)
Definition asked (req : Db.Request) (w : World) : World :=
  {| hook := hook w; db := Db.sent req (db w) |}.

(** Two steps that recur in the proofs about [Sync.grows]: nothing was
    added to a list, and nothing was added to an array of the hook. *)
Ltac same := exists []; now rewrite ?app_nil_r.
Ltac nothing := exists []; split; [reflexivity | intros x []].

(* ================================================================== *)
(** * Facts about the built-ins *)
(* ================================================================== *)

Section SortFacts.
Variable A : Type.
Variable before : A -> A -> bool.

Lemma insert_perm (x : A) (l : list A) :
  Permutation (JS.insert before x l) (x :: l).
Proof.
  induction l as [|y l IH]; simpl.
  - apply Permutation_refl.
  - destruct (before x y).
    + apply Permutation_refl.
    + eapply perm_trans; [apply perm_skip, IH | apply perm_swap].
Qed.

Lemma sort_perm (l : list A) : Permutation (JS.sort before l) l.
Proof.
  induction l as [|x l IH]; simpl.
  - constructor.
  - eapply perm_trans; [apply insert_perm | apply perm_skip, IH].
Qed.

Lemma sort_length (l : list A) : List.length (JS.sort before l) = List.length l.
Proof. apply Permutation_length, sort_perm. Qed.

(** A list that is already in order is left as it is. *)
Lemma insert_head (x : A) (l : list A) :
  Forall (fun y => before x y = true) l -> JS.insert before x l = x :: l.
Proof.
  destruct l as [|y l]; simpl; intros H.
  - reflexivity.
  - inversion H as [|? ? Hy _]; subst. now rewrite Hy.
Qed.

Lemma sort_sorted_id (l : list A) :
  StronglySorted (fun a b => before a b = true) l -> JS.sort before l = l.
Proof.
  induction 1 as [|x l Hs IH Hx]; simpl.
  - reflexivity.
  - rewrite IH. now apply insert_head.
Qed.

Hypothesis before_total : forall a b, before a b = true \/ before b a = true.
Hypothesis before_trans :
  forall a b c, before a b = true -> before b c = true -> before a c = true.

Lemma insert_sorted (x : A) (l : list A) :
  StronglySorted (fun a b => before a b = true) l ->
  StronglySorted (fun a b => before a b = true) (JS.insert before x l).
Proof.
  induction 1 as [|y l Hs IH Hy]; simpl.
  - repeat constructor.
  - destruct (before x y) eqn:E.
    + constructor.
      * now constructor.
      * constructor; [exact E|].
        eapply Forall_impl; [|exact Hy].
        intros z Hz. now apply before_trans with y.
    + constructor; [exact IH|].
      assert (Hyx : before y x = true).
      { destruct (before_total x y) as [H|H]; [congruence | exact H]. }
      eapply Permutation_Forall; [apply Permutation_sym, insert_perm|].
      now constructor.
Qed.

Lemma sort_sorted (l : list A) :
  StronglySorted (fun a b => before a b = true) (JS.sort before l).
Proof.
  induction l as [|x l IH]; simpl.
  - constructor.
  - now apply insert_sorted.
Qed.

Lemma sort_idempotent (l : list A) :
  JS.sort before (JS.sort before l) = JS.sort before l.
Proof. apply sort_sorted_id, sort_sorted. Qed.

End SortFacts.

Lemma byCreatedAtDesc_total (a b : Sale.t) :
  Metrics.byCreatedAtDesc a b = true \/ Metrics.byCreatedAtDesc b a = true.
Proof. unfold Metrics.byCreatedAtDesc. rewrite !Z.leb_le. lia. Qed.

Lemma byCreatedAtDesc_trans (a b c : Sale.t) :
  Metrics.byCreatedAtDesc a b = true -> Metrics.byCreatedAtDesc b c = true ->
  Metrics.byCreatedAtDesc a c = true.
Proof. unfold Metrics.byCreatedAtDesc. rewrite !Z.leb_le. lia. Qed.

Lemma byQuantityDesc_total (a b : TopProduct.t) :
  Metrics.byQuantityDesc a b = true \/ Metrics.byQuantityDesc b a = true.
Proof. unfold Metrics.byQuantityDesc. rewrite !Z.leb_le. lia. Qed.

Lemma byQuantityDesc_trans (a b c : TopProduct.t) :
  Metrics.byQuantityDesc a b = true -> Metrics.byQuantityDesc b c = true ->
  Metrics.byQuantityDesc a c = true.
Proof. unfold Metrics.byQuantityDesc. rewrite !Z.leb_le. lia. Qed.

Section MapFacts.
Variable V : Type.

Lemma get_set (k k' : string) (v : V) (m : JS.Map V) :
  JS.get k' (JS.set k v m) = if String.eqb k k' then Some v else JS.get k' m.
Proof.
  induction m as [|[k0 v0] m IH]; simpl.
  - reflexivity.
  - destruct (String.eqb k0 k) eqn:E0; simpl.
    + apply String.eqb_eq in E0. subst k0.
      destruct (String.eqb k k'); reflexivity.
    + destruct (String.eqb k0 k') eqn:E1.
      * apply String.eqb_eq in E1. subst k0.
        rewrite String.eqb_sym, E0. reflexivity.
      * exact IH.
Qed.

Lemma get_None (k : string) (m : JS.Map V) :
  JS.get k m = None <-> ~ In k (JS.keys m).
Proof.
  induction m as [|[k0 v0] m IH]; simpl.
  - tauto.
  - destruct (String.eqb k0 k) eqn:E.
    + apply String.eqb_eq in E. split; [discriminate | intros H; destruct H; auto].
    + apply String.eqb_neq in E. rewrite IH. tauto.
Qed.

Lemma keys_set (k : string) (v : V) (m : JS.Map V) :
  JS.keys (JS.set k v m) =
  match JS.get k m with Some _ => JS.keys m | None => JS.keys m ++ [k] end.
Proof.
  induction m as [|[k0 v0] m IH]; simpl.
  - reflexivity.
  - destruct (String.eqb k0 k) eqn:E; simpl.
    + reflexivity.
    + rewrite IH. destruct (JS.get k m); reflexivity.
Qed.

Lemma NoDup_keys_set (k : string) (v : V) (m : JS.Map V) :
  NoDup (JS.keys m) -> NoDup (JS.keys (JS.set k v m)).
Proof.
  intros H. rewrite keys_set. destruct (JS.get k m) eqn:E.
  - exact H.
  - apply get_None in E.
    apply Permutation_NoDup with (k :: JS.keys m).
    + apply Permutation_cons_append.
    + now constructor.
Qed.

Lemma In_get (k : string) (v : V) (m : JS.Map V) :
  NoDup (JS.keys m) -> In (k, v) m -> JS.get k m = Some v.
Proof.
  induction m as [|[k0 v0] m IH]; simpl; intros Hnd Hin.
  - contradiction.
  - inversion Hnd as [|? ? Hk0 Hnd']; subst.
    destruct Hin as [Heq|Hin].
    + inversion Heq; subst. now rewrite String.eqb_refl.
    + destruct (String.eqb k0 k) eqn:E.
      * apply String.eqb_eq in E. subst k0.
        exfalso. apply Hk0. unfold JS.keys. now apply (in_map fst) in Hin.
      * now apply IH.
Qed.

Lemma get_In (k : string) (v : V) (m : JS.Map V) :
  JS.get k m = Some v -> In (k, v) m.
Proof.
  induction m as [|[k0 v0] m IH]; simpl; intros H.
  - discriminate.
  - destruct (String.eqb k0 k) eqn:E.
    + apply String.eqb_eq in E. inversion H; subst. now left.
    + right. now apply IH.
Qed.

End MapFacts.

Section MapForall.
Variable V : Type.
Variable P : string * V -> Prop.

Lemma set_Forall (k : string) (v : V) (m : JS.Map V) :
  Forall P m -> (forall k', P (k', v)) -> Forall P (JS.set k v m).
Proof.
  intros Hm Hv. induction Hm as [|[k0 v0] m H0 Hm IH]; simpl.
  - repeat constructor. apply Hv.
  - destruct (String.eqb k0 k); constructor; auto.
Qed.

End MapForall.

(* ================================================================== *)
(** * Analytics averages *)
(* ================================================================== *)

Lemma ceil_whole_days (k : Z) :
  Qceiling (inject_Z (k * msPerDay) / inject_Z msPerDay) = k.
Proof.
  assert (E : (inject_Z (k * msPerDay) / inject_Z msPerDay == inject_Z k)%Q).
  { rewrite inject_Z_mult. field. discriminate. }
  rewrite E. apply Qceiling_Z.
Qed.

Lemma daysInRange_days (now : Z) (timeRange : Analytics.TimeRange) :
  Analytics.daysInRange now timeRange = Analytics.days timeRange.
Proof.
  unfold Analytics.daysInRange, Analytics.startDate.
  replace (now - (now - Analytics.days timeRange * 24 * 60 * 60 * 1000))
    with (Analytics.days timeRange * msPerDay) by (unfold msPerDay; ring).
  rewrite ceil_whole_days. destruct timeRange; reflexivity.
Qed.

(** C5.  Whatever the sales, products, clients, instant and period
    (7, 30, 90 or 365 days): the weekly, monthly and yearly averages of
    [analyticsData] are 7, 30 and 365 times the daily average; the daily
    average is the period's revenue divided by [daysInRange]; and
    [daysInRange] is [max(1, ceil((end - start) / one day))], which is
    the number of days of the period. *)
Theorem analytics_averages_are_multiples
  (cal : Calendar) (now : Z) (timeRange : Analytics.TimeRange)
  (sales : list Sale.t) (products : list Product.t) (clients : list Client.t) :
  let d := Analytics.analyticsData cal now timeRange sales products clients in
  (Analytics.r_avgWeeklyRevenue d == 7 * Analytics.r_avgDailyRevenue d)%Q /\
  (Analytics.r_avgMonthlyRevenue d == 30 * Analytics.r_avgDailyRevenue d)%Q /\
  (Analytics.r_avgYearlyRevenue d == 365 * Analytics.r_avgDailyRevenue d)%Q /\
  Analytics.r_avgDailyRevenue d
    = (Analytics.r_totalRevenue d / inject_Z (Analytics.daysInRange now timeRange))%Q /\
  Analytics.r_totalRevenue d
    = JS.sumQ Sale.finalAmount
        (filter (fun sale =>
                   (Sale.createdAt sale >=? now - Analytics.days timeRange * 24 * 60 * 60 * 1000)
                   && (Sale.createdAt sale <=? now)) sales) /\
  Analytics.daysInRange now timeRange
    = Z.max 1 (Qceiling (inject_Z (now - Analytics.startDate now timeRange)
                         / inject_Z msPerDay)) /\
  Analytics.daysInRange now timeRange = Analytics.days timeRange /\
  In (Analytics.days timeRange) [7; 30; 90; 365].
Proof.
  simpl. unfold Analytics.avgWeeklyRevenue, Analytics.avgMonthlyRevenue,
    Analytics.avgYearlyRevenue.
  repeat split; try apply Qmult_comm.
  - apply daysInRange_days.
  - destruct timeRange; simpl; auto.
Qed.

(* ================================================================== *)
(** * The monthly average of the dashboard *)
(* ================================================================== *)

Lemma div_one (x : Q) : (x == x / inject_Z (0 + 1))%Q.
Proof. simpl. field. Qed.

(** C9, as the code has it.  From February on (month index above 0)
    [avgMonthlySales] is the sum of [finalAmount] over the sales created
    on or after January 1st of the current year, divided by the month
    index plus one.  In January (month index 0) it is that sum itself,
    and that is also what the general formula gives there, the divisor
    being 1: the branch changes no output. *)
Theorem avgMonthlySales_by_month (cal : Calendar) (now : Z) (a : Metrics.Arrays) :
  let stats := fst (Metrics.calculateDashboardStats cal now a) in
  let yearly :=
    JS.sumQ Sale.finalAmount
      (filter (fun sale => Sale.createdAt sale >=? mkDate cal (getFullYear cal now) 0 1)
              (Metrics.sales a)) in
  (getMonth cal now > 0 ->
   DashboardStats.avgMonthlySales stats = (yearly / inject_Z (getMonth cal now + 1))%Q) /\
  (getMonth cal now = 0 ->
   DashboardStats.avgMonthlySales stats = yearly /\
   (DashboardStats.avgMonthlySales stats == yearly / inject_Z (getMonth cal now + 1))%Q).
Proof.
  simpl. unfold Metrics.avgMonthlySales, Metrics.yearTotal, Metrics.total,
    Metrics.since, Metrics.thisYear.
  split; intros H.
  - apply Z.gtb_gt in H. now rewrite H.
  - rewrite H. simpl (0 >? 0). cbv iota. split; [reflexivity | apply div_one].
Qed.

(** In mid-January and in mid-March. *)
Lemma avgMonthlySales_by_month_witness :
  (getMonth utc Fixtures.t0 = 0 /\
   DashboardStats.avgMonthlySales
     (fst (Metrics.calculateDashboardStats utc Fixtures.t0
             {| Metrics.products := []; Metrics.clients := [];
                Metrics.sales := [Fixtures.older; Fixtures.newer] |})) = 30%Q) /\
  (getMonth utc (Fixtures.t0 + 60 * msPerDay) > 0 /\
   DashboardStats.avgMonthlySales
     (fst (Metrics.calculateDashboardStats utc (Fixtures.t0 + 60 * msPerDay)
             {| Metrics.products := []; Metrics.clients := [];
                Metrics.sales := [Fixtures.older; Fixtures.newer] |})) = (30 / 3)%Q).
Proof.
  split; (split; [reflexivity|]).
  - exact (proj1 (proj2 (avgMonthlySales_by_month utc Fixtures.t0
             {| Metrics.products := []; Metrics.clients := [];
                Metrics.sales := [Fixtures.older; Fixtures.newer] |}) eq_refl)).
  - exact (proj1 (avgMonthlySales_by_month utc (Fixtures.t0 + 60 * msPerDay)
             {| Metrics.products := []; Metrics.clients := [];
                Metrics.sales := [Fixtures.older; Fixtures.newer] |}) eq_refl).
Defined.

(** C9 as worded fails: on 15 January 2024, with two sales of the year,
    the January branch returns exactly what the general formula
    returns. *)
Lemma january_branch_not_distinct :
  getMonth utc Fixtures.t0 = 0 /\
  ~ Spec.januaryBranchDistinct utc Fixtures.t0 [Fixtures.older; Fixtures.newer].
Proof.
  split; [reflexivity|].
  unfold Spec.januaryBranchDistinct. intros H. apply H. reflexivity.
Qed.

(* ================================================================== *)
(** * No division by zero; empty inputs *)
(* ================================================================== *)

Lemma div_checked_nonzero (r : Q) (n : Z) :
  n <> 0 -> div_checked r (inject_Z n) = Some (r / inject_Z n)%Q.
Proof.
  intros H. unfold div_checked, Qeq_bool. simpl.
  destruct (Z.eqb_spec (n * 1) 0) as [E|E]; [lia | reflexivity].
Qed.

Lemma zero_div (x : Q) : (0 / x == 0)%Q.
Proof. unfold Qdiv. apply Qmult_0_l. Qed.

Lemma avgDailySales_checked_ok cal now sales :
  Metrics.avgDailySales_checked cal now sales = Some (Metrics.avgDailySales cal now sales).
Proof.
  unfold Metrics.avgDailySales_checked, Metrics.avgDailySales.
  destruct (getDate cal now >? 0) eqn:E; [|reflexivity].
  apply div_checked_nonzero. apply Z.gtb_gt in E. lia.
Qed.

Lemma avgMonthlySales_checked_ok cal now sales :
  Metrics.avgMonthlySales_checked cal now sales
  = Some (Metrics.avgMonthlySales cal now sales).
Proof.
  unfold Metrics.avgMonthlySales_checked, Metrics.avgMonthlySales.
  destruct (getMonth cal now >? 0) eqn:E; [|reflexivity].
  apply div_checked_nonzero. apply Z.gtb_gt in E. lia.
Qed.

Lemma calculateDashboardStats_checked_ok cal now a :
  Metrics.calculateDashboardStats_checked cal now a
  = Some (Metrics.calculateDashboardStats cal now a).
Proof.
  unfold Metrics.calculateDashboardStats_checked.
  now rewrite avgDailySales_checked_ok, avgMonthlySales_checked_ok.
Qed.

Lemma daysInRange_pos now timeRange : 1 <= Analytics.daysInRange now timeRange.
Proof. unfold Analytics.daysInRange. lia. Qed.

Lemma existingClient_orders m sale :
  Forall Spec.ordered m -> 0 <= Analytics.ClientPerf.orders (Analytics.existingClient m sale).
Proof.
  intros Hm. unfold Analytics.existingClient.
  destruct (JS.get (Sale.clientId sale) m) eqn:E; simpl; [|lia].
  apply get_In in E. rewrite Forall_forall in Hm.
  destruct (Hm _ E) as [H _]. simpl in H. lia.
Qed.

Lemma addPurchase_ordered m sale :
  Forall Spec.ordered m -> Forall Spec.ordered (Analytics.addPurchase m sale).
Proof.
  intros Hm. unfold Analytics.addPurchase.
  apply set_Forall; [exact Hm|].
  intros k. pose proof (existingClient_orders sale Hm).
  split; simpl; [lia | reflexivity].
Qed.

Lemma clientPurchases_ordered_from m filtered :
  Forall Spec.ordered m -> Forall Spec.ordered (fold_left Analytics.addPurchase filtered m).
Proof.
  revert m. induction filtered as [|sale l IH]; simpl; intros m Hm.
  - exact Hm.
  - apply IH. now apply addPurchase_ordered.
Qed.

Lemma clientPurchases_checked_from m filtered :
  Forall Spec.ordered m ->
  fold_left Analytics.addPurchase_checked filtered (Some m)
  = Some (fold_left Analytics.addPurchase filtered m).
Proof.
  revert m. induction filtered as [|sale l IH]; simpl; intros m Hm.
  - reflexivity.
  - pose proof (existingClient_orders sale Hm).
    rewrite div_checked_nonzero by lia.
    apply (IH _ (addPurchase_ordered sale Hm)).
Qed.

Lemma analyticsData_checked_ok cal now timeRange sales products clients :
  Analytics.analyticsData_checked cal now timeRange sales products clients
  = Some (Analytics.analyticsData cal now timeRange sales products clients).
Proof.
  unfold Analytics.analyticsData_checked, Analytics.avgSaleValue_checked,
    Analytics.avgDailyRevenue_checked, Analytics.clientPurchases_checked.
  rewrite clientPurchases_checked_from by constructor.
  pose proof (daysInRange_pos now timeRange).
  rewrite (@div_checked_nonzero _ (Analytics.daysInRange now timeRange)) by lia.
  unfold Analytics.analyticsData, Analytics.avgSaleValue.
  destruct (Z.of_nat (List.length (Analytics.filteredSales now timeRange sales)) >? 0) eqn:E.
  - rewrite div_checked_nonzero; [reflexivity|]. apply Z.gtb_gt in E. lia.
  - reflexivity.
Qed.

(** C8.  (1) With no products, no sales and no clients the dashboard
    summary has every numeric field equal to zero and empty
    [recentSales] and [topProducts].  (2) On every input the dashboard
    and the analytics computations, run with each division checked,
    return their result: no division by zero is ever evaluated.
    (3) The two guarded divisions yield 0 when their denominator is 0
    ([avgDailySales] for a day-of-month of 0, [avgSaleValue] for no sale
    in the period); the divisors of [avgMonthlySales] and
    [avgDailyRevenue] are at least 2 and 1 where they are evaluated; and
    every per-client record holds [orders >= 1] and
    [avgOrder = revenue / orders]. *)
Theorem metrics_total_and_zero_on_empty :
  (forall cal now,
     let stats := fst (Metrics.calculateDashboardStats cal now
                         {| Metrics.products := []; Metrics.sales := [];
                            Metrics.clients := [] |}) in
     DashboardStats.totalProducts stats = 0 /\
     DashboardStats.lowStockProducts stats = 0 /\
     (DashboardStats.totalSales stats == 0)%Q /\
     DashboardStats.totalClients stats = 0 /\
     (DashboardStats.todaySales stats == 0)%Q /\
     (DashboardStats.avgDailySales stats == 0)%Q /\
     (DashboardStats.avgMonthlySales stats == 0)%Q /\
     (DashboardStats.avgYearlySales stats == 0)%Q /\
     DashboardStats.recentSales stats = [] /\
     DashboardStats.topProducts stats = []) /\
  (forall cal now a,
     Metrics.calculateDashboardStats_checked cal now a
     = Some (Metrics.calculateDashboardStats cal now a)) /\
  (forall cal now timeRange sales products clients,
     Analytics.analyticsData_checked cal now timeRange sales products clients
     = Some (Analytics.analyticsData cal now timeRange sales products clients)) /\
  (forall cal now sales,
     getDate cal now = 0 -> Metrics.avgDailySales cal now sales = 0%Q) /\
  (forall now timeRange sales,
     Analytics.filteredSales now timeRange sales = [] ->
     Analytics.avgSaleValue now timeRange sales = 0%Q) /\
  (forall cal now, getMonth cal now > 0 -> 2 <= getMonth cal now + 1) /\
  (forall now timeRange, 1 <= Analytics.daysInRange now timeRange) /\
  (forall filtered id c,
     In (id, c) (Analytics.clientPurchases filtered) ->
     1 <= Analytics.ClientPerf.orders c /\
     Analytics.ClientPerf.avgOrder c
     = (Analytics.ClientPerf.revenue c / inject_Z (Analytics.ClientPerf.orders c))%Q).
Proof.
  repeat apply conj.
  - intros cal now. simpl.
    unfold Metrics.avgDailySales, Metrics.avgMonthlySales, Metrics.yearTotal,
      Metrics.monthTotal, Metrics.todayTotal, Metrics.total, JS.sumQ. simpl.
    repeat split; try reflexivity.
    + destruct (getDate cal now >? 0); [apply zero_div | reflexivity].
    + destruct (getMonth cal now >? 0); [apply zero_div | reflexivity].
  - apply calculateDashboardStats_checked_ok.
  - apply analyticsData_checked_ok.
  - intros cal now sales H. unfold Metrics.avgDailySales. now rewrite H.
  - intros now timeRange sales H. unfold Analytics.avgSaleValue. now rewrite H.
  - intros; lia.
  - apply daysInRange_pos.
  - intros filtered id c Hin.
    pose proof (@clientPurchases_ordered_from [] filtered (Forall_nil _)) as H.
    rewrite Forall_forall in H. exact (H _ Hin).
Qed.

(** The guards of C8 on inputs that reach them: a clock reading day 0,
    a period without sales, a day in March, and a client with one
    order. *)
Lemma metrics_total_and_zero_on_empty_witness :
  (getDate Fixtures.stopped 0 = 0 /\
   Metrics.avgDailySales Fixtures.stopped 0 [Fixtures.older] = 0%Q) /\
  (Analytics.filteredSales Fixtures.t0 Analytics.R7d [] = [] /\
   Analytics.avgSaleValue Fixtures.t0 Analytics.R7d [] = 0%Q) /\
  (getMonth utc (Fixtures.t0 + 60 * msPerDay) > 0 /\
   2 <= getMonth utc (Fixtures.t0 + 60 * msPerDay) + 1) /\
  (let alice := {| Analytics.ClientPerf.name := "Alice"; Analytics.ClientPerf.orders := 1;
                   Analytics.ClientPerf.revenue := 0 + 20;
                   Analytics.ClientPerf.avgOrder := (0 + 20) / inject_Z (0 + 1) |} in
   In ("c1"%string, alice) (Analytics.clientPurchases [Fixtures.older]) /\
   1 <= Analytics.ClientPerf.orders alice /\
   Analytics.ClientPerf.avgOrder alice
   = (Analytics.ClientPerf.revenue alice / inject_Z (Analytics.ClientPerf.orders alice))%Q).
Proof.
  pose proof metrics_total_and_zero_on_empty
    as (_ & _ & _ & Hdaily & Hsale & Hmonth & _ & Horders).
  repeat apply conj.
  - reflexivity.
  - apply Hdaily. reflexivity.
  - reflexivity.
  - apply Hsale. reflexivity.
  - reflexivity.
  - apply Hmonth. reflexivity.
  - left. reflexivity.
  - apply (Horders [Fixtures.older] "c1"%string _ (or_introl eq_refl)).
  - apply (Horders [Fixtures.older] "c1"%string _ (or_introl eq_refl)).
Defined.

(* ================================================================== *)
(** * Sums *)
(* ================================================================== *)

Section Sums.
Variable A : Type.

Lemma sumZ_from (f : A -> Z) (l : list A) (a : Z) :
  fold_left (fun sum x => sum + f x) l a = a + JS.sumZ f l.
Proof.
  unfold JS.sumZ. revert a. induction l as [|x l IH]; simpl; intros a.
  - lia.
  - rewrite IH, (IH (f x)). lia.
Qed.

Lemma sumZ_cons (f : A -> Z) (x : A) (l : list A) :
  JS.sumZ f (x :: l) = f x + JS.sumZ f l.
Proof. unfold JS.sumZ at 1. simpl. apply sumZ_from. Qed.

Lemma sumZ_app (f : A -> Z) (l l' : list A) :
  JS.sumZ f (l ++ l') = JS.sumZ f l + JS.sumZ f l'.
Proof.
  induction l as [|x l IH]; simpl.
  - reflexivity.
  - rewrite !sumZ_cons, IH. lia.
Qed.

Lemma sumZ_perm (f : A -> Z) (l l' : list A) :
  Permutation l l' -> JS.sumZ f l = JS.sumZ f l'.
Proof.
  induction 1; rewrite ?sumZ_cons; lia.
Qed.

Lemma sumZ_nonneg (f : A -> Z) (l : list A) :
  Forall (fun x => 0 <= f x) l -> 0 <= JS.sumZ f l.
Proof.
  induction 1 as [|x l Hx Hl IH]; [reflexivity|]. rewrite sumZ_cons. lia.
Qed.

Lemma sumZ_firstn (f : A -> Z) (n : nat) (l : list A) :
  Forall (fun x => 0 <= f x) l -> JS.sumZ f (firstn n l) <= JS.sumZ f l.
Proof.
  intros H. rewrite <- (firstn_skipn n l) at 2. rewrite sumZ_app.
  assert (0 <= JS.sumZ f (skipn n l)); [|lia].
  apply sumZ_nonneg. rewrite <- (firstn_skipn n l) in H.
  now apply Forall_app in H.
Qed.

Lemma sumQ_from (f : A -> Q) (l : list A) (a : Q) :
  (fold_left (fun sum x => sum + f x) l a == a + JS.sumQ f l)%Q.
Proof.
  unfold JS.sumQ. revert a. induction l as [|x l IH]; simpl; intros a.
  - ring.
  - rewrite IH, (IH (0 + f x)%Q). ring.
Qed.

Lemma sumQ_cons (f : A -> Q) (x : A) (l : list A) :
  (JS.sumQ f (x :: l) == f x + JS.sumQ f l)%Q.
Proof. unfold JS.sumQ at 1. simpl. rewrite sumQ_from. ring. Qed.

Lemma sumQ_snoc (f : A -> Q) (l : list A) (x : A) :
  JS.sumQ f (l ++ [x]) = (JS.sumQ f l + f x)%Q.
Proof. unfold JS.sumQ. now rewrite fold_left_app. Qed.

Lemma sumQ_perm (f : A -> Q) (l l' : list A) :
  Permutation l l' -> (JS.sumQ f l == JS.sumQ f l')%Q.
Proof.
  induction 1 as [|x l l' _ IH|x y l|l l' l'' _ IH1 _ IH2].
  - reflexivity.
  - rewrite !sumQ_cons, IH. reflexivity.
  - rewrite !sumQ_cons. ring.
  - now rewrite IH1.
Qed.

End Sums.

Section ListFacts.
Variable A : Type.

Lemma In_firstn (n : nat) (x : A) (l : list A) : In x (firstn n l) -> In x l.
Proof.
  intros H. rewrite <- (firstn_skipn n l). apply in_or_app. now left.
Qed.

Lemma NoDup_map_firstn (B : Type) (f : A -> B) (n : nat) (l : list A) :
  NoDup (map f l) -> NoDup (map f (firstn n l)).
Proof.
  revert n. induction l as [|x l IH]; intros [|n] H; simpl; try constructor.
  - inversion H as [|? ? Hx Hl]; subst. intros Hin. apply Hx.
    apply in_map_iff in Hin. destruct Hin as (y & Hy & Hin).
    apply in_map_iff. exists y. split; [exact Hy | now apply In_firstn in Hin].
  - inversion H; subst. now apply IH.
Qed.

Lemma StronglySorted_firstn (R : A -> A -> Prop) (n : nat) (l : list A) :
  StronglySorted R l -> StronglySorted R (firstn n l).
Proof.
  intros H. revert n. induction H as [|x l Hs IH Hx]; intros [|n]; simpl;
    try constructor.
  - apply IH.
  - rewrite Forall_forall in *. intros y Hy. apply Hx. now apply In_firstn in Hy.
Qed.

Lemma StronglySorted_app_cross (R : A -> A -> Prop) (l1 l2 : list A) :
  StronglySorted R (l1 ++ l2) -> Forall (fun x => Forall (R x) l2) l1.
Proof.
  induction l1 as [|x l1 IH]; simpl; intros H; [constructor|].
  inversion H as [|? ? Hs Hx]; subst. constructor.
  - now apply Forall_app in Hx.
  - now apply IH.
Qed.

Lemma StronglySorted_weaken (R R' : A -> A -> Prop) (l : list A) :
  (forall x y, R x y -> R' x y) -> StronglySorted R l -> StronglySorted R' l.
Proof.
  intros HR. induction 1 as [|x l Hs IH Hx]; constructor.
  - exact IH.
  - eapply Forall_impl; [|exact Hx]. intros y. apply HR.
Qed.

Lemma Permutation_flat_map' (B : Type) (g : A -> list B) (l l' : list A) :
  Permutation l l' -> Permutation (flat_map g l) (flat_map g l').
Proof.
  induction 1 as [|x l l' _ IH|x y l|l l' l'' _ IH1 _ IH2]; simpl.
  - constructor.
  - now apply Permutation_app_head.
  - rewrite !app_assoc. apply Permutation_app_tail, Permutation_app_comm.
  - now apply perm_trans with (flat_map g l').
Qed.

Lemma Permutation_filter' (f : A -> bool) (l l' : list A) :
  Permutation l l' -> Permutation (filter f l) (filter f l').
Proof.
  induction 1 as [|x l l' _ IH|x y l|l l' l'' _ IH1 _ IH2]; simpl.
  - constructor.
  - destruct (f x); [now constructor | exact IH].
  - destruct (f x), (f y); try apply Permutation_refl. apply perm_swap.
  - now apply perm_trans with (filter f l').
Qed.

End ListFacts.

(* ================================================================== *)
(** * Top products of the dashboard *)
(* ================================================================== *)

Lemma productSales_flat (sales : list Sale.t) (m : JS.Map Metrics.Acc) :
  fold_left (fun m sale => fold_left Metrics.addItem (Sale.items sale) m) sales m
  = fold_left Metrics.addItem (Spec.allItems sales) m.
Proof.
  revert m. induction sales as [|sale sales IH]; simpl; intros m.
  - reflexivity.
  - unfold Spec.allItems in *. simpl. now rewrite fold_left_app, IH.
Qed.

Lemma itemsOf_snoc (pid : string) (items : list SaleItem.t) (x : SaleItem.t) :
  Spec.itemsOf pid (items ++ [x])
  = if String.eqb (SaleItem.productId x) pid
    then Spec.itemsOf pid items ++ [x] else Spec.itemsOf pid items.
Proof.
  unfold Spec.itemsOf. rewrite filter_app. simpl.
  destruct (String.eqb (SaleItem.productId x) pid); [reflexivity | apply app_nil_r].
Qed.

Lemma lastNameOf_None (pid : string) (items : list SaleItem.t) :
  Spec.lastNameOf pid items = None -> Spec.itemsOf pid items = [].
Proof.
  unfold Spec.lastNameOf.
  destruct (Spec.itemsOf pid items) as [|x l] using rev_ind; [reflexivity|].
  rewrite map_app. simpl. rewrite last_last. discriminate.
Qed.

(** The map built by the loops holds, for each product, the last name
    seen and the two sums. *)
Lemma get_grouped (items : list SaleItem.t) (pid : string) :
  JS.get pid (fold_left Metrics.addItem items []) = Spec.accOf pid items.
Proof.
  induction items as [|x items IH] using rev_ind.
  - reflexivity.
  - rewrite fold_left_app. simpl. unfold Metrics.addItem at 1.
    rewrite get_set. unfold Spec.accOf, Spec.lastNameOf, Spec.quantityOf, Spec.revenueOf.
    rewrite itemsOf_snoc.
    destruct (String.eqb (SaleItem.productId x) pid) eqn:E.
    + apply String.eqb_eq in E. subst pid.
      rewrite map_app. simpl. rewrite last_last.
      rewrite sumZ_app, sumQ_snoc. rewrite IH.
      unfold Spec.accOf.
      destruct (Spec.lastNameOf (SaleItem.productId x) items) eqn:L; simpl.
      * reflexivity.
      * apply lastNameOf_None in L.
        unfold Spec.quantityOf, Spec.revenueOf. rewrite L. reflexivity.
    + exact IH.
Qed.

Lemma NoDup_grouped (items : list SaleItem.t) (m : JS.Map Metrics.Acc) :
  NoDup (JS.keys m) -> NoDup (JS.keys (fold_left Metrics.addItem items m)).
Proof.
  revert m. induction items as [|x items IH]; simpl; intros m H.
  - exact H.
  - apply IH. unfold Metrics.addItem. now apply NoDup_keys_set.
Qed.

Lemma productId_toTopProduct (m : JS.Map Metrics.Acc) :
  map TopProduct.productId (map Metrics.toTopProduct m) = JS.keys m.
Proof. unfold JS.keys. rewrite map_map. reflexivity. Qed.

Lemma sumZ_map (A B : Type) (g : A -> B) (f : B -> Z) (l : list A) :
  JS.sumZ f (map g l) = JS.sumZ (fun x => f (g x)) l.
Proof.
  induction l as [|x l IH]; simpl; [reflexivity|]. now rewrite !sumZ_cons, IH.
Qed.

Lemma sum_quantity_set (k : string) (v : Metrics.Acc) (m : JS.Map Metrics.Acc) :
  JS.sumZ (fun e => Metrics.quantity (snd e)) (JS.set k v m)
  = JS.sumZ (fun e => Metrics.quantity (snd e)) m
    - match JS.get k m with Some e => Metrics.quantity e | None => 0 end
    + Metrics.quantity v.
Proof.
  induction m as [|[k0 v0] m IH]; simpl.
  - rewrite sumZ_cons. unfold JS.sumZ. simpl. lia.
  - destruct (String.eqb k0 k); rewrite !sumZ_cons; simpl; [lia|].
    rewrite IH. lia.
Qed.

Lemma sum_quantity_grouped (items : list SaleItem.t) (m : JS.Map Metrics.Acc) :
  JS.sumZ (fun e => Metrics.quantity (snd e)) (fold_left Metrics.addItem items m)
  = JS.sumZ (fun e => Metrics.quantity (snd e)) m + JS.sumZ SaleItem.quantity items.
Proof.
  revert m. induction items as [|x items IH]; simpl; intros m.
  - unfold JS.sumZ at 3. simpl. lia.
  - rewrite IH, sumZ_cons. unfold Metrics.addItem. rewrite sum_quantity_set.
    destruct (JS.get (SaleItem.productId x) m); simpl; lia.
Qed.

Lemma seen_perm (sales : list Sale.t) :
  Permutation (Spec.allItems (JS.sort Metrics.byCreatedAtDesc sales)) (Spec.allItems sales).
Proof. apply Permutation_flat_map', sort_perm. Qed.

Lemma quantityOf_nonneg (pid : string) (items : list SaleItem.t) :
  (forall item, In item items -> 0 <= SaleItem.quantity item) ->
  0 <= Spec.quantityOf pid items.
Proof.
  intros H. apply sumZ_nonneg. apply Forall_forall. intros x Hx.
  apply filter_In in Hx. apply H, Hx.
Qed.

(** What an entry of the grouping is, in terms of the line items. *)
Lemma grouped_entry (sales : list Sale.t) (k : string) (acc : Metrics.Acc) :
  In (k, acc) (Metrics.productSales sales) ->
  Spec.accOf k (Spec.allItems sales) = Some acc.
Proof.
  intros Hin. unfold Metrics.productSales in Hin. rewrite productSales_flat in Hin.
  rewrite <- get_grouped. apply In_get; [|exact Hin].
  apply NoDup_grouped. constructor.
Qed.

Lemma grouped_keys (sales : list Sale.t) (k : string) :
  In k (JS.keys (Metrics.productSales sales))
  <-> In k (map SaleItem.productId (Spec.allItems sales)).
Proof.
  unfold Metrics.productSales. rewrite productSales_flat.
  split.
  - intros Hin.
    destruct (JS.get k (fold_left Metrics.addItem (Spec.allItems sales) [])) as [acc|] eqn:G.
    + rewrite get_grouped in G. unfold Spec.accOf in G.
      destruct (Spec.lastNameOf k (Spec.allItems sales)) eqn:L; [|discriminate].
      unfold Spec.lastNameOf in L.
      destruct (Spec.itemsOf k (Spec.allItems sales)) as [|x l] eqn:F; [discriminate|].
      assert (Hx : In x (Spec.itemsOf k (Spec.allItems sales))) by (rewrite F; now left).
      apply filter_In in Hx. destruct Hx as [Hx Hk]. apply String.eqb_eq in Hk.
      apply in_map_iff. now exists x.
    + apply get_None in G. contradiction.
  - intros Hin. apply in_map_iff in Hin. destruct Hin as (item & <- & Hitem).
    destruct (in_dec string_dec (SaleItem.productId item)
                (JS.keys (fold_left Metrics.addItem (Spec.allItems sales) [])))
      as [H|H]; [exact H|].
    exfalso. apply get_None in H. rewrite get_grouped in H. unfold Spec.accOf in H.
    destruct (Spec.lastNameOf (SaleItem.productId item) (Spec.allItems sales)) eqn:L;
      [discriminate|].
    apply lastNameOf_None in L.
    assert (Hx : In item (Spec.itemsOf (SaleItem.productId item) (Spec.allItems sales))).
    { apply filter_In. split; [exact Hitem | apply String.eqb_refl]. }
    rewrite L in Hx. exact Hx.
Qed.

(** C6, with its last clause under the condition it needs.  For every
    sale list (and whatever the other two lists and the instant), with
    [top] the dashboard's [topProducts]:
    - each entry's [quantitySold] is the sum of the quantities, and its
      [revenue] the sum of the [totalPrice]s, of all line items of all
      the sales that carry its [productId]; its name is the name on the
      last such line item the loops see (they run over the sales in
      descending [createdAt], the order line 36 has put them in, which
      is the order of the list when it was so ordered already);
    - no [productId] occurs twice;
    - there are as many entries as there are products among the line
      items, up to 5, and at most 5;
    - a product left out has sold no more than any entry has, so the
      entries are the products that sold most; when at most five
      products were sold every one of them has its entry;
    - the entries are in non-increasing order of [quantitySold];
    - when no line item has a negative quantity, their [quantitySold]
      add up to at most the total quantity of all line items. *)
Theorem topProducts_grouped_sorted_bounded
  (cal : Calendar) (now : Z) (a : Metrics.Arrays) :
  let top := DashboardStats.topProducts (fst (Metrics.calculateDashboardStats cal now a)) in
  let items := Spec.allItems (Metrics.sales a) in
  let seen := Spec.allItems (JS.sort Metrics.byCreatedAtDesc (Metrics.sales a)) in
  let sold := nodup string_dec (map SaleItem.productId items) in
  (forall e, In e top ->
     TopProduct.quantitySold e = Spec.quantityOf (TopProduct.productId e) items /\
     (TopProduct.revenue e == Spec.revenueOf (TopProduct.productId e) items)%Q /\
     Some (TopProduct.productName e) = Spec.lastNameOf (TopProduct.productId e) seen /\
     exists item, In item items /\ SaleItem.productId item = TopProduct.productId e) /\
  NoDup (map TopProduct.productId top) /\
  List.length top = Nat.min 5 (List.length sold) /\
  (List.length top <= 5)%nat /\
  (forall item e,
     In item items ->
     ~ In (SaleItem.productId item) (map TopProduct.productId top) ->
     In e top ->
     Spec.quantityOf (SaleItem.productId item) items <= TopProduct.quantitySold e) /\
  ((List.length sold <= 5)%nat ->
   forall item, In item items -> In (SaleItem.productId item) (map TopProduct.productId top)) /\
  StronglySorted (fun x y => TopProduct.quantitySold x >= TopProduct.quantitySold y) top /\
  ((forall item, In item items -> 0 <= SaleItem.quantity item) ->
   JS.sumZ TopProduct.quantitySold top <= JS.sumZ SaleItem.quantity items) /\
  (StronglySorted (fun x y => Metrics.byCreatedAtDesc x y = true) (Metrics.sales a) ->
   seen = items).
Proof.
  simpl. unfold Metrics.topProducts, JS.slice0, JS.entries.
  set (sorted := JS.sort Metrics.byCreatedAtDesc (Metrics.sales a)).
  set (m := Metrics.productSales sorted).
  set (ranked := JS.sort Metrics.byQuantityDesc (map Metrics.toTopProduct m)).
  assert (Hnd : NoDup (JS.keys m)).
  { unfold m, Metrics.productSales. rewrite productSales_flat.
    apply NoDup_grouped. constructor. }
  assert (Hentry : forall e,
             In e ranked ->
             exists k acc, e = Metrics.toTopProduct (k, acc) /\
                           Spec.accOf k (Spec.allItems sorted) = Some acc).
  { intros e He. apply (Permutation_in _ (sort_perm _ _)) in He.
    apply in_map_iff in He. destruct He as ([k acc] & <- & Hin).
    exists k, acc. split; [reflexivity | now apply grouped_entry]. }
  assert (Hquantity : forall e,
             In e ranked ->
             TopProduct.quantitySold e
             = Spec.quantityOf (TopProduct.productId e) (Spec.allItems (Metrics.sales a))).
  { intros e He. destruct (Hentry e He) as (k & acc & -> & Hacc). simpl.
    unfold Spec.accOf in Hacc.
    destruct (Spec.lastNameOf k (Spec.allItems sorted)); [|discriminate].
    inversion Hacc; subst acc; simpl.
    apply sumZ_perm, Permutation_filter', seen_perm. }
  assert (Hkeys : forall k,
             In k (JS.keys m)
             <-> In k (nodup string_dec
                         (map SaleItem.productId (Spec.allItems (Metrics.sales a))))).
  { intros k. rewrite nodup_In. unfold m. rewrite grouped_keys. split; intros H.
    - apply (Permutation_in _ (Permutation_map _ (seen_perm _))), H.
    - apply (Permutation_in _ (Permutation_sym (Permutation_map _ (seen_perm _)))), H. }
  assert (Hids : Permutation (map TopProduct.productId ranked) (JS.keys m)).
  { unfold ranked. rewrite <- productId_toTopProduct.
    apply Permutation_map, sort_perm. }
  assert (Hlen : List.length ranked
                 = List.length (nodup string_dec
                                  (map SaleItem.productId
                                       (Spec.allItems (Metrics.sales a))))).
  { rewrite <- (length_map TopProduct.productId), (Permutation_length Hids).
    apply Permutation_length, NoDup_Permutation; [exact Hnd | apply NoDup_nodup | exact Hkeys]. }
  assert (Hsorted : StronglySorted (fun x y => Metrics.byQuantityDesc x y = true) ranked).
  { apply sort_sorted; [apply byQuantityDesc_total | apply byQuantityDesc_trans]. }
  assert (Hall : forall item,
             In item (Spec.allItems (Metrics.sales a)) ->
             In (SaleItem.productId item) (map TopProduct.productId ranked)).
  { intros item Hitem. apply (Permutation_in _ (Permutation_sym Hids)).
    apply Hkeys, nodup_In, in_map, Hitem. }
  repeat apply conj.
  - intros e He. apply In_firstn in He.
    split; [now apply Hquantity|].
    destruct (Hentry e He) as (k & acc & -> & Hacc). simpl.
    unfold Spec.accOf in Hacc.
    destruct (Spec.lastNameOf k (Spec.allItems sorted)) as [nm|] eqn:L; [|discriminate].
    inversion Hacc; subst acc; simpl.
    repeat apply conj.
    + apply sumQ_perm, Permutation_filter', seen_perm.
    + reflexivity.
    + unfold Spec.lastNameOf in L.
      destruct (Spec.itemsOf k (Spec.allItems sorted)) as [|x l] eqn:F; [discriminate|].
      assert (Hx : In x (Spec.itemsOf k (Spec.allItems sorted))) by (rewrite F; now left).
      apply filter_In in Hx. destruct Hx as [Hx Hk].
      exists x. split.
      * apply (Permutation_in _ (seen_perm _)), Hx.
      * now apply String.eqb_eq.
  - apply NoDup_map_firstn.
    apply (Permutation_NoDup (Permutation_sym Hids) Hnd).
  - rewrite length_firstn, Hlen. reflexivity.
  - apply firstn_le_length.
  - intros item e Hitem Hout He.
    assert (Hin := Hall item Hitem).
    apply in_map_iff in Hin. destruct Hin as (g & Hg & Hgin).
    rewrite <- Hg, <- (Hquantity g Hgin).
    rewrite <- (firstn_skipn 5 ranked) in Hgin, Hsorted.
    apply in_app_or in Hgin. destruct Hgin as [Hgin|Hgin].
    { exfalso. apply Hout. rewrite <- Hg. now apply in_map. }
    apply StronglySorted_app_cross in Hsorted.
    rewrite Forall_forall in Hsorted. specialize (Hsorted e He).
    rewrite Forall_forall in Hsorted. specialize (Hsorted g Hgin).
    unfold Metrics.byQuantityDesc in Hsorted. apply Z.leb_le in Hsorted. lia.
  - intros Hfew item Hitem.
    rewrite firstn_all2 by (rewrite Hlen; exact Hfew).
    now apply Hall.
  - apply StronglySorted_firstn.
    eapply StronglySorted_weaken; [|exact Hsorted].
    intros x y H. unfold Metrics.byQuantityDesc in H. apply Z.leb_le in H. lia.
  - intros Hq.
    assert (Hq' : forall item, In item (Spec.allItems sorted) -> 0 <= SaleItem.quantity item).
    { intros item Hin. apply Hq, (Permutation_in _ (seen_perm _)), Hin. }
    eapply Z.le_trans.
    { apply sumZ_firstn. apply Forall_forall. intros e He.
      destruct (Hentry e He) as (k & acc & -> & Hacc). simpl.
      unfold Spec.accOf in Hacc.
      destruct (Spec.lastNameOf k (Spec.allItems sorted)); [|discriminate].
      inversion Hacc; subst acc; simpl. now apply quantityOf_nonneg. }
    unfold ranked. rewrite (sumZ_perm _ (sort_perm _ _)).
    rewrite sumZ_map. simpl.
    unfold m, Metrics.productSales. rewrite productSales_flat, sum_quantity_grouped.
    unfold sorted. rewrite (sumZ_perm _ (seen_perm _)). unfold JS.sumZ at 1. simpl. lia.
  - intros Hs. unfold sorted. now rewrite sort_sorted_id.
Qed.

(** Two sales of one product, the older one first in the list: the
    entry carries the older sale's name for it, the last one seen once
    the list is in descending order. *)
Lemma topProducts_grouped_sorted_bounded_witness :
  let a := {| Metrics.products := [Fixtures.paracetamol];
              Metrics.sales := [Fixtures.older; Fixtures.newer];
              Metrics.clients := [Fixtures.alice] |} in
  let top := DashboardStats.topProducts
               (fst (Metrics.calculateDashboardStats utc Fixtures.t0 a)) in
  (forall item, In item (Spec.allItems (Metrics.sales a)) -> 0 <= SaleItem.quantity item) /\
  JS.sumZ TopProduct.quantitySold top
  <= JS.sumZ SaleItem.quantity (Spec.allItems (Metrics.sales a)) /\
  In "p1"%string (map TopProduct.productId top) /\
  top = [{| TopProduct.productId := "p1"; TopProduct.productName := "Paracetamol 500";
            TopProduct.quantitySold := 3; TopProduct.revenue := 0 + 10 + 20 |}].
Proof.
  intros a top.
  assert (H : forall item, In item (Spec.allItems (Metrics.sales a)) ->
                           0 <= SaleItem.quantity item).
  { simpl. intros item [<-|[<-|[]]]; simpl; lia. }
  pose proof (topProducts_grouped_sorted_bounded utc Fixtures.t0 a)
    as (_ & _ & _ & _ & _ & Hall & _ & Hsum & _).
  repeat apply conj.
  - exact H.
  - apply Hsum, H.
  - apply (Hall ltac:(vm_compute; lia) (Fixtures.item "p1" "Paracetamol 500" 2 10)).
    simpl. now left.
  - reflexivity.
Defined.

(** C6 as worded fails: the last clause has no condition on the
    quantities.  Five products are sold once each and a sixth is taken
    back, a line item of quantity -1.  The five entries add up to 5;
    the quantities of all the line items add up to 4. *)
Lemma topProducts_sum_above_total :
  let a := {| Metrics.products := []; Metrics.sales := [Fixtures.returned];
              Metrics.clients := [] |} in
  let top := DashboardStats.topProducts
               (fst (Metrics.calculateDashboardStats utc Fixtures.t0 a)) in
  JS.sumZ TopProduct.quantitySold top = 5 /\
  JS.sumZ SaleItem.quantity (Spec.allItems (Metrics.sales a)) = 4 /\
  ~ (JS.sumZ TopProduct.quantitySold top
     <= JS.sumZ SaleItem.quantity (Spec.allItems (Metrics.sales a))).
Proof.
  vm_compute. repeat split. intros H. now apply H.
Qed.

(* ================================================================== *)
(** * What [calculateDashboardStats] does to its arguments *)
(* ================================================================== *)

(** [products] and [clients] are left alone; [sales] is left sorted by
    [createdAt], newest first: the same sales in another order.  The
    arrays are as they were exactly when [sales] was so sorted
    already. *)
Lemma calculateDashboardStats_arrays (cal : Calendar) (now : Z) (a : Metrics.Arrays) :
  let after := snd (Metrics.calculateDashboardStats cal now a) in
  Metrics.products after = Metrics.products a /\
  Metrics.clients after = Metrics.clients a /\
  Metrics.sales after = JS.sort Metrics.byCreatedAtDesc (Metrics.sales a) /\
  Permutation (Metrics.sales after) (Metrics.sales a) /\
  (StronglySorted (fun x y => Metrics.byCreatedAtDesc x y = true) (Metrics.sales a) <->
   after = a).
Proof.
  simpl. repeat split.
  - apply sort_perm.
  - intros H. rewrite sort_sorted_id by exact H. now destruct a.
  - intros H. apply (f_equal Metrics.sales) in H. simpl in H. rewrite <- H.
    apply sort_sorted; [apply byCreatedAtDesc_total | apply byCreatedAtDesc_trans].
Qed.

(** Calling it again on the arrays as the first call left them changes
    nothing more and gives the same lists and counts; the sums are over
    the same sales in another order. *)
Lemma calculateDashboardStats_again (cal : Calendar) (now : Z) (a : Metrics.Arrays) :
  let first := Metrics.calculateDashboardStats cal now a in
  let second := Metrics.calculateDashboardStats cal now (snd first) in
  snd second = snd first /\
  DashboardStats.recentSales (fst second) = DashboardStats.recentSales (fst first) /\
  DashboardStats.topProducts (fst second) = DashboardStats.topProducts (fst first) /\
  DashboardStats.totalProducts (fst second) = DashboardStats.totalProducts (fst first) /\
  DashboardStats.lowStockProducts (fst second) = DashboardStats.lowStockProducts (fst first) /\
  DashboardStats.totalClients (fst second) = DashboardStats.totalClients (fst first) /\
  (DashboardStats.totalSales (fst second) == DashboardStats.totalSales (fst first))%Q /\
  (DashboardStats.todaySales (fst second) == DashboardStats.todaySales (fst first))%Q /\
  (DashboardStats.avgYearlySales (fst second) == DashboardStats.avgYearlySales (fst first))%Q /\
  (DashboardStats.avgDailySales (fst second) == DashboardStats.avgDailySales (fst first))%Q /\
  (DashboardStats.avgMonthlySales (fst second)
   == DashboardStats.avgMonthlySales (fst first))%Q.
Proof.
  simpl.
  rewrite (@sort_idempotent _ _ byCreatedAtDesc_total byCreatedAtDesc_trans).
  assert (Hsince : forall t,
            (Metrics.total (Metrics.since t (JS.sort Metrics.byCreatedAtDesc (Metrics.sales a)))
             == Metrics.total (Metrics.since t (Metrics.sales a)))%Q).
  { intros t. apply sumQ_perm, Permutation_filter', sort_perm. }
  repeat split.
  - apply sumQ_perm, sort_perm.
  - apply Hsince.
  - apply Hsince.
  - unfold Metrics.avgDailySales, Metrics.monthTotal.
    destruct (getDate cal now >? 0); [|reflexivity]. now rewrite Hsince.
  - unfold Metrics.avgMonthlySales, Metrics.yearTotal.
    destruct (getMonth cal now >? 0); [|apply Hsince]. now rewrite Hsince.
Qed.

(** C7 at a list of two sales given oldest first: on return the caller's
    [sales] array holds them newest first.  [products] and [clients]
    are as they were. *)
Theorem calculateDashboardStats_reorders_sales :
  let a := {| Metrics.products := [Fixtures.paracetamol; Fixtures.bandage];
              Metrics.sales := [Fixtures.older; Fixtures.newer];
              Metrics.clients := [Fixtures.alice] |} in
  let after := snd (Metrics.calculateDashboardStats utc Fixtures.t0 a) in
  Metrics.sales after = [Fixtures.newer; Fixtures.older] /\
  Metrics.sales after <> Metrics.sales a /\
  Metrics.products after = Metrics.products a /\
  Metrics.clients after = Metrics.clients a.
Proof.
  simpl. repeat split. discriminate.
Qed.

(* ================================================================== *)
(** * Running [addSale] against a server that answers *)
(* ================================================================== *)

Lemma for_of_cons (A : Type) (x : A) (xs : list A) (body : A -> Async unit) (w : World) :
  for_of (x :: xs) body w
  = match body x w with
    | (Returned _, w') => for_of xs body w'
    | (Thrown e, w') => (Thrown e, w')
    end.
Proof. reflexivity. Qed.

(** A loop over [pre ++ rest] is the loop over [pre] followed, if it
    did not throw, by the loop over [rest] from the state [pre] left:
    what [pre] wrote stays written whatever [rest] does. *)
Lemma for_of_app (A : Type) (pre rest : list A) (body : A -> Async unit) (w : World) :
  for_of (pre ++ rest) body w
  = match for_of pre body w with
    | (Returned _, w') => for_of rest body w'
    | (Thrown e, w') => (Thrown e, w')
    end.
Proof.
  revert w. induction pre as [|x pre IH]; intros w.
  - reflexivity.
  - simpl app. rewrite !for_of_cons.
    destruct (body x w) as [[u|e] w']; [apply IH | reflexivity].
Qed.

Lemma find_hasId (id : string) (l : list Product.t) (p : Product.t) :
  List.find (Spec.hasId id) l = Some p -> In p l /\ Product.id p = id.
Proof.
  intros H. apply find_some in H. destruct H as [Hin Hid].
  split; [exact Hin | now apply String.eqb_eq].
Qed.

Lemma find_isClient (id : string) (l : list Client.t) (c : Client.t) :
  List.find (Spec.isClient id) l = Some c -> In c l /\ Client.id c = id.
Proof.
  intros H. apply find_some in H. destruct H as [Hin Hid].
  split; [exact Hin | now apply String.eqb_eq].
Qed.

Section FindById.
Variable A : Type.
Variable key : A -> string.

Lemma In_keys_find (id : string) (l : list A) :
  In id (map key l) -> exists a, List.find (fun a => String.eqb (key a) id) l = Some a.
Proof.
  induction l as [|x l IH]; simpl; intros H.
  - contradiction.
  - destruct (String.eqb (key x) id) eqn:E.
    + now exists x.
    + destruct H as [H|H]; [|now apply IH].
      apply String.eqb_neq in E. contradiction.
Qed.

Lemma map_keys_update (f : A -> A) (l : list A) :
  (forall a, key (f a) = key a) -> map key (map f l) = map key l.
Proof.
  intros Hf. rewrite map_map. apply map_ext. exact Hf.
Qed.

Lemma find_map_update (f : A -> A) (id : string) (l : list A) :
  (forall a, key (f a) = key a) ->
  List.find (fun a => String.eqb (key a) id) (map f l)
  = option_map f (List.find (fun a => String.eqb (key a) id) l).
Proof.
  intros Hf. induction l as [|x l IH]; simpl.
  - reflexivity.
  - rewrite Hf. destruct (String.eqb (key x) id); [reflexivity | exact IH].
Qed.

End FindById.

(** Objects and their columns. *)
Section HeldFacts.
Variable A : Type.

Lemma all_mapped (l : list A) : Held.all (map (@Held.mapped A) l) = l.
Proof. unfold Held.all. rewrite map_map. simpl. apply map_id. Qed.

Lemma mapped_all (hs : Held.array A) :
  Forall (fun h => Held.isMapped h = true) hs -> hs = map (@Held.mapped A) (Held.all hs).
Proof.
  induction 1 as [|h hs Hh _ IH]; simpl; [reflexivity|].
  destruct h; [|discriminate]. simpl. now f_equal.
Qed.

Lemma find_all (f : A -> bool) (hs : Held.array A) :
  List.find f (Held.all hs)
  = option_map (@Held.columns A) (List.find (fun h => f (Held.columns h)) hs).
Proof.
  induction hs as [|h hs IH]; simpl; [reflexivity|].
  destruct (f (Held.columns h)); [reflexivity | exact IH].
Qed.

Lemma find_mapped (f : A -> bool) (hs : Held.array A) (a : A) :
  Forall (fun h => Held.isMapped h = true) hs ->
  List.find f (Held.all hs) = Some a ->
  List.find (fun h => f (Held.columns h)) hs = Some (Held.mapped a).
Proof.
  intros Hm. rewrite find_all.
  destruct (List.find (fun h => f (Held.columns h)) hs) as [h|] eqn:F; simpl; [|discriminate].
  intros [= <-]. apply find_some in F. destruct F as [Hin _].
  rewrite Forall_forall in Hm. specialize (Hm h Hin).
  destruct h; [reflexivity | discriminate].
Qed.

Lemma find_none_all (f : A -> bool) (hs : Held.array A) :
  List.find f (Held.all hs) = None ->
  List.find (fun h => f (Held.columns h)) hs = None.
Proof.
  rewrite find_all. destruct (List.find (fun h => f (Held.columns h)) hs);
    [discriminate | reflexivity].
Qed.

Lemma all_replace (f : A -> bool) (u : A) (hs : Held.array A) :
  Held.all (map (fun h => if f (Held.columns h) then Held.mapped u else h) hs)
  = map (fun a => if f a then u else a) (Held.all hs).
Proof.
  unfold Held.all. rewrite !map_map. apply map_ext. intros h.
  destruct (f (Held.columns h)); reflexivity.
Qed.

End HeldFacts.

Lemma request_some (A : Type) (call : Db.t -> option A * Db.t) (w : World)
  (data : A) (db' : Db.t) :
  call (db w) = (Some data, db') ->
  request call w = (Returned data, {| hook := hook w; db := db' |}).
Proof. intros H. unfold request. now rewrite H. Qed.

Lemma request_none (A : Type) (call : Db.t -> option A * Db.t) (w : World) (db' : Db.t) :
  call (db w) = (None, db') ->
  request call w
  = (Thrown (List.length (Db.log (db w))), {| hook := hook w; db := db' |}).
Proof. intros H. unfold request. now rewrite H. Qed.

(** The foreign keys, as the requests test them. *)
Lemma hasClient_In (id : string) (d : Db.t) :
  In id (map Client.id (Db.clients d)) -> Db.hasClient id d = true.
Proof.
  intros H. apply in_map_iff in H. destruct H as (c & Hc & Hin).
  unfold Db.hasClient. apply existsb_exists. exists c. split; [exact Hin|].
  now apply String.eqb_eq.
Qed.

Lemma hasProduct_In (id : string) (d : Db.t) :
  In id (map Product.id (Db.products d)) -> Db.hasProduct id d = true.
Proof.
  intros H. apply in_map_iff in H. destruct H as (p & Hp & Hin).
  unfold Db.hasProduct. apply existsb_exists. exists p. split; [exact Hin|].
  now apply String.eqb_eq.
Qed.

Lemma hasSale_In (id : string) (d : Db.t) :
  In id (map Db.id (Db.sales d)) -> Db.hasSale id d = true.
Proof.
  intros H. apply in_map_iff in H. destruct H as (s & Hs & Hin).
  unfold Db.hasSale. apply existsb_exists. exists s. split; [exact Hin|].
  now apply String.eqb_eq.
Qed.

Lemma db_insertSale_answers (cid cname : string) (ta d fa : Q) (pm : PaymentMethod)
  (database : Db.t) :
  Db.outage (Db.env database) (List.length (Db.log database)) = false ->
  In cid (map Client.id (Db.clients database)) ->
  let n := List.length (Db.log database) in
  let row := {| Db.id := Db.gen_random_uuid (Db.env database) n;
                Db.client_id := cid; Db.client_name := cname;
                Db.total_amount := ta; Db.discount := d; Db.final_amount := fa;
                Db.payment_method := pm;
                Db.created_at := Db.now (Db.env database) n |} in
  Db.insertSale cid cname ta d fa pm database
  = (Some row,
     Db.with_sales (Db.sales database ++ [row])
                   (Db.sent (Db.InsertSale cid cname ta d fa pm) database)).
Proof.
  intros Ho Hc. unfold Db.insertSale. cbv zeta. simpl Db.env. rewrite Ho.
  rewrite (@hasClient_In cid (Db.sent (Db.InsertSale cid cname ta d fa pm) database) Hc).
  reflexivity.
Qed.

Lemma db_insertSale_fails (cid cname : string) (ta d fa : Q) (pm : PaymentMethod)
  (database : Db.t) :
  Db.outage (Db.env database) (List.length (Db.log database)) = true ->
  Db.insertSale cid cname ta d fa pm database
  = (None, Db.sent (Db.InsertSale cid cname ta d fa pm) database).
Proof.
  intros Ho. unfold Db.insertSale. cbv zeta. simpl Db.env. now rewrite Ho.
Qed.

(** The rows of a sale's line items pass the foreign keys once the sale
    has its row and the products have theirs. *)
Lemma db_insertSaleItems_answers (sid : string) (items : list SaleItem.t) (d : Db.t) :
  Db.outage (Db.env d) (List.length (Db.log d)) = false ->
  In sid (map Db.id (Db.sales d)) ->
  (forall item, In item items ->
                In (SaleItem.productId item) (map Product.id (Db.products d))) ->
  Db.insertSaleItems (salesService.saleItemsData sid items) d
  = (Some tt,
     Db.with_sale_items (Db.sale_items d ++ salesService.saleItemsData sid items)
       (Db.sent (Db.InsertSaleItems (salesService.saleItemsData sid items)) d)).
Proof.
  intros Ho Hs Hp. unfold Db.insertSaleItems. cbv zeta. simpl Db.env. rewrite Ho.
  set (rows := salesService.saleItemsData sid items).
  set (d' := Db.sent (Db.InsertSaleItems rows) d).
  assert (Hfk : forallb (fun r => Db.hasSale (Db.sale_id r) d'
                                  && Db.hasProduct (Db.product_id r) d') rows = true).
  { apply forallb_forall. intros r Hr. unfold rows, salesService.saleItemsData in Hr.
    apply in_map_iff in Hr. destruct Hr as (item & <- & Hin). simpl.
    apply andb_true_iff. split.
    - apply (@hasSale_In sid d'), Hs.
    - apply (@hasProduct_In (SaleItem.productId item) d'), Hp, Hin. }
  rewrite Hfk. reflexivity.
Qed.

Lemma create_answers (saleData : SaleData.t) (w : World) :
  Spec.answers w -> Spec.referenced saleData w ->
  exists w1,
    salesService.create saleData w = (Returned (Spec.persisted saleData w), w1) /\
    hook w1 = hook w /\
    Db.env (db w1) = Db.env (db w) /\
    Db.products (db w1) = Db.products (db w) /\
    Db.clients (db w1) = Db.clients (db w) /\
    Db.sales (db w1) = Db.sales (db w) ++ [Spec.saleRow (Spec.persisted saleData w)] /\
    Db.sale_items (db w1)
    = Db.sale_items (db w)
      ++ salesService.saleItemsData (Sale.id (Spec.persisted saleData w))
                                    (SaleData.items saleData) /\
    Db.log (db w1)
    = Db.log (db w) ++ Spec.createRequests saleData (Sale.id (Spec.persisted saleData w)).
Proof.
  intros Ha [Hc Hp]. unfold salesService.create, bind.
  rewrite (@request_some _ _ w _ _
             (@db_insertSale_answers _ _
                (SaleData.totalAmount saleData) (SaleData.discount saleData)
                (SaleData.finalAmount saleData) (SaleData.paymentMethod saleData)
                (db w) (Ha _) Hc)).
  cbv zeta. simpl Db.id.
  set (sid := Db.gen_random_uuid (Db.env (db w)) (List.length (Db.log (db w)))).
  match goal with
  | |- context [request _ ?w1] =>
      rewrite (@request_some _ _ w1 _ _
                 (@db_insertSaleItems_answers sid (SaleData.items saleData) (db w1)
                    (Ha _)
                    ltac:(simpl; rewrite map_app; apply in_or_app; right; now left)
                    ltac:(simpl; exact Hp)))
  end.
  eexists. split; [reflexivity|]. simpl.
  repeat split. now rewrite <- app_assoc.
Qed.

Lemma db_updateProduct_answers (u : ProductUpdate.t) (id : string) (d : Db.t)
  (row : Product.t) :
  Db.outage (Db.env d) (List.length (Db.log d)) = false ->
  Db.notNull (ProductUpdate.currentStock u) = true ->
  List.find (Spec.hasId id) (Db.products d) = Some row ->
  Db.updateProduct u id d
  = (Some (Db.setProduct u (Db.now (Db.env d) (List.length (Db.log d))) row),
     Db.with_products
       (map (fun p => if Spec.hasId id p
                      then Db.setProduct u (Db.now (Db.env d) (List.length (Db.log d))) p
                      else p)
            (Db.products d))
       (Db.sent (Db.UpdateProduct u id) d)).
Proof.
  intros Ho Hn Hr. unfold Db.updateProduct. cbv zeta. simpl Db.env. simpl Db.products.
  rewrite Ho, Hn. unfold Spec.hasId in Hr. simpl negb. cbv iota. rewrite Hr. reflexivity.
Qed.

Lemma db_updateClient_answers (u : ClientUpdate.t) (id : string) (d : Db.t)
  (row : Client.t) :
  Db.outage (Db.env d) (List.length (Db.log d)) = false ->
  Db.notNull (ClientUpdate.totalPurchases u) = true ->
  List.find (Spec.isClient id) (Db.clients d) = Some row ->
  Db.updateClient u id d
  = (Some (Db.setClient u row),
     Db.with_clients
       (map (fun c => if Spec.isClient id c then Db.setClient u c else c) (Db.clients d))
       (Db.sent (Db.UpdateClient u id) d)).
Proof.
  intros Ho Hn Hr. unfold Db.updateClient. cbv zeta. simpl Db.env. simpl Db.clients.
  rewrite Ho, Hn. unfold Spec.isClient in Hr. simpl negb. cbv iota. rewrite Hr. reflexivity.
Qed.

(** A stock or a total that is [NaN] is refused, whatever else holds,
    and nothing is written. *)
Lemma db_updateProduct_NaN (u : ProductUpdate.t) (id : string) (d : Db.t) :
  ProductUpdate.currentStock u = Some Number.NaN ->
  Db.updateProduct u id d = (None, Db.sent (Db.UpdateProduct u id) d).
Proof.
  intros Hn. unfold Db.updateProduct. cbv zeta. rewrite Hn. simpl.
  now destruct (Db.outage (Db.env d) (List.length (Db.log d))).
Qed.

Lemma db_updateClient_NaN (u : ClientUpdate.t) (id : string) (d : Db.t) :
  ClientUpdate.totalPurchases u = Some Number.NaN ->
  Db.updateClient u id d = (None, Db.sent (Db.UpdateClient u id) d).
Proof.
  intros Hn. unfold Db.updateClient. cbv zeta. rewrite Hn. simpl.
  now destruct (Db.outage (Db.env d) (List.length (Db.log d))).
Qed.

(** [updateProduct] and [updateClient] of the hook, when the request is
    answered and the row is there: the object with the id is now a
    mapped one. *)
Lemma updateProduct_answers (id : string) (updates : ProductUpdate.t) (w : World)
  (row : Product.t) :
  Db.outage (Db.env (db w)) (List.length (Db.log (db w))) = false ->
  Db.notNull (ProductUpdate.currentStock updates) = true ->
  List.find (Spec.hasId id) (Db.products (db w)) = Some row ->
  let u := productService.updateData updates in
  let stamp := Db.now (Db.env (db w)) (List.length (Db.log (db w))) in
  useDatabase.updateProduct id updates w
  = (Returned (Db.setProduct u stamp row),
     {| hook :=
          {| Hook.products :=
               map (fun p => if Spec.holds id p
                             then Held.mapped (Db.setProduct u stamp row) else p)
                   (Hook.products (hook w));
             Hook.clients := Hook.clients (hook w);
             Hook.sales := Hook.sales (hook w);
             Hook.error := Hook.error (hook w) |};
        db := Db.with_products
                (map (fun p => if Spec.hasId id p then Db.setProduct u stamp p else p)
                     (Db.products (db w)))
                (Db.sent (Db.UpdateProduct u id) (db w)) |}).
Proof.
  intros Ho Hn Hr u stamp.
  unfold useDatabase.updateProduct, try_catch, bind, productService.update.
  rewrite (request_some _ _ (@db_updateProduct_answers
                               (productService.updateData updates) id (db w) row Ho Hn Hr)).
  reflexivity.
Qed.

Lemma updateClient_answers (id : string) (updates : ClientUpdate.t) (w : World)
  (row : Client.t) :
  Db.outage (Db.env (db w)) (List.length (Db.log (db w))) = false ->
  Db.notNull (ClientUpdate.totalPurchases updates) = true ->
  List.find (Spec.isClient id) (Db.clients (db w)) = Some row ->
  let u := clientService.updateData updates in
  useDatabase.updateClient id updates w
  = (Returned (Db.setClient u row),
     {| hook :=
          {| Hook.products := Hook.products (hook w);
             Hook.clients :=
               map (fun c => if Spec.holdsClient id c
                             then Held.mapped (Db.setClient u row) else c)
                   (Hook.clients (hook w));
             Hook.sales := Hook.sales (hook w);
             Hook.error := Hook.error (hook w) |};
        db := Db.with_clients
                (map (fun c => if Spec.isClient id c then Db.setClient u c else c)
                     (Db.clients (db w)))
                (Db.sent (Db.UpdateClient u id) (db w)) |}).
Proof.
  intros Ho Hn Hr u.
  unfold useDatabase.updateClient, try_catch, bind, clientService.update.
  rewrite (request_some _ _ (@db_updateClient_answers
                               (clientService.updateData updates) id (db w) row Ho Hn Hr)).
  reflexivity.
Qed.

(** The same two when the number sent is [NaN]: the request is sent
    and refused, the hook records the failure and nothing else
    changes. *)
Lemma updateProduct_NaN (id : string) (updates : ProductUpdate.t) (w : World) :
  ProductUpdate.currentStock updates = Some Number.NaN ->
  useDatabase.updateProduct id updates w
  = (Thrown (List.length (Db.log (db w))),
     {| hook := {| Hook.products := Hook.products (hook w);
                   Hook.clients := Hook.clients (hook w);
                   Hook.sales := Hook.sales (hook w);
                   Hook.error := Some "Failed to update product"%string |};
        db := Db.sent (Db.UpdateProduct (productService.updateData updates) id) (db w) |}).
Proof.
  intros Hn.
  unfold useDatabase.updateProduct, try_catch, bind, productService.update.
  rewrite (request_none _ _ (@db_updateProduct_NaN
                               (productService.updateData updates) id (db w) Hn)).
  reflexivity.
Qed.

Lemma updateClient_NaN (id : string) (updates : ClientUpdate.t) (w : World) :
  ClientUpdate.totalPurchases updates = Some Number.NaN ->
  useDatabase.updateClient id updates w
  = (Thrown (List.length (Db.log (db w))),
     {| hook := {| Hook.products := Hook.products (hook w);
                   Hook.clients := Hook.clients (hook w);
                   Hook.sales := Hook.sales (hook w);
                   Hook.error := Some "Failed to update client"%string |};
        db := Db.sent (Db.UpdateClient (clientService.updateData updates) id) (db w) |}).
Proof.
  intros Hn.
  unfold useDatabase.updateClient, try_catch, bind, clientService.update.
  rewrite (request_none _ _ (@db_updateClient_NaN
                               (clientService.updateData updates) id (db w) Hn)).
  reflexivity.
Qed.

(** One turn of the stock loop for a line item whose product the hook
    holds as a mapped object and the database has. *)
Lemma updateStock_found (snapshot : Held.array Product.t) (item : SaleItem.t) (w : World)
  (product : Product.t) :
  Spec.answers w ->
  List.find (Spec.holds (SaleItem.productId item)) snapshot = Some (Held.mapped product) ->
  In (SaleItem.productId item) (map Product.id (Db.products (db w))) ->
  let u := Spec.stockUpdate (Product.currentStock product - SaleItem.quantity item) in
  let stamp := Db.now (Db.env (db w)) (List.length (Db.log (db w))) in
  exists w' row,
    useDatabase.updateStock snapshot item w = (Returned tt, w') /\
    List.find (Spec.hasId (SaleItem.productId item)) (Db.products (db w)) = Some row /\
    Held.all (Hook.products (hook w'))
    = map (fun p => if Spec.hasId (SaleItem.productId item) p
                    then Db.setProduct u stamp row else p)
          (Hook.products (hook w)) /\
    Db.products (db w')
    = map (fun p => if Spec.hasId (SaleItem.productId item) p
                    then Db.setProduct u stamp p else p)
          (Db.products (db w)) /\
    Spec.sameButProducts w w' /\
    Db.log (db w') = Db.log (db w) ++ [Db.UpdateProduct u (SaleItem.productId item)].
Proof.
  intros Ha Hfind Hrow u stamp.
  destruct (In_keys_find Product.id _ _ Hrow) as [row Hr].
  change (List.find (Spec.hasId (SaleItem.productId item)) (Db.products (db w)) = Some row)
    in Hr.
  unfold useDatabase.updateStock, JS.find.
  unfold Spec.holds in Hfind. rewrite Hfind. unfold bind.
  match goal with
  | |- context [useDatabase.updateProduct ?i ?r w] =>
      change (useDatabase.updateProduct i r w) with (useDatabase.updateProduct i u w)
  end.
  rewrite (@updateProduct_answers (SaleItem.productId item) u w row (Ha _) eq_refl Hr).
  eexists. exists row. split; [reflexivity|]. simpl hook. simpl db.
  split; [exact Hr|].
  split; [apply (@all_replace Product.t (Spec.hasId (SaleItem.productId item)))|].
  split; [reflexivity|].
  split; [repeat split | reflexivity].
Qed.

Lemma updateStock_missing (snapshot : Held.array Product.t) (item : SaleItem.t) (w : World) :
  List.find (Spec.holds (SaleItem.productId item)) snapshot = None ->
  useDatabase.updateStock snapshot item w = (Returned tt, w).
Proof.
  intros H. unfold useDatabase.updateStock, JS.find.
  unfold Spec.holds in H. now rewrite H.
Qed.

(** One turn of the stock loop for a line item whose product the hook
    holds as a row: the stock sent is [NaN], and the turn throws. *)
Lemma updateStock_row (snapshot : Held.array Product.t) (item : SaleItem.t) (w : World)
  (product : Product.t) :
  List.find (Spec.holds (SaleItem.productId item)) snapshot = Some (Held.row product) ->
  useDatabase.updateStock snapshot item w
  = (Thrown (List.length (Db.log (db w))),
     {| hook := {| Hook.products := Hook.products (hook w);
                   Hook.clients := Hook.clients (hook w);
                   Hook.sales := Hook.sales (hook w);
                   Hook.error := Some "Failed to update product"%string |};
        db := Db.sent (Db.UpdateProduct Spec.stockUpdateNaN (SaleItem.productId item))
                      (db w) |}).
Proof.
  intros Hfind. unfold useDatabase.updateStock, JS.find.
  unfold Spec.holds in Hfind. rewrite Hfind. unfold bind.
  cbn [Held.camel Number.minus].
  rewrite updateProduct_NaN by reflexivity. reflexivity.
Qed.

Lemma answers_env (w w' : World) :
  Db.env (db w') = Db.env (db w) -> Spec.answers w -> Spec.answers w'.
Proof. unfold Spec.answers. intros E H n. rewrite E. apply H. Qed.

(** The stock on record after every product with id [k] has been
    replaced by one of the same id with stock [stock]. *)
Lemma stockOf_replaced (k pid : string) (stock : Z) (g : Product.t -> Product.t)
  (l : list Product.t) :
  (forall p, Spec.hasId k p = true ->
             Product.id (g p) = Product.id p /\ Product.currentStock (g p) = stock) ->
  Spec.stockOf pid (map (fun p => if Spec.hasId k p then g p else p) l)
  = if String.eqb k pid
    then option_map (fun _ => stock) (List.find (Spec.hasId pid) l)
    else Spec.stockOf pid l.
Proof.
  intros Hg. unfold Spec.stockOf.
  assert (Hfm := @find_map_update _ Product.id
                   (fun p => if Spec.hasId k p then g p else p) pid l).
  change (fun a : Product.t => String.eqb (Product.id a) pid) with (Spec.hasId pid) in Hfm.
  rewrite Hfm.
  2: { intros p. destruct (Spec.hasId k p) eqn:E; [apply (Hg p E) | reflexivity]. }
  clear Hfm.
  destruct (List.find (Spec.hasId pid) l) as [p|] eqn:F; simpl.
  - apply find_hasId in F. destruct F as [_ Hid].
    destruct (String.eqb k pid) eqn:E.
    + apply String.eqb_eq in E. subst k.
      assert (Hp : Spec.hasId pid p = true) by (unfold Spec.hasId; now apply String.eqb_eq).
      rewrite Hp. f_equal. apply (Hg p Hp).
    + assert (Hp : Spec.hasId k p = false).
      { unfold Spec.hasId. apply String.eqb_neq. apply String.eqb_neq in E. congruence. }
      now rewrite Hp.
  - now destruct (String.eqb k pid).
Qed.

Lemma ids_replaced (k : string) (g : Product.t -> Product.t) (l : list Product.t) :
  (forall p, Spec.hasId k p = true -> Product.id (g p) = Product.id p) ->
  map Product.id (map (fun p => if Spec.hasId k p then g p else p) l) = map Product.id l.
Proof.
  intros Hg. apply map_keys_update. intros p.
  destruct (Spec.hasId k p) eqn:E; [apply (Hg p E) | reflexivity].
Qed.

(** The whole stock loop, against a server that answers and holds a row
    for every product of the snapshot, all of them mapped objects. *)
Lemma stock_loop (snapshot : Held.array Product.t) (items : list SaleItem.t) :
  Forall (fun p => Held.isMapped p = true) snapshot ->
  forall w,
    Spec.answers w ->
    (forall p : Product.t,
        In p snapshot -> In (Product.id p) (map Product.id (Db.products (db w)))) ->
    exists w',
      for_of items (useDatabase.updateStock snapshot) w = (Returned tt, w') /\
      Spec.sameButProducts w w' /\
      map Product.id (Hook.products (hook w')) = map Product.id (Hook.products (hook w)) /\
      map Product.id (Db.products (db w')) = map Product.id (Db.products (db w)) /\
      Db.log (db w') = Db.log (db w) ++ Spec.stockRequests snapshot items /\
      (forall pid,
         (forall item, In item items -> SaleItem.productId item <> pid) ->
         Spec.stockOf pid (Hook.products (hook w')) = Spec.stockOf pid (Hook.products (hook w)) /\
         Spec.stockOf pid (Db.products (db w')) = Spec.stockOf pid (Db.products (db w))).
Proof.
  intros Hmapped.
  induction items as [|item items IH]; intros w Ha Hrows.
  - exists w. simpl. unfold Spec.sameButProducts. rewrite app_nil_r. repeat split.
  - rewrite for_of_cons. simpl Spec.stockRequests.
    destruct (List.find (Spec.hasId (SaleItem.productId item)) (Held.all snapshot))
      as [product|] eqn:F.
    + assert (Hrow : In (SaleItem.productId item) (map Product.id (Db.products (db w)))).
      { destruct (find_hasId _ _ F) as [Hin <-]. now apply Hrows. }
      assert (F' := @find_mapped _ (Spec.hasId (SaleItem.productId item)) snapshot product
                      Hmapped F).
      change (List.find (Spec.holds (SaleItem.productId item)) snapshot
              = Some (Held.mapped product)) in F'.
      destruct (@updateStock_found snapshot item w product Ha F' Hrow)
        as (w1 & row & -> & Hr & Hh & Hd & Hsame & Hlog).
      assert (Hidrow : Product.id row = SaleItem.productId item)
        by apply (find_hasId _ _ Hr).
      assert (Hids_h : map Product.id (Hook.products (hook w1))
                       = map Product.id (Hook.products (hook w))).
      { rewrite Hh. apply (@ids_replaced _ (fun _ => _)). intros p Hp. simpl.
        rewrite Hidrow. symmetry. now apply String.eqb_eq. }
      assert (Hids_d : map Product.id (Db.products (db w1))
                       = map Product.id (Db.products (db w))).
      { rewrite Hd. apply ids_replaced. reflexivity. }
      destruct Hsame as (Hc & Hs & He & Henv & Hdc & Hds & Hdi).
      destruct (IH w1) as (w' & Hrun & Hsame' & Hih & Hid & Hlog' & Hframe).
      { now apply (answers_env _ Henv). }
      { intros p Hp. rewrite Hids_d. now apply Hrows. }
      exists w'. split; [exact Hrun|].
      destruct Hsame' as (Hc' & Hs' & He' & Henv' & Hdc' & Hds' & Hdi').
      repeat apply conj; try congruence.
      * rewrite Hlog', Hlog, <- app_assoc. reflexivity.
      * intros pid Hpid.
        destruct (Hframe pid) as [H1 H2].
        { intros i Hi. apply Hpid. now right. }
        assert (Hne : String.eqb (SaleItem.productId item) pid = false).
        { apply String.eqb_neq. apply Hpid. now left. }
        rewrite H1, H2, Hh, Hd.
        rewrite (@stockOf_replaced _ pid
                   (Product.currentStock product - SaleItem.quantity item) (fun _ => _)).
        2: { intros p Hp. simpl. split; [|reflexivity].
             rewrite Hidrow. symmetry. now apply String.eqb_eq. }
        rewrite (@stockOf_replaced _ pid
                   (Product.currentStock product - SaleItem.quantity item)
                   (Db.setProduct _ _)).
        2: { intros p Hp. split; reflexivity. }
        now rewrite Hne.
    + assert (F' := @find_none_all _ (Spec.hasId (SaleItem.productId item)) snapshot F).
      change (List.find (Spec.holds (SaleItem.productId item)) snapshot = None) in F'.
      rewrite (@updateStock_missing snapshot item w F'). simpl.
      destruct (IH w Ha Hrows) as (w' & Hrun & Hsame' & Hih & Hid & Hlog' & Hframe).
      exists w'. split; [exact Hrun|]. split; [exact Hsame'|].
      repeat apply conj; try assumption.
      intros pid Hpid. apply Hframe. intros i Hi. apply Hpid. now right.
Qed.

(** The stock on record for a product once the loop has run: what the
    snapshot said, minus the quantity of the last line item naming
    it. *)
Lemma stock_loop_last (snapshot : Held.array Product.t) (before after : list SaleItem.t)
  (it : SaleItem.t) (product : Product.t) (w : World) :
  Forall (fun p => Held.isMapped p = true) snapshot ->
  Spec.answers w ->
  (forall p : Product.t,
      In p snapshot -> In (Product.id p) (map Product.id (Db.products (db w)))) ->
  (forall p : Product.t,
      In p snapshot -> In (Product.id p) (map Product.id (Hook.products (hook w)))) ->
  List.find (Spec.hasId (SaleItem.productId it)) snapshot = Some product ->
  (forall item, In item after -> SaleItem.productId item <> SaleItem.productId it) ->
  exists w',
    for_of (before ++ it :: after) (useDatabase.updateStock snapshot) w = (Returned tt, w') /\
    Spec.stockOf (SaleItem.productId it) (Hook.products (hook w'))
    = Some (Product.currentStock product - SaleItem.quantity it) /\
    Spec.stockOf (SaleItem.productId it) (Db.products (db w'))
    = Some (Product.currentStock product - SaleItem.quantity it).
Proof.
  intros Hmapped Ha Hrows Hheld F Hafter.
  destruct (@stock_loop snapshot before Hmapped w Ha Hrows)
    as (w1 & Hrun1 & Hsame1 & Hids_h1 & Hids_d1 & _ & _).
  destruct Hsame1 as (_ & _ & _ & Henv1 & _).
  assert (Ha1 : Spec.answers w1) by now apply (answers_env _ Henv1).
  destruct (find_hasId _ _ F) as [Hin Hid].
  assert (Hrow1 : In (SaleItem.productId it) (map Product.id (Db.products (db w1)))).
  { rewrite Hids_d1, <- Hid. now apply Hrows. }
  assert (Hheld1 : In (SaleItem.productId it) (map Product.id (Hook.products (hook w1)))).
  { rewrite Hids_h1, <- Hid. now apply Hheld. }
  assert (F' := @find_mapped _ (Spec.hasId (SaleItem.productId it)) snapshot product
                  Hmapped F).
  change (List.find (Spec.holds (SaleItem.productId it)) snapshot
          = Some (Held.mapped product)) in F'.
  destruct (@updateStock_found snapshot it w1 product Ha1 F' Hrow1)
    as (w2 & row & Hrun2 & Hr & Hh2 & Hd2 & Hsame2 & _).
  assert (Hidrow : Product.id row = SaleItem.productId it) by apply (find_hasId _ _ Hr).
  destruct Hsame2 as (_ & _ & _ & Henv2 & _).
  assert (Ha2 : Spec.answers w2) by now apply (answers_env _ Henv2).
  assert (Hids_d2 : map Product.id (Db.products (db w2))
                    = map Product.id (Db.products (db w1))).
  { rewrite Hd2. apply ids_replaced. reflexivity. }
  destruct (@stock_loop snapshot after Hmapped w2 Ha2)
    as (w' & Hrun3 & _ & _ & _ & _ & Hframe).
  { intros p Hp. rewrite Hids_d2, Hids_d1. now apply Hrows. }
  exists w'. split.
  - rewrite for_of_app, Hrun1, for_of_cons, Hrun2. exact Hrun3.
  - destruct (Hframe _ Hafter) as [-> ->]. rewrite Hh2, Hd2.
    rewrite (@stockOf_replaced _ (SaleItem.productId it)
               (Product.currentStock product - SaleItem.quantity it) (fun _ => _)).
    2: { intros p Hp. simpl. split; [|reflexivity].
         rewrite Hidrow. symmetry. now apply String.eqb_eq. }
    rewrite (@stockOf_replaced _ (SaleItem.productId it)
               (Product.currentStock product - SaleItem.quantity it)
               (Db.setProduct _ _)).
    2: { intros p Hp. split; reflexivity. }
    rewrite String.eqb_refl, Hr.
    destruct (In_keys_find Product.id _ _ Hheld1) as [held Hheld'].
    change (List.find (Spec.hasId (SaleItem.productId it)) (Hook.products (hook w1))
            = Some held) in Hheld'.
    rewrite Hheld'. split; reflexivity.
Qed.

Lemma purchasesOf_replaced (k : string) (total : Q) (date : Z) (g : Client.t -> Client.t)
  (l : list Client.t) (c : Client.t) :
  (forall c, Spec.isClient k c = true ->
             Client.id (g c) = Client.id c /\
             Client.totalPurchases (g c) = total /\ Client.lastPurchaseDate (g c) = date) ->
  List.find (Spec.isClient k) l = Some c ->
  Spec.purchasesOf k (map (fun c => if Spec.isClient k c then g c else c) l)
  = Some (total, date).
Proof.
  intros Hg F. unfold Spec.purchasesOf.
  assert (Hfm := @find_map_update _ Client.id
                   (fun c => if Spec.isClient k c then g c else c) k l).
  change (fun a : Client.t => String.eqb (Client.id a) k) with (Spec.isClient k) in Hfm.
  rewrite Hfm.
  2: { intros c'. destruct (Spec.isClient k c') eqn:E; [apply (Hg c' E) | reflexivity]. }
  rewrite F. simpl.
  assert (Hc : Spec.isClient k c = true) by apply (find_some _ _ F).
  rewrite Hc. destruct (Hg c Hc) as (_ & -> & ->). reflexivity.
Qed.

(** The client step, for a client the hook holds as a mapped object and
    the database has. *)
Lemma updatePurchases_found (clients : Held.array Client.t) (saleData : SaleData.t)
  (newSale : Sale.t) (w : World) (client : Client.t) :
  Spec.answers w ->
  List.find (Spec.holdsClient (SaleData.clientId saleData)) clients
  = Some (Held.mapped client) ->
  In (Client.id client) (map Client.id (Db.clients (db w))) ->
  In (Client.id client) (map Client.id (Hook.clients (hook w))) ->
  let total := (Client.totalPurchases client + SaleData.finalAmount saleData)%Q in
  exists w',
    useDatabase.updatePurchases clients saleData newSale w = (Returned tt, w') /\
    Spec.purchasesOf (Client.id client) (Hook.clients (hook w'))
    = Some (total, Sale.createdAt newSale) /\
    Spec.purchasesOf (Client.id client) (Db.clients (db w'))
    = Some (total, Sale.createdAt newSale) /\
    Spec.sameButClients w w' /\
    Db.log (db w')
    = Db.log (db w)
      ++ [Db.UpdateClient (Spec.purchaseUpdate total (Sale.createdAt newSale))
                          (Client.id client)].
Proof.
  intros Ha F Hrow Hheld total.
  destruct (In_keys_find Client.id _ _ Hrow) as [row Hr].
  change (List.find (Spec.isClient (Client.id client)) (Db.clients (db w)) = Some row) in Hr.
  destruct (In_keys_find Client.id _ _ Hheld) as [held Hh].
  change (List.find (Spec.isClient (Client.id client)) (Hook.clients (hook w)) = Some held)
    in Hh.
  assert (Hidrow : Client.id row = Client.id client) by apply (find_isClient _ _ Hr).
  unfold useDatabase.updatePurchases, JS.find.
  unfold Spec.holdsClient in F. rewrite F. unfold bind.
  match goal with
  | |- context [useDatabase.updateClient ?i ?r w] =>
      change (useDatabase.updateClient i r w)
        with (useDatabase.updateClient (Client.id client)
                (Spec.purchaseUpdate total (Sale.createdAt newSale)) w)
  end.
  rewrite (@updateClient_answers (Client.id client)
             (Spec.purchaseUpdate total (Sale.createdAt newSale)) w row (Ha _) eq_refl Hr).
  eexists. split; [reflexivity|]. simpl hook. simpl db.
  repeat apply conj; try reflexivity.
  - simpl Hook.clients.
    rewrite (@all_replace Client.t (Spec.isClient (Client.id client))).
    apply (@purchasesOf_replaced _ total (Sale.createdAt newSale) (fun _ => _) _ held);
      [|exact Hh].
    intros c Hc. simpl. repeat split. rewrite Hidrow. symmetry. now apply String.eqb_eq.
  - apply (@purchasesOf_replaced _ total (Sale.createdAt newSale) (Db.setClient _) _ row);
      [|exact Hr].
    intros c Hc. repeat split.
Qed.

Lemma updatePurchases_missing (clients : Held.array Client.t) (saleData : SaleData.t)
  (newSale : Sale.t) (w : World) :
  List.find (Spec.holdsClient (SaleData.clientId saleData)) clients = None ->
  useDatabase.updatePurchases clients saleData newSale w = (Returned tt, w).
Proof.
  intros H. unfold useDatabase.updatePurchases, JS.find.
  unfold Spec.holdsClient in H. now rewrite H.
Qed.

(** The client step for a client the hook holds as a row: the total
    sent is [NaN], and the step throws. *)
Lemma updatePurchases_row (clients : Held.array Client.t) (saleData : SaleData.t)
  (newSale : Sale.t) (w : World) (client : Client.t) :
  List.find (Spec.holdsClient (SaleData.clientId saleData)) clients
  = Some (Held.row client) ->
  useDatabase.updatePurchases clients saleData newSale w
  = (Thrown (List.length (Db.log (db w))),
     {| hook := {| Hook.products := Hook.products (hook w);
                   Hook.clients := Hook.clients (hook w);
                   Hook.sales := Hook.sales (hook w);
                   Hook.error := Some "Failed to update client"%string |};
        db := Db.sent (Db.UpdateClient (Spec.purchaseUpdateNaN (Sale.createdAt newSale))
                                       (Client.id client))
                      (db w) |}).
Proof.
  intros Hfind. unfold useDatabase.updatePurchases, JS.find.
  unfold Spec.holdsClient in Hfind. rewrite Hfind. unfold bind.
  cbn [Held.camel Number.plus Held.columns].
  rewrite updateClient_NaN by reflexivity. reflexivity.
Qed.

(** [addSale] against a server that answers every request, for a sale
    whose foreign keys hold and a hook whose objects are all mapped and
    have their rows: the sale is returned, and this is what has been
    sent and written. *)
Lemma addSale_answers (saleData : SaleData.t) (w : World) :
  Spec.answers w -> Spec.backed w -> Spec.mapped w -> Spec.referenced saleData w ->
  let newSale := Spec.persisted saleData w in
  let items := SaleData.items saleData in
  exists w',
    useDatabase.addSale saleData w = (Returned newSale, w') /\
    Hook.sales (hook w') = newSale :: Hook.sales (hook w) /\
    Hook.error (hook w') = Hook.error (hook w) /\
    Db.sales (db w') = Db.sales (db w) ++ [Spec.saleRow newSale] /\
    Db.sale_items (db w')
    = Db.sale_items (db w) ++ salesService.saleItemsData (Sale.id newSale) items /\
    Db.log (db w')
    = Db.log (db w)
      ++ Spec.createRequests saleData (Sale.id newSale)
      ++ Spec.stockRequests (Hook.products (hook w)) items
      ++ Spec.purchaseRequests (Hook.clients (hook w)) saleData (Sale.createdAt newSale) /\
    match List.find (Spec.isClient (SaleData.clientId saleData)) (Hook.clients (hook w)) with
    | Some client =>
        let total := (Client.totalPurchases client + SaleData.finalAmount saleData)%Q in
        Spec.purchasesOf (Client.id client) (Hook.clients (hook w'))
        = Some (total, Sale.createdAt newSale) /\
        Spec.purchasesOf (Client.id client) (Db.clients (db w'))
        = Some (total, Sale.createdAt newSale)
    | None =>
        Hook.clients (hook w') = Hook.clients (hook w) /\
        Db.clients (db w') = Db.clients (db w)
    end /\
    (forall before it after product,
       items = before ++ it :: after ->
       (forall item, In item after -> SaleItem.productId item <> SaleItem.productId it) ->
       List.find (Spec.hasId (SaleItem.productId it)) (Hook.products (hook w)) = Some product ->
       Spec.stockOf (SaleItem.productId it) (Hook.products (hook w'))
       = Some (Product.currentStock product - SaleItem.quantity it) /\
       Spec.stockOf (SaleItem.productId it) (Db.products (db w'))
       = Some (Product.currentStock product - SaleItem.quantity it)) /\
    (forall pid,
       (forall item, In item items -> SaleItem.productId item <> pid) ->
       Spec.stockOf pid (Hook.products (hook w')) = Spec.stockOf pid (Hook.products (hook w)) /\
       Spec.stockOf pid (Db.products (db w')) = Spec.stockOf pid (Db.products (db w))).
Proof.
  intros Ha [Hbp Hbc] [Hmp Hmc] Href newSale items.
  destruct (create_answers Ha Href)
    as (w1 & Hcreate & Hhook1 & Henv1 & Hp1 & Hc1 & Hs1 & Hi1 & Hlog1).
  fold newSale in Hcreate, Hs1, Hi1, Hlog1.
  set (w2 := {| hook := {| Hook.products := Hook.products (hook w1);
                           Hook.clients := Hook.clients (hook w1);
                           Hook.sales := newSale :: Hook.sales (hook w1);
                           Hook.error := Hook.error (hook w1) |};
                db := db w1 |}).
  assert (Ha2 : Spec.answers w2) by (apply (@answers_env w); [exact Henv1 | exact Ha]).
  assert (Hrows2 : forall p : Product.t,
             In p (Hook.products (hook w)) ->
             In (Product.id p) (map Product.id (Db.products (db w2)))).
  { intros p Hp. simpl. rewrite Hp1. now apply Hbp. }
  assert (Hheld2 : forall p : Product.t,
             In p (Hook.products (hook w)) ->
             In (Product.id p) (map Product.id (Hook.products (hook w2)))).
  { intros p Hp. simpl. rewrite Hhook1. now apply in_map. }
  destruct (@stock_loop (Hook.products (hook w)) items Hmp w2 Ha2 Hrows2)
    as (w3 & Hloop & Hsame3 & Hids_h3 & Hids_d3 & Hlog3 & Hframe3).
  destruct Hsame3 as (Hc3 & Hs3 & He3 & Henv3 & Hdc3 & Hds3 & Hdi3).
  simpl in Hc3, Hs3, He3, Henv3, Hdc3, Hds3, Hdi3, Hlog3.
  assert (Ha3 : Spec.answers w3) by (apply (@answers_env w2); [exact Henv3 | exact Ha2]).
  assert (Hrun3 :
    forall w4,
      useDatabase.updatePurchases (Hook.clients (hook w)) saleData newSale w3
      = (Returned tt, w4) ->
      useDatabase.addSale saleData w = (Returned newSale, w4)).
  { intros w4 H4. unfold useDatabase.addSale, try_catch, bind.
    rewrite Hcreate. unfold setSales. fold w2. fold items. rewrite Hloop, H4. reflexivity. }
  assert (Hstock3 :
    (forall before it after product,
       items = before ++ it :: after ->
       (forall item, In item after -> SaleItem.productId item <> SaleItem.productId it) ->
       List.find (Spec.hasId (SaleItem.productId it)) (Hook.products (hook w)) = Some product ->
       Spec.stockOf (SaleItem.productId it) (Hook.products (hook w3))
       = Some (Product.currentStock product - SaleItem.quantity it) /\
       Spec.stockOf (SaleItem.productId it) (Db.products (db w3))
       = Some (Product.currentStock product - SaleItem.quantity it))).
  { intros before it after product Hsplit Hafter F.
    destruct (@stock_loop_last (Hook.products (hook w)) before after it product w2
                Hmp Ha2 Hrows2 Hheld2 F Hafter) as (w3' & Hloop' & Hres).
    rewrite <- Hsplit, Hloop in Hloop'. inversion Hloop'; subst w3'. exact Hres. }
  assert (Hframe3' :
    forall pid,
      (forall item, In item items -> SaleItem.productId item <> pid) ->
      Spec.stockOf pid (Hook.products (hook w3)) = Spec.stockOf pid (Hook.products (hook w)) /\
      Spec.stockOf pid (Db.products (db w3)) = Spec.stockOf pid (Db.products (db w))).
  { intros pid Hpid. destruct (Hframe3 pid Hpid) as [-> ->]. simpl.
    now rewrite Hhook1, Hp1. }
  unfold Spec.purchaseRequests.
  destruct (List.find (Spec.isClient (SaleData.clientId saleData)) (Hook.clients (hook w)))
    as [client|] eqn:F.
  - destruct (find_isClient _ _ F) as [Hin Hid].
    assert (F' := @find_mapped _ (Spec.isClient (SaleData.clientId saleData))
                    (Hook.clients (hook w)) client Hmc F).
    change (List.find (Spec.holdsClient (SaleData.clientId saleData)) (Hook.clients (hook w))
            = Some (Held.mapped client)) in F'.
    destruct (@updatePurchases_found (Hook.clients (hook w)) saleData newSale w3 client
                Ha3 F') as (w4 & Hrun4 & Hph & Hpd & Hsame4 & Hlog4).
    { rewrite Hdc3, Hc1. now apply Hbc. }
    { rewrite Hc3, Hhook1. now apply in_map. }
    destruct Hsame4 as (Hp4 & Hs4 & He4 & Henv4 & Hdp4 & Hds4 & Hdi4).
    exists w4. split; [now apply Hrun3|].
    repeat apply conj.
    + now rewrite Hs4, Hs3, Hhook1.
    + now rewrite He4, He3, Hhook1.
    + now rewrite Hds4, Hds3, Hs1.
    + now rewrite Hdi4, Hdi3, Hi1.
    + rewrite Hlog4, Hlog3, Hlog1, <- !app_assoc. reflexivity.
    + exact Hph.
    + exact Hpd.
    + rewrite Hp4, Hdp4. exact Hstock3.
    + rewrite Hp4, Hdp4. exact Hframe3'.
  - assert (F' := @find_none_all _ (Spec.isClient (SaleData.clientId saleData))
                    (Hook.clients (hook w)) F).
    change (List.find (Spec.holdsClient (SaleData.clientId saleData)) (Hook.clients (hook w))
            = None) in F'.
    exists w3. split.
    { apply Hrun3. now apply updatePurchases_missing. }
    repeat apply conj.
    + now rewrite Hs3, Hhook1.
    + now rewrite He3, Hhook1.
    + now rewrite Hds3, Hs1.
    + now rewrite Hdi3, Hi1.
    + rewrite Hlog3, Hlog1, app_nil_r, <- !app_assoc. reflexivity.
    + now rewrite Hc3, Hhook1.
    + now rewrite Hdc3, Hc1.
    + exact Hstock3.
    + exact Hframe3'.
Qed.

Lemma answers_healthy (w : World) :
  Db.env (db w) = Fixtures.healthy -> Spec.answers w.
Proof. intros E n. now rewrite E. Qed.

Lemma backed_world (e : Db.Env) : Spec.backed (Fixtures.world e).
Proof.
  split; simpl.
  - intros p [<-|[<-|[]]]; simpl; auto.
  - intros c [<-|[]]; simpl; auto.
Qed.

Lemma backed_wider (e : Db.Env) : Spec.backed (Fixtures.wider e).
Proof.
  split; simpl.
  - intros p [<-|[<-|[]]]; simpl; auto.
  - intros c [<-|[]]; simpl; auto.
Qed.

Lemma mapped_world (e : Db.Env) : Spec.mapped (Fixtures.world e).
Proof. split; simpl; repeat constructor. Qed.

Lemma mapped_wider (e : Db.Env) : Spec.mapped (Fixtures.wider e).
Proof. split; simpl; repeat constructor. Qed.

Lemma stockRequests_In (snapshot : list Product.t) (items : list SaleItem.t)
  (r : Db.Request) :
  In r (Spec.stockRequests snapshot items) <->
  exists item product,
    In item items /\
    List.find (Spec.hasId (SaleItem.productId item)) snapshot = Some product /\
    r = Db.UpdateProduct
          (Spec.stockUpdate (Product.currentStock product - SaleItem.quantity item))
          (SaleItem.productId item).
Proof.
  unfold Spec.stockRequests. rewrite in_flat_map. split.
  - intros (item & Hin & Hr).
    destruct (List.find (Spec.hasId (SaleItem.productId item)) snapshot) as [product|] eqn:F.
    + destruct Hr as [<-|[]]. now exists item, product.
    + destruct Hr.
  - intros (item & product & Hin & F & ->). exists item. split; [exact Hin|].
    rewrite F. now left.
Qed.

(* ================================================================== *)
(** * The stock updates of a sale *)
(* ================================================================== *)

(** What C1 says, for a hook whose objects are all mapped.  Take any
    sale whose foreign keys hold and any state in which the server
    answers and has a row for what the hook holds.  Then [addSale]
    returns the persisted sale, and between the two inserts of the sale
    and the client update it has sent exactly one stock update per line
    item whose product is in the hook's product list at the time of the
    call, in the order of the items: [currentStock] set to that
    product's [currentStock] minus the item's quantity, an integer
    subtraction with no floor.  For a line item whose product is not in
    the list nothing is sent, and the call still returns. *)
Lemma addSale_stock_updates (saleData : SaleData.t) (w : World) :
  Spec.answers w -> Spec.backed w -> Spec.mapped w -> Spec.referenced saleData w ->
  exists newSale w',
    useDatabase.addSale saleData w = (Returned newSale, w') /\
    Db.log (db w')
    = Db.log (db w)
      ++ Spec.createRequests saleData (Sale.id newSale)
      ++ Spec.stockRequests (Hook.products (hook w)) (SaleData.items saleData)
      ++ Spec.purchaseRequests (Hook.clients (hook w)) saleData (Sale.createdAt newSale) /\
    (forall item product,
       In item (SaleData.items saleData) ->
       JS.find (fun p => String.eqb (Product.id p) (SaleItem.productId item))
               (Hook.products (hook w)) = Some product ->
       In (Db.UpdateProduct
             {| ProductUpdate.name := None; ProductUpdate.category := None;
                ProductUpdate.manufacturer := None; ProductUpdate.batchNumber := None;
                ProductUpdate.expiryDate := None;
                ProductUpdate.currentStock :=
                  Some (Number.num (Product.currentStock product - SaleItem.quantity item));
                ProductUpdate.minStockLevel := None; ProductUpdate.unitPrice := None;
                ProductUpdate.sellingPrice := None; ProductUpdate.description := None |}
             (SaleItem.productId item))
          (Spec.stockRequests (Hook.products (hook w)) (SaleData.items saleData))) /\
    (forall item,
       In item (SaleData.items saleData) ->
       JS.find (fun p => String.eqb (Product.id p) (SaleItem.productId item))
               (Hook.products (hook w)) = None ->
       forall u, ~ In (Db.UpdateProduct u (SaleItem.productId item))
                      (Spec.stockRequests (Hook.products (hook w))
                                          (SaleData.items saleData))) /\
    List.length (Spec.stockRequests (Hook.products (hook w)) (SaleData.items saleData))
    = List.length
        (filter (fun item =>
                   match JS.find (fun p => String.eqb (Product.id p) (SaleItem.productId item))
                                 (Hook.products (hook w)) with
                   | Some _ => true
                   | None => false
                   end) (SaleData.items saleData)).
Proof.
  intros Ha Hb Hm Href.
  destruct (addSale_answers Ha Hb Hm Href) as (w' & Hrun & _ & _ & _ & _ & Hlog & _).
  exists (Spec.persisted saleData w), w'.
  split; [exact Hrun|]. split; [exact Hlog|]. repeat apply conj.
  - intros item product Hin F. apply stockRequests_In. now exists item, product.
  - intros item Hin F u Hr. apply stockRequests_In in Hr.
    destruct Hr as (item' & product & _ & F' & E). inversion E as [[Hu Hid]].
    rewrite <- Hid in F'. unfold JS.find in F.
    change (List.find (Spec.hasId (SaleItem.productId item)) (Hook.products (hook w)) = None)
      in F.
    congruence.
  - clear Hrun Hlog Href. unfold Spec.stockRequests, JS.find.
    induction (SaleData.items saleData) as [|item items IH]; simpl; [reflexivity|].
    rewrite length_app, IH.
    change (fun p : Product.t => String.eqb (Product.id p) (SaleItem.productId item))
      with (Spec.hasId (SaleItem.productId item)).
    destruct (List.find (Spec.hasId (SaleItem.productId item)) (Hook.products (hook w)));
      reflexivity.
Qed.

Lemma referenced_mixed (e : Db.Env) : Spec.referenced Fixtures.mixed (Fixtures.wider e).
Proof.
  split; simpl; [auto|]. intros item [<-|[<-|[]]]; simpl; auto.
Qed.

(** A sale of five bandages when three are in stock, and of a product
    the database has and the hook does not hold: one update, to a stock
    of -2. *)
Lemma addSale_stock_updates_example :
  exists newSale w',
    useDatabase.addSale Fixtures.mixed (Fixtures.wider Fixtures.healthy)
    = (Returned newSale, w') /\
    Db.log (db w')
    = Spec.createRequests Fixtures.mixed (Sale.id newSale)
      ++ [Db.UpdateProduct (Spec.stockUpdate (-2)) "p2"]
      ++ Spec.purchaseRequests [Fixtures.alice] Fixtures.mixed (Sale.createdAt newSale).
Proof.
  destruct (@addSale_stock_updates Fixtures.mixed (Fixtures.wider Fixtures.healthy)
              (@answers_healthy (Fixtures.wider Fixtures.healthy) eq_refl)
              (backed_wider _) (mapped_wider _) (referenced_mixed _))
    as (newSale & w' & Hrun & Hlog & _).
  exists newSale, w'. split; [exact Hrun | exact Hlog].
Qed.

(** C1 at scenario B in the application as it runs: the data has been
    loaded, so the hook holds the rows of the two products as
    [productService.getAll] returned them.  [loadAllData] succeeds; the
    product of the first line item is found in the hook's list, with 10
    in stock in the database.  [addSale] stores the sale, then sends
    for that product an update whose stock is [NaN], where C1 has it
    send 10 - 2; the server refuses it and [addSale] fails: no stock
    has changed, and the second line item and the client are never
    reached.  The same sale, when the hook holds the same products as
    mapped objects, sends the two updates C1 describes. *)
Theorem addSale_loaded_stock_update_is_NaN :
  let w := Fixtures.loaded Fixtures.healthy in
  let after := useDatabase.addSale Fixtures.scenarioB w in
  let typed := useDatabase.addSale Fixtures.scenarioB (Fixtures.world Fixtures.healthy) in
  Hook.error (hook w) = None /\
  Hook.products (hook w) = [Held.row Fixtures.bandage; Held.row Fixtures.paracetamol] /\
  JS.find (fun p => String.eqb (Product.id (Held.columns p)) "p1") (Hook.products (hook w))
  = Some (Held.row Fixtures.paracetamol) /\
  Spec.stockOf "p1" (Db.products (db w)) = Some 10 /\
  fst after = Thrown 5 /\
  Db.log (db (snd after))
  = Db.log (db w)
    ++ Spec.createRequests Fixtures.scenarioB "uuid-3"
    ++ [Db.UpdateProduct Spec.stockUpdateNaN "p1"] /\
  Spec.stockOf "p1" (Db.products (db (snd after))) = Some 10 /\
  Spec.stockOf "p2" (Db.products (db (snd after))) = Some 3 /\
  List.length (Db.sales (db (snd after))) = 1%nat /\
  List.length (Hook.sales (hook (snd after))) = 1%nat /\
  Hook.error (hook (snd after)) = Some "Failed to add sale"%string /\
  Db.log (db (snd typed))
  = Spec.createRequests Fixtures.scenarioB "uuid-0"
    ++ [Db.UpdateProduct (Spec.stockUpdate (10 - 2)) "p1";
        Db.UpdateProduct (Spec.stockUpdate (3 - 1)) "p2";
        Db.UpdateClient (Spec.purchaseUpdate (0 + 23) (Fixtures.t0 + 0)) "c1"].
Proof.
  vm_compute. repeat split.
Qed.

(* ================================================================== *)
(** * The client update of a sale *)
(* ================================================================== *)

Lemma no_client_update_before (saleData : SaleData.t) (sale_id : string)
  (snapshot : list Product.t) (u : ClientUpdate.t) (id : string) :
  ~ In (Db.UpdateClient u id)
       (Spec.createRequests saleData sale_id
        ++ Spec.stockRequests snapshot (SaleData.items saleData)).
Proof.
  intros H. apply in_app_or in H. destruct H as [H|H].
  - simpl in H. destruct H as [H|[H|[]]]; discriminate.
  - apply stockRequests_In in H. destruct H as (? & ? & _ & _ & H). discriminate.
Qed.

(** What C3 says, for a hook whose objects are all mapped.  Take any
    sale whose foreign keys hold and any state in which the server
    answers and has a row for what the hook holds.  [addSale] returns
    the persisted sale, carrying the [finalAmount] it was given; the
    sale is at the head of the hook's sale list and in the [sales]
    table.  If a client with the sale's [clientId] is in the hook's
    client list at the time of the call, the last request sent is the
    one client update: [totalPurchases] set to that client's
    [totalPurchases] plus the sale's [finalAmount], [lastPurchaseDate]
    to the persisted sale's [createdAt]; the hook and the database then
    hold these two values for the client.  If no such client is in the
    list, no client update is sent, the clients are as they were, and no
    error is recorded. *)
Lemma addSale_client_totals (saleData : SaleData.t) (w : World) :
  Spec.answers w -> Spec.backed w -> Spec.mapped w -> Spec.referenced saleData w ->
  exists newSale w' sent,
    useDatabase.addSale saleData w = (Returned newSale, w') /\
    Db.log (db w') = Db.log (db w) ++ sent /\
    Sale.finalAmount newSale = SaleData.finalAmount saleData /\
    Hook.sales (hook w') = newSale :: Hook.sales (hook w) /\
    Db.sales (db w') = Db.sales (db w) ++ [Spec.saleRow newSale] /\
    Hook.error (hook w') = Hook.error (hook w) /\
    match JS.find (fun c => String.eqb (Client.id c) (SaleData.clientId saleData))
                  (Hook.clients (hook w)) with
    | Some client =>
        let total := (Client.totalPurchases client + SaleData.finalAmount saleData)%Q in
        (exists earlier,
           sent = earlier
                  ++ [Db.UpdateClient
                        {| ClientUpdate.name := None; ClientUpdate.email := None;
                           ClientUpdate.phone := None; ClientUpdate.address := None;
                           ClientUpdate.totalPurchases := Some (Number.num total);
                           ClientUpdate.lastPurchaseDate := Some (Sale.createdAt newSale) |}
                        (Client.id client)] /\
           forall u id, ~ In (Db.UpdateClient u id) earlier) /\
        Spec.purchasesOf (Client.id client) (Hook.clients (hook w'))
        = Some (total, Sale.createdAt newSale) /\
        Spec.purchasesOf (Client.id client) (Db.clients (db w'))
        = Some (total, Sale.createdAt newSale)
    | None =>
        (forall u id, ~ In (Db.UpdateClient u id) sent) /\
        Hook.clients (hook w') = Hook.clients (hook w) /\
        Db.clients (db w') = Db.clients (db w)
    end.
Proof.
  intros Ha Hb Hm Href.
  destruct (addSale_answers Ha Hb Hm Href)
    as (w' & Hrun & Hsales & Herr & Hrows & _ & Hlog & Hclient & _).
  exists (Spec.persisted saleData w), w'. eexists.
  split; [exact Hrun|]. split; [exact Hlog|].
  split; [reflexivity|]. split; [exact Hsales|]. split; [exact Hrows|].
  split; [exact Herr|].
  unfold JS.find, Spec.purchaseRequests.
  change (fun c : Client.t => String.eqb (Client.id c) (SaleData.clientId saleData))
    with (Spec.isClient (SaleData.clientId saleData)).
  destruct (List.find (Spec.isClient (SaleData.clientId saleData)) (Hook.clients (hook w)))
    as [client|].
  - split; [|exact Hclient].
    eexists. split.
    + rewrite app_assoc. reflexivity.
    + intros u id. apply no_client_update_before.
  - split; [|exact Hclient].
    intros u id. rewrite app_nil_r. apply no_client_update_before.
Qed.

Lemma referenced_stranger (e : Db.Env) :
  Spec.referenced Fixtures.stranger (Fixtures.wider e).
Proof.
  split; simpl; [auto|]. intros item [<-|[<-|[]]]; simpl; auto.
Qed.

Lemma referenced_scenarioB (e : Db.Env) :
  Spec.referenced Fixtures.scenarioB (Fixtures.world e).
Proof.
  split; simpl; [auto|]. intros item [<-|[<-|[]]]; simpl; auto.
Qed.

(** Scenario C, a sale to a client the database has and the hook does
    not hold, and scenario B, where the client's total goes from 0 to
    23. *)
Lemma addSale_client_totals_example :
  (exists newSale w' sent,
     useDatabase.addSale Fixtures.stranger (Fixtures.wider Fixtures.healthy)
     = (Returned newSale, w') /\
     Db.log (db w') = sent /\
     Sale.finalAmount newSale = 24%Q /\
     Hook.sales (hook w') = [newSale] /\
     (forall u id, ~ In (Db.UpdateClient u id) sent) /\
     Hook.clients (hook w') = [Held.mapped Fixtures.alice]) /\
  (exists newSale w',
     useDatabase.addSale Fixtures.scenarioB (Fixtures.world Fixtures.healthy)
     = (Returned newSale, w') /\
     Spec.purchasesOf "c1" (Hook.clients (hook w')) = Some ((0 + 23)%Q, Sale.createdAt newSale) /\
     Spec.purchasesOf "c1" (Db.clients (db w')) = Some ((0 + 23)%Q, Sale.createdAt newSale)).
Proof.
  split.
  - destruct (@addSale_client_totals Fixtures.stranger (Fixtures.wider Fixtures.healthy)
                (@answers_healthy (Fixtures.wider Fixtures.healthy) eq_refl)
                (backed_wider _) (mapped_wider _) (referenced_stranger _))
      as (newSale & w' & sent & Hrun & Hlog & Hfinal & Hsales & _ & _ & Hnone & Hclients & _).
    exists newSale, w', sent. repeat apply conj; assumption.
  - destruct (@addSale_client_totals Fixtures.scenarioB (Fixtures.world Fixtures.healthy)
                (@answers_healthy (Fixtures.world Fixtures.healthy) eq_refl)
                (backed_world _) (mapped_world _) (referenced_scenarioB _))
      as (newSale & w' & sent & Hrun & _ & _ & _ & _ & _ & _ & Hh & Hd).
    exists newSale, w'. repeat apply conj; assumption.
Qed.

(** C3 in the application as it runs.  The data has been loaded, so
    the hook holds the client's row as [clientService.getAll] returned
    it; ten boxes of paracetamol have then been taken into stock
    through [updateProduct], which leaves that product as a mapped
    object.  A sale of two boxes to the client: the client is found in
    the hook's list; the sale is stored and recorded in the hook with
    its [finalAmount] of 20, the stock goes from 20 to 18, and the
    client update is sent with a [totalPurchases] that is [NaN], where
    C3 has it send 0 + 20.  The server refuses it and [addSale] fails:
    the client's total is still 0 and the date of the last purchase is
    the old one. *)
Theorem addSale_loaded_client_total_is_NaN :
  let w := snd (useDatabase.updateProduct "p1" Fixtures.restock
                  (Fixtures.loaded Fixtures.healthy)) in
  let after := useDatabase.addSale Fixtures.single w in
  Hook.error (hook w) = None /\
  Hook.clients (hook w) = [Held.row Fixtures.alice] /\
  JS.find (fun c => String.eqb (Client.id (Held.columns c)) "c1") (Hook.clients (hook w))
  = Some (Held.row Fixtures.alice) /\
  Spec.stockOf "p1" (Db.products (db w)) = Some 20 /\
  Spec.purchasesOf "c1" (Db.clients (db w)) = Some (0%Q, Fixtures.t0 - 10 * msPerDay) /\
  fst after = Thrown 7 /\
  Db.log (db (snd after))
  = Db.log (db w)
    ++ Spec.createRequests Fixtures.single "uuid-4"
    ++ [Db.UpdateProduct (Spec.stockUpdate (20 - 2)) "p1";
        Db.UpdateClient (Spec.purchaseUpdateNaN (Fixtures.t0 + 4)) "c1"] /\
  map Sale.finalAmount (Hook.sales (hook (snd after))) = [20%Q] /\
  map Db.final_amount (Db.sales (db (snd after))) = [20%Q] /\
  Spec.stockOf "p1" (Db.products (db (snd after))) = Some 18 /\
  Spec.purchasesOf "c1" (Db.clients (db (snd after)))
  = Some (0%Q, Fixtures.t0 - 10 * msPerDay) /\
  Spec.purchasesOf "c1" (Hook.clients (hook (snd after)))
  = Some (0%Q, Fixtures.t0 - 10 * msPerDay) /\
  Hook.error (hook (snd after)) = Some "Failed to add sale"%string.
Proof.
  vm_compute. repeat split.
Qed.

(* ================================================================== *)
(** * A product named by several line items *)
(* ================================================================== *)

Lemma itemsOf_none (pid : string) (items : list SaleItem.t) :
  (forall item, In item items -> SaleItem.productId item <> pid) ->
  Spec.itemsOf pid items = [].
Proof.
  induction items as [|x items IH]; simpl; intros H; [reflexivity|].
  assert (E : String.eqb (SaleItem.productId x) pid = false).
  { apply String.eqb_neq. apply H. now left. }
  rewrite E. apply IH. intros i Hi. apply H. now right.
Qed.

Lemma quantityOf_last (before after : list SaleItem.t) (it : SaleItem.t) :
  (forall item, In item after -> SaleItem.productId item <> SaleItem.productId it) ->
  Spec.quantityOf (SaleItem.productId it) (before ++ it :: after)
  = Spec.quantityOf (SaleItem.productId it) before + SaleItem.quantity it.
Proof.
  intros H. unfold Spec.quantityOf, Spec.itemsOf. rewrite filter_app. simpl.
  rewrite String.eqb_refl. fold (Spec.itemsOf (SaleItem.productId it) after).
  rewrite (itemsOf_none _ H), sumZ_app, sumZ_cons.
  change (JS.sumZ SaleItem.quantity []) with 0. lia.
Qed.

(** What C10 says, for a hook whose objects are all mapped.  Take a
    sale whose line items name a product the hook holds, [it] being the
    last of them, and a state in which the server answers and has a row
    for what the hook holds.  Every stock update sent is computed from
    the product list as it was before the sale (the requests are
    [Spec.stockRequests] of that list).  When [addSale] returns, the
    stock on record for the product, in the hook and in the database,
    is its stock before the sale minus the quantity of [it]; when the
    earlier line items for the product have a quantity that is not zero
    in total, this is not the stock before the sale minus the
    quantities of all the line items for the product. *)
Lemma addSale_repeated_product (saleData : SaleData.t) (w : World)
  (before after : list SaleItem.t) (it : SaleItem.t) (product : Product.t) :
  Spec.answers w -> Spec.backed w -> Spec.mapped w -> Spec.referenced saleData w ->
  SaleData.items saleData = before ++ it :: after ->
  (forall item, In item after -> SaleItem.productId item <> SaleItem.productId it) ->
  JS.find (fun p => String.eqb (Product.id p) (SaleItem.productId it))
          (Hook.products (hook w)) = Some product ->
  let pid := SaleItem.productId it in
  exists newSale w',
    useDatabase.addSale saleData w = (Returned newSale, w') /\
    Db.log (db w')
    = Db.log (db w)
      ++ Spec.createRequests saleData (Sale.id newSale)
      ++ Spec.stockRequests (Hook.products (hook w)) (SaleData.items saleData)
      ++ Spec.purchaseRequests (Hook.clients (hook w)) saleData (Sale.createdAt newSale) /\
    (forall item, In item (SaleData.items saleData) -> SaleItem.productId item = pid ->
       In (Db.UpdateProduct
             (Spec.stockUpdate (Product.currentStock product - SaleItem.quantity item)) pid)
          (Spec.stockRequests (Hook.products (hook w)) (SaleData.items saleData))) /\
    Spec.stockOf pid (Hook.products (hook w'))
    = Some (Product.currentStock product - SaleItem.quantity it) /\
    Spec.stockOf pid (Db.products (db w'))
    = Some (Product.currentStock product - SaleItem.quantity it) /\
    (Spec.quantityOf pid before <> 0 ->
     Spec.stockOf pid (Hook.products (hook w'))
     <> Some (Product.currentStock product
              - Spec.quantityOf pid (SaleData.items saleData))).
Proof.
  intros Ha Hb Hm Href Hsplit Hafter F pid.
  unfold JS.find in F.
  change (List.find (Spec.hasId pid) (Hook.products (hook w)) = Some product) in F.
  destruct (addSale_answers Ha Hb Hm Href)
    as (w' & Hrun & _ & _ & _ & _ & Hlog & _ & Hstock & _).
  destruct (Hstock before it after product Hsplit Hafter F) as [Hh Hd].
  exists (Spec.persisted saleData w), w'.
  split; [exact Hrun|]. split; [exact Hlog|]. repeat apply conj.
  - intros item Hin Hid. apply stockRequests_In. exists item, product.
    rewrite Hid. repeat split; assumption.
  - exact Hh.
  - exact Hd.
  - intros Hq. unfold pid in *. rewrite Hh, Hsplit.
    rewrite (@quantityOf_last before after it Hafter). intros E. inversion E. lia.
Qed.

Lemma referenced_twice (e : Db.Env) : Spec.referenced Fixtures.twice (Fixtures.world e).
Proof.
  split; simpl; [auto|]. intros item [<-|[<-|[]]]; simpl; auto.
Qed.

(** Two and then three boxes of a product with ten in stock, held as a
    mapped object: seven are on record afterwards, not five. *)
Lemma addSale_repeated_product_example :
  exists newSale w',
    useDatabase.addSale Fixtures.twice (Fixtures.world Fixtures.healthy)
    = (Returned newSale, w') /\
    Spec.stockOf "p1" (Hook.products (hook w')) = Some 7 /\
    Spec.stockOf "p1" (Db.products (db w')) = Some 7 /\
    Spec.stockOf "p1" (Hook.products (hook w')) <> Some (10 - 5).
Proof.
  assert (Hq : Spec.quantityOf "p1" [Fixtures.item "p1" "Paracetamol" 2 10] <> 0)
    by (vm_compute; discriminate).
  destruct (@addSale_repeated_product Fixtures.twice (Fixtures.world Fixtures.healthy)
              [Fixtures.item "p1" "Paracetamol" 2 10] []
              (Fixtures.item "p1" "Paracetamol" 3 10) Fixtures.paracetamol
              (@answers_healthy (Fixtures.world Fixtures.healthy) eq_refl)
              (backed_world _) (mapped_world _) (referenced_twice _)
              eq_refl (fun item H => match H with end) eq_refl)
    as (newSale & w' & Hrun & _ & _ & Hh & Hd & Hne).
  exists newSale, w'. split; [exact Hrun|]. split; [exact Hh|]. split; [exact Hd|].
  exact (Hne Hq).
Qed.

(** C10 in the application as it runs.  The data has been loaded, so
    the hook holds the product's row as [productService.getAll]
    returned it.  A sale with two line items for the product, of 2 and
    of 3 boxes: the product is found in the hook's list, with 10 in
    stock in the database.  [addSale] stores the sale, then sends for
    the first line item an update whose stock is [NaN]; the server
    refuses it and [addSale] fails.  No update is sent for the second
    line item, and the stock on record is still 10: it is not 10 - 3,
    the stock before the sale minus the quantity of the last line item,
    which is what the same sale leaves when the hook holds the product
    as a mapped object. *)
Theorem addSale_loaded_repeated_product :
  let w := Fixtures.loaded Fixtures.healthy in
  let after := useDatabase.addSale Fixtures.twice w in
  let typed := useDatabase.addSale Fixtures.twice (Fixtures.world Fixtures.healthy) in
  Hook.error (hook w) = None /\
  JS.find (fun p => String.eqb (Product.id (Held.columns p)) "p1") (Hook.products (hook w))
  = Some (Held.row Fixtures.paracetamol) /\
  Spec.stockOf "p1" (Db.products (db w)) = Some 10 /\
  fst after = Thrown 5 /\
  Db.log (db (snd after))
  = Db.log (db w)
    ++ Spec.createRequests Fixtures.twice "uuid-3"
    ++ [Db.UpdateProduct Spec.stockUpdateNaN "p1"] /\
  Spec.stockOf "p1" (Db.products (db (snd after))) = Some 10 /\
  Spec.stockOf "p1" (Hook.products (hook (snd after))) = Some 10 /\
  Spec.stockOf "p1" (Db.products (db (snd after))) <> Some (10 - 3) /\
  Hook.error (hook (snd after)) = Some "Failed to add sale"%string /\
  Spec.stockOf "p1" (Db.products (db (snd typed))) = Some (10 - 3).
Proof.
  vm_compute. repeat split. discriminate.
Qed.

(* ================================================================== *)
(** * [addSale] when a request fails *)
(* ================================================================== *)

(** The first request of step 1 fails: nothing is written but the
    error message. *)
Lemma addSale_sale_insert_fails (saleData : SaleData.t) (w : World) :
  Db.outage (Db.env (db w)) (List.length (Db.log (db w))) = true ->
  useDatabase.addSale saleData w
  = (Thrown (List.length (Db.log (db w))),
     {| hook := {| Hook.products := Hook.products (hook w);
                   Hook.clients := Hook.clients (hook w);
                   Hook.sales := Hook.sales (hook w);
                   Hook.error := Some "Failed to add sale"%string |};
        db := Db.sent (Db.InsertSale (SaleData.clientId saleData)
                         (SaleData.clientName saleData) (SaleData.totalAmount saleData)
                         (SaleData.discount saleData) (SaleData.finalAmount saleData)
                         (SaleData.paymentMethod saleData)) (db w) |}).
Proof.
  intros Ho.
  unfold useDatabase.addSale, try_catch, bind at 1, salesService.create, bind at 1.
  rewrite (request_none _ _ (db_insertSale_fails _ _ _ _ _ _ _ Ho)).
  reflexivity.
Qed.

(** The second request of step 1 fails: the hook's three lists, the
    products, the clients and the sale items are as they were, and the
    [sales] table has one row more. *)
Lemma addSale_items_insert_fails (saleData : SaleData.t) (w : World) :
  Db.outage (Db.env (db w)) (List.length (Db.log (db w))) = false ->
  In (SaleData.clientId saleData) (map Client.id (Db.clients (db w))) ->
  Db.outage (Db.env (db w)) (S (List.length (Db.log (db w)))) = true ->
  let newSale := Spec.persisted saleData w in
  useDatabase.addSale saleData w
  = (Thrown (S (List.length (Db.log (db w)))),
     {| hook := {| Hook.products := Hook.products (hook w);
                   Hook.clients := Hook.clients (hook w);
                   Hook.sales := Hook.sales (hook w);
                   Hook.error := Some "Failed to add sale"%string |};
        db := Db.sent
                (Db.InsertSaleItems
                   (salesService.saleItemsData (Sale.id newSale) (SaleData.items saleData)))
                (Db.with_sales (Db.sales (db w) ++ [Spec.saleRow newSale])
                   (Db.sent (Db.InsertSale (SaleData.clientId saleData)
                               (SaleData.clientName saleData) (SaleData.totalAmount saleData)
                               (SaleData.discount saleData) (SaleData.finalAmount saleData)
                               (SaleData.paymentMethod saleData)) (db w))) |}).
Proof.
  intros Ho1 Hc Ho2 newSale.
  unfold useDatabase.addSale, try_catch, bind at 1, salesService.create, bind at 1.
  rewrite (@request_some _ _ w _ _
             (@db_insertSale_answers _ _
                (SaleData.totalAmount saleData) (SaleData.discount saleData)
                (SaleData.finalAmount saleData) (SaleData.paymentMethod saleData)
                (db w) Ho1 Hc)).
  unfold bind, request, Db.insertSaleItems. cbv zeta. simpl Db.env. simpl Db.log.
  rewrite length_app, Nat.add_1_r, Ho2. reflexivity.
Qed.

(** C2 at scenario B with the connection lost between the two inserts
    of step 1: [addSale] fails, the hook's lists and the product and
    client rows are untouched, no line item is stored, and the [sales]
    table has gained the row of the sale. *)
Theorem addSale_leaves_sale_row_behind :
  let w := Fixtures.world (Fixtures.failing 1) in
  let after := useDatabase.addSale Fixtures.scenarioB w in
  fst after = Thrown 1 /\
  Hook.products (hook (snd after)) = Hook.products (hook w) /\
  Hook.clients (hook (snd after)) = Hook.clients (hook w) /\
  Hook.sales (hook (snd after)) = Hook.sales (hook w) /\
  Db.products (db (snd after)) = Db.products (db w) /\
  Db.clients (db (snd after)) = Db.clients (db w) /\
  Db.sale_items (db (snd after)) = [] /\
  Db.sales (db (snd after))
  = [{| Db.id := "uuid-0"; Db.client_id := "c1"; Db.client_name := "Alice";
        Db.total_amount := 25; Db.discount := 2; Db.final_amount := 23;
        Db.payment_method := cash; Db.created_at := Fixtures.t0 |}] /\
  Db.sales (db (snd after)) <> Db.sales (db w).
Proof.
  vm_compute. repeat split. discriminate.
Qed.

(** The second half of C2 at scenario B with the second stock update
    failing: [addSale] fails; the sale is in the hook's list and in the
    database with its items, and the first product's stock stays
    updated; the second product and the client are not updated. *)
Lemma addSale_no_rollback :
  let w := Fixtures.world (Fixtures.failing 3) in
  let after := useDatabase.addSale Fixtures.scenarioB w in
  fst after = Thrown 3 /\
  Hook.error (hook (snd after)) = Some "Failed to add sale"%string /\
  List.length (Hook.sales (hook (snd after))) = 1%nat /\
  List.length (Db.sales (db (snd after))) = 1%nat /\
  List.length (Db.sale_items (db (snd after))) = 2%nat /\
  Spec.stockOf "p1" (Hook.products (hook (snd after))) = Some 8 /\
  Spec.stockOf "p1" (Db.products (db (snd after))) = Some 8 /\
  Spec.stockOf "p2" (Hook.products (hook (snd after))) = Some 3 /\
  Spec.stockOf "p2" (Db.products (db (snd after))) = Some 3 /\
  Spec.purchasesOf "c1" (Hook.clients (hook (snd after)))
  = Some (0%Q, Fixtures.t0 - 10 * msPerDay) /\
  Spec.purchasesOf "c1" (Db.clients (db (snd after)))
  = Some (0%Q, Fixtures.t0 - 10 * msPerDay).
Proof.
  vm_compute. repeat split.
Qed.

(** In general: whatever a loop has written before one of its turns
    throws is still there, and the turns after it do not run. *)
Lemma stock_loop_stops (snapshot : Held.array Product.t) (pre rest : list SaleItem.t)
  (item : SaleItem.t) (w w1 w2 : World) (e : nat) :
  for_of pre (useDatabase.updateStock snapshot) w = (Returned tt, w1) ->
  useDatabase.updateStock snapshot item w1 = (Thrown e, w2) ->
  for_of (pre ++ item :: rest) (useDatabase.updateStock snapshot) w = (Thrown e, w2).
Proof.
  intros Hpre Hitem. now rewrite for_of_app, Hpre, for_of_cons, Hitem.
Qed.

(* ================================================================== *)
(** * The totals kept for a client *)
(* ================================================================== *)

(** C4 at a client with one sale of 23.00 whose phone number is then
    edited: before the edit the totals of the hook agree with the
    sales; the edit sets [totalPurchases] to 0 and [lastPurchaseDate] to
    the time of the edit, in the hook and in the database, while the
    client's sales still add up to 23.00. *)
Theorem client_edit_resets_totals :
  let sold := snd (useDatabase.addSale Fixtures.scenarioB
                     (Fixtures.world Fixtures.healthy)) in
  let form := {| Clients.name := "Alice"; Clients.email := "alice@example.org";
                 Clients.phone := "555-0142"; Clients.address := "1 Main Street" |} in
  let later := Fixtures.t0 + msPerDay in
  let edited := snd (Clients.handleSubmit later (List.hd_error (Hook.clients (hook sold)))
                       form true sold) in
  Spec.totalsTrackSales sold = true /\
  Spec.purchasesOf "c1" (Hook.clients (hook sold)) = Some ((0 + 23)%Q, Fixtures.t0) /\
  Hook.sales (hook edited) = Hook.sales (hook sold) /\
  Hook.error (hook edited) = None /\
  Spec.purchasesOf "c1" (Hook.clients (hook edited)) = Some (0%Q, later) /\
  Spec.purchasesOf "c1" (Db.clients (db edited)) = Some (0%Q, later) /\
  Clients.statsTotalPurchases (Hook.sales (hook edited)) "c1" = (0 + 23)%Q /\
  Clients.statsLastPurchase (Hook.sales (hook edited)) "c1" = Some Fixtures.t0 /\
  Spec.totalsTrackSales edited = false.
Proof.
  vm_compute. repeat split.
Qed.

Lemma fold_max_below (l : list Sale.t) (m : Z) :
  (forall s, In s l -> Sale.createdAt s <= m) ->
  fold_left (fun m x => Z.max m (Sale.createdAt x)) l m = m.
Proof.
  induction l as [|x l IH]; simpl; intros H; [reflexivity|].
  rewrite Z.max_l by (apply H; now left). apply IH. intros s Hs. apply H. now right.
Qed.

(** The part of C4 that sale creation keeps, for a hook whose objects
    are all mapped: if the hook's total for the client agreed with the
    client's sales before the call, it does after it; and its
    [lastPurchaseDate] is the latest [createdAt] when the new sale is
    not older than the client's earlier ones. *)
Lemma addSale_keeps_totals (saleData : SaleData.t) (w : World) (client : Client.t) :
  Spec.answers w -> Spec.backed w -> Spec.mapped w -> Spec.referenced saleData w ->
  List.find (Spec.isClient (SaleData.clientId saleData)) (Hook.clients (hook w))
  = Some client ->
  (Client.totalPurchases client
   == Clients.statsTotalPurchases (Hook.sales (hook w)) (Client.id client))%Q ->
  exists newSale w' total date,
    useDatabase.addSale saleData w = (Returned newSale, w') /\
    Spec.purchasesOf (Client.id client) (Hook.clients (hook w')) = Some (total, date) /\
    (total == Clients.statsTotalPurchases (Hook.sales (hook w')) (Client.id client))%Q /\
    ((forall s, In s (Clients.clientSales (Hook.sales (hook w)) (Client.id client)) ->
                Sale.createdAt s <= Sale.createdAt newSale) ->
     Clients.statsLastPurchase (Hook.sales (hook w')) (Client.id client) = Some date).
Proof.
  intros Ha Hb Hm Href F Htotal.
  destruct (addSale_answers Ha Hb Hm Href)
    as (w' & Hrun & Hsales & _ & _ & _ & _ & Hclient & _).
  rewrite F in Hclient. destruct Hclient as [Hh _].
  destruct (find_isClient _ _ F) as [_ Hid].
  assert (Hmine : String.eqb (SaleData.clientId saleData) (Client.id client) = true).
  { rewrite Hid. apply String.eqb_refl. }
  exists (Spec.persisted saleData w), w'. do 2 eexists.
  split; [exact Hrun|]. split; [exact Hh|]. split.
  - unfold Clients.statsTotalPurchases, Clients.clientSales. rewrite Hsales. simpl filter.
    rewrite Hmine, sumQ_cons, Htotal. simpl Sale.finalAmount.
    unfold Clients.statsTotalPurchases, Clients.clientSales. ring.
  - intros Hnewest. unfold Clients.statsLastPurchase, Clients.clientSales.
    rewrite Hsales. simpl filter. rewrite Hmine. f_equal.
    now apply fold_max_below.
Qed.

(** Client creation: the new client starts at a total of 0. *)
Lemma handleSubmit_creates_at_zero (now : Z) (form : Clients.FormData) (w : World) :
  Db.outage (Db.env (db w)) (List.length (Db.log (db w))) = false ->
  let n := List.length (Db.log (db w)) in
  let w' := snd (Clients.handleSubmit now None form false w) in
  Hook.clients (hook w')
  = Held.mapped
      {| Client.id := Db.gen_random_uuid (Db.env (db w)) n;
         Client.name := Clients.name form; Client.email := Clients.email form;
         Client.phone := Clients.phone form; Client.address := Clients.address form;
         Client.totalPurchases := 0; Client.lastPurchaseDate := now;
         Client.createdAt := Db.now (Db.env (db w)) n |} :: Hook.clients (hook w) /\
  Hook.sales (hook w') = Hook.sales (hook w).
Proof.
  intros Ho. simpl.
  unfold Clients.fire, useDatabase.addClient, try_catch, bind, clientService.create,
    request, Db.insertClient. cbv zeta. simpl Db.env. rewrite Ho. simpl. split; reflexivity.
Qed.

(** Any edit of a client the hook and the database hold, a row or a
    mapped object, whatever the form says: the totals are reset and the
    sales are not touched. *)
Lemma handleSubmit_edit_resets (now : Z) (form : Clients.FormData)
  (editing : Held.t Client.t) (held row : Client.t) (w : World) :
  Db.outage (Db.env (db w)) (List.length (Db.log (db w))) = false ->
  let id := Client.id (Held.columns editing) in
  List.find (Spec.isClient id) (Db.clients (db w)) = Some row ->
  List.find (Spec.isClient id) (Hook.clients (hook w)) = Some held ->
  let w' := snd (Clients.handleSubmit now (Some editing) form true w) in
  Spec.purchasesOf id (Hook.clients (hook w')) = Some (0%Q, now) /\
  Spec.purchasesOf id (Db.clients (db w')) = Some (0%Q, now) /\
  Hook.sales (hook w') = Hook.sales (hook w).
Proof.
  intros Ho id Hr Hh. simpl. unfold Clients.fire.
  match goal with
  | |- context [useDatabase.updateClient ?i ?u w] =>
      rewrite (@updateClient_answers i u w row Ho eq_refl Hr)
  end.
  simpl snd. simpl hook. simpl db.
  assert (Hidrow : Client.id row = id) by apply (find_isClient _ _ Hr).
  repeat split.
  - simpl Hook.clients. rewrite (@all_replace Client.t (Spec.isClient id)).
    apply (@purchasesOf_replaced _ 0%Q now (fun _ => _) _ held); [|exact Hh].
    intros c Hc. simpl. repeat split. rewrite Hidrow. symmetry. now apply String.eqb_eq.
  - apply (@purchasesOf_replaced _ 0%Q now (Db.setClient _) _ row); [|exact Hr].
    intros c Hc. repeat split.
Qed.
(* ================================================================== *)
(** * Grouping loops in general *)
(* ================================================================== *)

Section GroupFacts.
Variables X V : Type.
Variable key : X -> string.
Variable init : X -> V.
Variable step : V -> X -> V.

Lemma members_snoc (k : string) (xs : list X) (x : X) :
  Group.members key k (xs ++ [x])
  = if String.eqb (key x) k then Group.members key k xs ++ [x] else Group.members key k xs.
Proof.
  unfold Group.members. rewrite filter_app. simpl.
  destruct (String.eqb (key x) k); [reflexivity | apply app_nil_r].
Qed.

Lemma group_get (k : string) (xs : list X) :
  JS.get k (fold_left (Group.add key init step) xs []) = Group.value key init step k xs.
Proof.
  induction xs as [|x xs IH] using rev_ind.
  - reflexivity.
  - rewrite fold_left_app. simpl. unfold Group.add at 1. rewrite get_set.
    unfold Group.value. rewrite members_snoc.
    destruct (String.eqb (key x) k) eqn:E.
    + apply String.eqb_eq in E. subst k. rewrite IH. unfold Group.value.
      destruct (Group.members key (key x) xs) as [|x0 rest]; simpl.
      * reflexivity.
      * now rewrite fold_left_app.
    + exact IH.
Qed.

Lemma group_NoDup (xs : list X) (m : JS.Map V) :
  NoDup (JS.keys m) -> NoDup (JS.keys (fold_left (Group.add key init step) xs m)).
Proof.
  revert m. induction xs as [|x xs IH]; simpl; intros m H; [exact H|].
  apply IH. unfold Group.add. now apply NoDup_keys_set.
Qed.

Lemma group_entry (xs : list X) (k : string) (v : V) :
  In (k, v) (fold_left (Group.add key init step) xs []) <->
  Group.value key init step k xs = Some v.
Proof.
  rewrite <- group_get. split.
  - apply In_get. apply group_NoDup. constructor.
  - apply get_In.
Qed.


Lemma group_key_member (xs : list X) (k : string) (v : V) :
  In (k, v) (fold_left (Group.add key init step) xs []) ->
  exists x, In x xs /\ key x = k.
Proof.
  intros H. apply group_entry in H. unfold Group.value in H.
  destruct (Group.members key k xs) as [|x0 rest] eqn:E; [discriminate|].
  assert (Hx : In x0 (Group.members key k xs)) by (rewrite E; now left).
  apply filter_In in Hx. destruct Hx as [Hx Hk].
  exists x0. split; [exact Hx | now apply String.eqb_eq].
Qed.





End GroupFacts.

(* ================================================================== *)
(** * The analytics groupings *)
(* ================================================================== *)

Lemma clientPurchases_shape (filtered : list Sale.t) :
  Analytics.clientPurchases filtered
  = fold_left (Group.add Sale.clientId Shape.clientInit Shape.clientStep) filtered [].
Proof. reflexivity. Qed.

Lemma clientStep_fold (l : list Sale.t) (e : Analytics.ClientPerf.t) :
  let r := fold_left Shape.clientStep l e in
  Analytics.ClientPerf.orders r = Analytics.ClientPerf.orders e + Z.of_nat (List.length l) /\
  Analytics.ClientPerf.revenue r
  = fold_left (fun sum sale => (sum + Sale.finalAmount sale)%Q) l
              (Analytics.ClientPerf.revenue e) /\
  (forall d, l <> [] -> Analytics.ClientPerf.name r = Sale.clientName (last l d)).
Proof.
  induction l as [|x l IH] using rev_ind; simpl.
  - repeat split; [lia | congruence].
  - rewrite !fold_left_app. simpl. destruct IH as (Ho & Hr & _).
    rewrite Ho, Hr, length_app. simpl. repeat split.
    + lia.
    + intros d _. now rewrite last_last.
Qed.

Lemma byClientRevenueDesc_total (a b : string * Analytics.ClientPerf.t) :
  Analytics.byClientRevenueDesc a b = true \/ Analytics.byClientRevenueDesc b a = true.
Proof.
  unfold Analytics.byClientRevenueDesc. rewrite !Qle_bool_iff.
  destruct (Qlt_le_dec (Analytics.ClientPerf.revenue (snd a))
                       (Analytics.ClientPerf.revenue (snd b))); [right|left]; lra.
Qed.

Lemma byClientRevenueDesc_trans (a b c : string * Analytics.ClientPerf.t) :
  Analytics.byClientRevenueDesc a b = true -> Analytics.byClientRevenueDesc b c = true ->
  Analytics.byClientRevenueDesc a c = true.
Proof. unfold Analytics.byClientRevenueDesc. rewrite !Qle_bool_iff. lra. Qed.

Lemma byProductRevenueDesc_total (a b : string * Analytics.ProductPerf.t) :
  Analytics.byProductRevenueDesc a b = true \/ Analytics.byProductRevenueDesc b a = true.
Proof.
  unfold Analytics.byProductRevenueDesc. rewrite !Qle_bool_iff.
  destruct (Qlt_le_dec (Analytics.ProductPerf.revenue (snd a))
                       (Analytics.ProductPerf.revenue (snd b))); [right|left]; lra.
Qed.

Lemma byProductRevenueDesc_trans (a b c : string * Analytics.ProductPerf.t) :
  Analytics.byProductRevenueDesc a b = true -> Analytics.byProductRevenueDesc b c = true ->
  Analytics.byProductRevenueDesc a c = true.
Proof. unfold Analytics.byProductRevenueDesc. rewrite !Qle_bool_iff. lra. Qed.

Lemma last_map_Some (A B : Type) (f : A -> B) (l : list A) (d : A) :
  l <> [] -> last (map (fun x => Some (f x)) l) None = Some (f (last l d)).
Proof.
  destruct l as [|x l] using rev_ind; [congruence|]. intros _.
  rewrite map_app. simpl. now rewrite !last_last.
Qed.

(** X1.  Each record of [topClients] describes the sales of the period
    made to its client: [orders] is their number (at least one),
    [revenue] the sum of their [finalAmount], [avgOrder] is
    [revenue / orders], and the name is the one on the last of them. *)
Theorem topClients_records (cal : Calendar) (now : Z) (timeRange : Analytics.TimeRange)
  (sales : list Sale.t) (products : list Product.t) (clients : list Client.t) :
  let d := Analytics.analyticsData cal now timeRange sales products clients in
  Forall
    (fun e =>
       let mine := filter (fun sale => String.eqb (Sale.clientId sale) (fst e))
                          (Analytics.r_filteredSales d) in
       mine <> [] /\
       Analytics.ClientPerf.orders (snd e) = Z.of_nat (List.length mine) /\
       Analytics.ClientPerf.revenue (snd e) = JS.sumQ Sale.finalAmount mine /\
       Analytics.ClientPerf.avgOrder (snd e)
       = (JS.sumQ Sale.finalAmount mine / inject_Z (Z.of_nat (List.length mine)))%Q /\
       Some (Analytics.ClientPerf.name (snd e)) = last (map (fun s => Some (Sale.clientName s)) mine) None)
    (Analytics.r_topClients d).
Proof.
  simpl. set (filtered := Analytics.filteredSales now timeRange sales).
  apply Forall_forall. intros [id c] Hin.
  unfold Analytics.topClients, JS.slice0, JS.entries in Hin.
  apply In_firstn in Hin. apply (Permutation_in _ (sort_perm _ _)) in Hin.
  pose proof (@clientPurchases_ordered_from [] filtered (Forall_nil _)) as Hord.
  rewrite Forall_forall in Hord. destruct (Hord _ Hin) as [_ Havg]. simpl in Havg.
  rewrite clientPurchases_shape in Hin. apply group_entry in Hin.
  unfold Group.value, Group.members in Hin. simpl fst. simpl snd.
  destruct (filter (fun x => String.eqb (Sale.clientId x) id) filtered)
    as [|x0 rest] eqn:E; [discriminate|].
  assert (Hc : c = fold_left Shape.clientStep (x0 :: rest) (Shape.clientInit x0))
    by (now inversion Hin).
  clear Hin.
  pose proof (clientStep_fold (x0 :: rest) (Shape.clientInit x0)) as Hfold.
  cbv zeta in Hfold. rewrite <- Hc in Hfold. destruct Hfold as (Ho & Hr & Hn).
  change (Analytics.ClientPerf.orders (Shape.clientInit x0)) with 0 in Ho.
  change (Analytics.ClientPerf.revenue (Shape.clientInit x0)) with 0%Q in Hr.
  fold (JS.sumQ Sale.finalAmount (x0 :: rest)) in Hr.
  assert (Ho' : Analytics.ClientPerf.orders c = Z.of_nat (List.length (x0 :: rest)))
    by (rewrite Ho; lia).
  repeat split.
  - discriminate.
  - exact Ho'.
  - exact Hr.
  - rewrite Havg, Hr, Ho'. reflexivity.
  - rewrite (Hn x0) by discriminate. symmetry. apply last_map_Some. discriminate.
Qed.








Lemma fold_flat (A B M : Type) (f : M -> B -> M) (inner : A -> list B) (l : list A) (m : M) :
  fold_left (fun m a => fold_left f (inner a) m) l m = fold_left f (flat_map inner l) m.
Proof.
  revert m. induction l as [|a l IH]; simpl; intros m; [reflexivity|].
  now rewrite fold_left_app, IH.
Qed.

Lemma productPerf_shape (products : list Product.t) (filtered : list Sale.t) :
  Analytics.productSales products filtered
  = fold_left (Group.add SaleItem.productId Shape.productInit (Shape.productStep products))
              (Spec.allItems filtered) [].
Proof. unfold Analytics.productSales. now rewrite fold_flat. Qed.


(** The profit booked for line items of one product: nothing when the
    product list does not have the product, and otherwise their revenue
    minus the product's cost for their quantity, provided each line's
    total is its quantity times its unit price. *)
(** X3.  Both ranking lists of the analytics hold at most ten entries,
    in non-increasing order of revenue, with no id twice; every product
    entry stands for a line item of a sale of the period and every
    client entry for a sale of the period. *)
Theorem analytics_rankings (cal : Calendar) (now : Z) (timeRange : Analytics.TimeRange)
  (sales : list Sale.t) (products : list Product.t) (clients : list Client.t) :
  let d := Analytics.analyticsData cal now timeRange sales products clients in
  (List.length (Analytics.r_topProducts d) <= 10)%nat /\
  (List.length (Analytics.r_topClients d) <= 10)%nat /\
  StronglySorted
    (fun a b => (Analytics.ProductPerf.revenue (snd b)
                 <= Analytics.ProductPerf.revenue (snd a))%Q)
    (Analytics.r_topProducts d) /\
  StronglySorted
    (fun a b => (Analytics.ClientPerf.revenue (snd b)
                 <= Analytics.ClientPerf.revenue (snd a))%Q)
    (Analytics.r_topClients d) /\
  NoDup (map fst (Analytics.r_topProducts d)) /\
  NoDup (map fst (Analytics.r_topClients d)) /\
  Forall (fun e => exists sale item,
                     In sale (Analytics.r_filteredSales d) /\ In item (Sale.items sale) /\
                     SaleItem.productId item = fst e)
         (Analytics.r_topProducts d) /\
  Forall (fun e => exists sale,
                     In sale (Analytics.r_filteredSales d) /\ Sale.clientId sale = fst e)
         (Analytics.r_topClients d).
Proof.
  simpl. unfold Analytics.topProducts, Analytics.topClients, JS.slice0, JS.entries.
  set (filtered := Analytics.filteredSales now timeRange sales).
  repeat apply conj.
  - apply firstn_le_length.
  - apply firstn_le_length.
  - apply StronglySorted_firstn. eapply StronglySorted_weaken.
    2: { apply sort_sorted;
         [apply byProductRevenueDesc_total | apply byProductRevenueDesc_trans]. }
    intros x y H. unfold Analytics.byProductRevenueDesc in H. apply Qle_bool_iff in H. lra.
  - apply StronglySorted_firstn. eapply StronglySorted_weaken.
    2: { apply sort_sorted;
         [apply byClientRevenueDesc_total | apply byClientRevenueDesc_trans]. }
    intros x y H. unfold Analytics.byClientRevenueDesc in H. apply Qle_bool_iff in H. lra.
  - apply NoDup_map_firstn.
    eapply Permutation_NoDup; [apply Permutation_map, Permutation_sym, sort_perm|].
    rewrite productPerf_shape. apply (@group_NoDup _ _ _ _ _ _ []). constructor.
  - apply NoDup_map_firstn.
    eapply Permutation_NoDup; [apply Permutation_map, Permutation_sym, sort_perm|].
    rewrite clientPurchases_shape. apply (@group_NoDup _ _ _ _ _ _ []). constructor.
  - apply Forall_forall. intros [id e] Hin. apply In_firstn in Hin.
    apply (Permutation_in _ (sort_perm _ _)) in Hin.
    rewrite productPerf_shape in Hin. apply group_key_member in Hin.
    destruct Hin as (item & Hitem & Hid). unfold Spec.allItems in Hitem.
    apply in_flat_map in Hitem. destruct Hitem as (sale & Hsale & Hitem).
    now exists sale, item.
  - apply Forall_forall. intros [id e] Hin. apply In_firstn in Hin.
    apply (Permutation_in _ (sort_perm _ _)) in Hin.
    rewrite clientPurchases_shape in Hin. apply group_key_member in Hin.
    destruct Hin as (sale & Hsale & Hid). now exists sale.
Qed.




(* ================================================================== *)
(** * Windows and orderings of the metrics *)
(* ================================================================== *)

Section SumOrder.
Variable A : Type.
Variable f : A -> Q.

Lemma sumQ_nonneg (l : list A) :
  Forall (fun x => 0 <= f x)%Q l -> (0 <= JS.sumQ f l)%Q.
Proof.
  induction 1 as [|x l Hx Hl IH].
  - change (JS.sumQ f []) with 0%Q. lra.
  - rewrite sumQ_cons. lra.
Qed.

Lemma sumQ_filter_le (p q : A -> bool) (l : list A) :
  Forall (fun x => 0 <= f x)%Q l ->
  (forall x, p x = true -> q x = true) ->
  (JS.sumQ f (filter p l) <= JS.sumQ f (filter q l))%Q.
Proof.
  intros Hf Hpq. induction Hf as [|x l Hx Hl IH]; simpl.
  - lra.
  - destruct (p x) eqn:P.
    + rewrite (Hpq x P), !sumQ_cons. lra.
    + destruct (q x); [rewrite sumQ_cons|]; lra.
Qed.

Lemma sumQ_filter_le_all (p : A -> bool) (l : list A) :
  Forall (fun x => 0 <= f x)%Q l -> (JS.sumQ f (filter p l) <= JS.sumQ f l)%Q.
Proof.
  intros Hf. induction Hf as [|x l Hx Hl IH]; simpl.
  - lra.
  - destruct (p x); rewrite !sumQ_cons; lra.
Qed.

End SumOrder.



(** X7.  [recentSales] holds the five newest sales (all of them when
    there are fewer), newest first: together with the sales left out
    they are the input sales, and no sale left out is newer than one
    that is shown. *)
Theorem recentSales_newest (cal : Calendar) (now : Z) (a : Metrics.Arrays) :
  let recent := DashboardStats.recentSales (fst (Metrics.calculateDashboardStats cal now a)) in
  let rest := skipn 5 (Metrics.sales (snd (Metrics.calculateDashboardStats cal now a))) in
  List.length recent = Nat.min 5 (List.length (Metrics.sales a)) /\
  StronglySorted (fun x y => Sale.createdAt y <= Sale.createdAt x) recent /\
  Permutation (recent ++ rest) (Metrics.sales a) /\
  Forall (fun shown => Forall (fun left => Sale.createdAt left <= Sale.createdAt shown) rest)
         recent.
Proof.
  unfold Metrics.calculateDashboardStats.
  cbn [fst snd DashboardStats.recentSales Metrics.sales]. unfold JS.slice0.
  set (sorted := JS.sort Metrics.byCreatedAtDesc (Metrics.sales a)).
  assert (Hs : StronglySorted (fun x y => Sale.createdAt y <= Sale.createdAt x) sorted).
  { eapply StronglySorted_weaken.
    2: { apply sort_sorted; [apply byCreatedAtDesc_total | apply byCreatedAtDesc_trans]. }
    intros x y H. unfold Metrics.byCreatedAtDesc in H. apply Z.leb_le in H. lia. }
  repeat apply conj.
  - rewrite length_firstn. unfold sorted. now rewrite sort_length.
  - now apply StronglySorted_firstn.
  - rewrite firstn_skipn. apply sort_perm.
  - apply StronglySorted_app_cross. now rewrite firstn_skipn.
Qed.

Lemma inject_Z_ge_1 (z : Z) : 1 <= z -> (1 <= inject_Z z)%Q.
Proof. intros H. unfold Qle. simpl. lia. Qed.

Lemma div_le_self (x : Q) (z : Z) : (0 <= x)%Q -> 1 <= z -> (x / inject_Z z <= x)%Q.
Proof.
  intros Hx Hz. pose proof (inject_Z_ge_1 Hz) as Hk.
  apply Qle_shift_div_r; [lra|].
  assert (0 <= x * (inject_Z z - 1))%Q by (apply Qmult_le_0_compat; lra).
  lra.
Qed.

Lemma div_nonneg (x : Q) (z : Z) : (0 <= x)%Q -> 1 <= z -> (0 <= x / inject_Z z)%Q.
Proof.
  intros Hx Hz. pose proof (inject_Z_ge_1 Hz) as Hk.
  apply Qle_shift_div_l; lra.
Qed.

(** X8.  On a calendar whose start of the year is not after the start
    of the month, itself not after the start of the day, and with no
    negative [finalAmount]: today's sales are at most the month's, the
    month's at most the year's and the year's at most the total; the
    daily and monthly averages are between 0 and the sums they
    average. *)
Theorem dashboard_windows_nested (cal : Calendar) (now : Z) (a : Metrics.Arrays) :
  Metrics.thisYear cal now <= Metrics.thisMonth cal now <= Metrics.today cal now ->
  Forall (fun sale => 0 <= Sale.finalAmount sale)%Q (Metrics.sales a) ->
  let s := fst (Metrics.calculateDashboardStats cal now a) in
  (0 <= DashboardStats.todaySales s)%Q /\
  (DashboardStats.todaySales s <= Metrics.monthTotal cal now (Metrics.sales a))%Q /\
  (Metrics.monthTotal cal now (Metrics.sales a) <= DashboardStats.avgYearlySales s)%Q /\
  (DashboardStats.avgYearlySales s <= DashboardStats.totalSales s)%Q /\
  (0 <= DashboardStats.avgDailySales s
   <= Metrics.monthTotal cal now (Metrics.sales a))%Q /\
  (0 <= DashboardStats.avgMonthlySales s <= DashboardStats.avgYearlySales s)%Q.
Proof.
  intros [Hym Hmd] Hpos. simpl.
  unfold Metrics.todayTotal, Metrics.monthTotal, Metrics.yearTotal, Metrics.total,
    Metrics.since.
  assert (H0 : forall p, (0 <= JS.sumQ Sale.finalAmount (filter p (Metrics.sales a)))%Q).
  { intros p. apply sumQ_nonneg. apply Forall_forall. intros x Hx.
    apply filter_In in Hx. rewrite Forall_forall in Hpos. apply Hpos, Hx. }
  repeat apply conj.
  - apply H0.
  - apply sumQ_filter_le; [exact Hpos|]. intros x. rewrite !Z.geb_le. lia.
  - apply sumQ_filter_le; [exact Hpos|]. intros x. rewrite !Z.geb_le. lia.
  - apply sumQ_filter_le_all. exact Hpos.
  - unfold Metrics.avgDailySales, Metrics.monthTotal, Metrics.total, Metrics.since.
    destruct (getDate cal now >? 0) eqn:E; [|lra].
    apply Z.gtb_gt in E. apply div_nonneg; [apply H0 | lia].
  - unfold Metrics.avgDailySales, Metrics.monthTotal, Metrics.total, Metrics.since.
    destruct (getDate cal now >? 0) eqn:E; [|apply H0].
    apply Z.gtb_gt in E. apply div_le_self; [apply H0 | lia].
  - unfold Metrics.avgMonthlySales, Metrics.yearTotal, Metrics.total, Metrics.since.
    destruct (getMonth cal now >? 0) eqn:E; [|apply H0].
    apply Z.gtb_gt in E. apply div_nonneg; [apply H0 | lia].
  - unfold Metrics.avgMonthlySales, Metrics.yearTotal, Metrics.total, Metrics.since.
    destruct (getMonth cal now >? 0) eqn:E; [|lra].
    apply Z.gtb_gt in E. apply div_le_self; [apply H0 | lia].
Qed.

(** 15 January 2024 in UTC, two sales of the week before. *)
Lemma dashboard_windows_nested_witness :
  let a := {| Metrics.products := []; Metrics.clients := [];
              Metrics.sales := [Fixtures.older; Fixtures.newer] |} in
  Metrics.thisYear utc Fixtures.t0 <= Metrics.thisMonth utc Fixtures.t0
  <= Metrics.today utc Fixtures.t0 /\
  Forall (fun sale => 0 <= Sale.finalAmount sale)%Q (Metrics.sales a) /\
  (DashboardStats.todaySales (fst (Metrics.calculateDashboardStats utc Fixtures.t0 a))
   <= DashboardStats.totalSales (fst (Metrics.calculateDashboardStats utc Fixtures.t0 a)))%Q.
Proof.
  intros a.
  assert (Hc : Metrics.thisYear utc Fixtures.t0 <= Metrics.thisMonth utc Fixtures.t0
               <= Metrics.today utc Fixtures.t0) by (vm_compute; split; discriminate).
  assert (Hp : Forall (fun sale => 0 <= Sale.finalAmount sale)%Q (Metrics.sales a)).
  { repeat constructor; simpl; discriminate. }
  destruct (dashboard_windows_nested utc Fixtures.t0 a Hc Hp)
    as (_ & H1 & H2 & H3 & _).
  split; [exact Hc|]. split; [exact Hp|].
  eapply Qle_trans; [exact H1|]. eapply Qle_trans; [exact H2 | exact H3].
Defined.




(* ================================================================== *)
(** * Loading, and what a loaded row does to a sale *)
(* ================================================================== *)

Lemma sorted_rows (A : Type) (before : A -> A -> bool) (l : list A) :
  (forall a b, before a b = true \/ before b a = true) ->
  (forall a b c, before a b = true -> before b c = true -> before a c = true) ->
  Permutation (JS.sort before l) l /\
  StronglySorted (fun a b => before a b = true) (JS.sort before l).
Proof.
  intros Htotal Htrans. split; [apply sort_perm | now apply sort_sorted].
Qed.

Lemma newest_first_total (A : Type) (at_ : A -> Z) (a b : A) :
  (at_ b <=? at_ a) = true \/ (at_ a <=? at_ b) = true.
Proof. rewrite !Z.leb_le. lia. Qed.

Lemma newest_first_trans (A : Type) (at_ : A -> Z) (a b c : A) :
  (at_ b <=? at_ a) = true -> (at_ c <=? at_ b) = true -> (at_ c <=? at_ a) = true.
Proof. rewrite !Z.leb_le. lia. Qed.

Lemma rows_not_mapped (A : Type) (l : list A) :
  Forall (fun h => Held.isMapped h = false) (map (@Held.row A) l).
Proof. induction l; simpl; constructor; auto. Qed.

Lemma all_rows (A : Type) (l : list A) : Held.all (map (@Held.row A) l) = l.
Proof. unfold Held.all. rewrite map_map. simpl. apply map_id. Qed.

Lemma products_getAll (w : World) :
  productService.getAll w
  = if Db.outage (Db.env (db w)) (List.length (Db.log (db w)))
    then (Thrown (List.length (Db.log (db w))), asked Db.SelectProducts w)
    else (Returned (map (@Held.row Product.t)
                        (JS.sort (fun a b => Product.createdAt b <=? Product.createdAt a)
                                 (Db.products (db w)))),
          asked Db.SelectProducts w).
Proof.
  unfold productService.getAll, bind, request, Db.selectProducts. simpl.
  now destruct (Db.outage _ _).
Qed.

Lemma clients_getAll (w : World) :
  clientService.getAll w
  = if Db.outage (Db.env (db w)) (List.length (Db.log (db w)))
    then (Thrown (List.length (Db.log (db w))), asked Db.SelectClients w)
    else (Returned (map (@Held.row Client.t)
                        (JS.sort (fun a b => Client.createdAt b <=? Client.createdAt a)
                                 (Db.clients (db w)))),
          asked Db.SelectClients w).
Proof.
  unfold clientService.getAll, bind, request, Db.selectClients. simpl.
  now destruct (Db.outage _ _).
Qed.

Lemma sales_getAll (w : World) :
  salesService.getAll w
  = if Db.outage (Db.env (db w)) (List.length (Db.log (db w)))
    then (Thrown (List.length (Db.log (db w))), asked Db.SelectSales w)
    else (Returned (Sync.stored (db w)), asked Db.SelectSales w).
Proof.
  unfold salesService.getAll, bind, request, Db.selectSales. simpl.
  now destruct (Db.outage _ _).
Qed.

Lemma loadAllData_run (w : World) :
  let n := List.length (Db.log (db w)) in
  let d := Db.sent Db.SelectSales (Db.sent Db.SelectClients
             (Db.sent Db.SelectProducts (db w))) in
  useDatabase.loadAllData w
  = (Returned tt,
     if Db.outage (Db.env (db w)) n || Db.outage (Db.env (db w)) (n + 1)
        || Db.outage (Db.env (db w)) (n + 2)
     then {| hook := {| Hook.products := Hook.products (hook w);
                        Hook.clients := Hook.clients (hook w);
                        Hook.sales := Hook.sales (hook w);
                        Hook.error := Some "Failed to load data from database"%string |};
             db := d |}
     else {| hook :=
               {| Hook.products :=
                    map (@Held.row Product.t)
                        (JS.sort (fun a b => Product.createdAt b <=? Product.createdAt a)
                                 (Db.products (db w)));
                  Hook.clients :=
                    map (@Held.row Client.t)
                        (JS.sort (fun a b => Client.createdAt b <=? Client.createdAt a)
                                 (Db.clients (db w)));
                  Hook.sales := Sync.stored (db w);
                  Hook.error := None |};
             db := d |}).
Proof.
  intros n d. unfold d, n.
  unfold useDatabase.loadAllData, try_catch, bind, all3, resetError.
  rewrite products_getAll, clients_getAll, sales_getAll.
  cbv zeta. unfold asked. cbn [hook db].
  destruct (Db.outage (Db.env (db w)) (List.length (Db.log (db w))));
    cbn [hook db fst snd Db.sent Db.env Db.log Db.products Db.clients];
    rewrite !length_app; cbn [List.length];
    destruct (Db.outage (Db.env (db w)) (List.length (Db.log (db w)) + 1));
    cbn [hook db fst snd Db.sent Db.env Db.log Db.products Db.clients];
    rewrite ?length_app, <- ?Nat.add_assoc; cbn [List.length];
    change (1 + 1)%nat with 2%nat;
    destruct (Db.outage (Db.env (db w)) (List.length (Db.log (db w)) + 2));
    reflexivity.
Qed.

(** X10.  [loadAllData] sends the three selects, whatever their
    answers, writes nothing to the database and never throws.  When
    one of them fails the three arrays are as they were and the hook
    says so.  When all three are answered, the hook holds every product
    and every client of the database as a row, not one of them mapped,
    newest first, and every sale with its line items, mapped, newest
    first; every object it holds then has its row in the database. *)
Theorem loadAllData_stores_rows (w : World) :
  let n := List.length (Db.log (db w)) in
  let w' := snd (useDatabase.loadAllData w) in
  fst (useDatabase.loadAllData w) = Returned tt /\
  Db.log (db w') = Db.log (db w) ++ [Db.SelectProducts; Db.SelectClients; Db.SelectSales] /\
  Db.products (db w') = Db.products (db w) /\
  Db.clients (db w') = Db.clients (db w) /\
  Db.sales (db w') = Db.sales (db w) /\
  Db.sale_items (db w') = Db.sale_items (db w) /\
  if Db.outage (Db.env (db w)) n || Db.outage (Db.env (db w)) (n + 1)
     || Db.outage (Db.env (db w)) (n + 2)
  then
    Hook.products (hook w') = Hook.products (hook w) /\
    Hook.clients (hook w') = Hook.clients (hook w) /\
    Hook.sales (hook w') = Hook.sales (hook w) /\
    Hook.error (hook w') = Some "Failed to load data from database"%string
  else
    Hook.error (hook w') = None /\
    Forall (fun p => Held.isMapped p = false) (Hook.products (hook w')) /\
    Forall (fun c => Held.isMapped c = false) (Hook.clients (hook w')) /\
    Permutation (Held.all (Hook.products (hook w'))) (Db.products (db w)) /\
    Permutation (Held.all (Hook.clients (hook w'))) (Db.clients (db w)) /\
    StronglySorted (fun a b => Product.createdAt b <= Product.createdAt a)
                   (Held.all (Hook.products (hook w'))) /\
    StronglySorted (fun a b => Client.createdAt b <= Client.createdAt a)
                   (Held.all (Hook.clients (hook w'))) /\
    StronglySorted (fun a b => Sale.createdAt b <= Sale.createdAt a) (Hook.sales (hook w')) /\
    Permutation (map Spec.saleRow (Hook.sales (hook w'))) (Db.sales (db w)) /\
    Forall (fun s => Sale.items s
                     = map salesService.item
                           (filter (fun r => String.eqb (Db.sale_id r) (Sale.id s))
                                   (Db.sale_items (db w))))
           (Hook.sales (hook w')) /\
    Spec.backed w'.
Proof.
  intros n w'. unfold w', n. rewrite loadAllData_run. cbv zeta. cbn [fst snd].
  destruct (Db.outage (Db.env (db w)) (List.length (Db.log (db w)))
            || Db.outage (Db.env (db w)) (List.length (Db.log (db w)) + 1)
            || Db.outage (Db.env (db w)) (List.length (Db.log (db w)) + 2));
    cbn [hook db Db.sent Db.log Db.products Db.clients Db.sales Db.sale_items
         Hook.products Hook.clients Hook.sales Hook.error];
    rewrite <- !app_assoc; cbn [app];
    try (repeat split; reflexivity).
  split; [reflexivity|]. split; [reflexivity|].
  split; [reflexivity|]. split; [reflexivity|].
  split; [reflexivity|]. split; [reflexivity|].
  split; [reflexivity|].
  split; [apply rows_not_mapped|]. split; [apply rows_not_mapped|].
  rewrite !all_rows.
  split; [apply sort_perm|]. split; [apply sort_perm|].
  split.
  { eapply StronglySorted_weaken.
    2: { apply sort_sorted;
         [apply (newest_first_total Product.createdAt)
         | apply (newest_first_trans Product.createdAt)]. }
    intros a b H. now apply Z.leb_le. }
  split.
  { eapply StronglySorted_weaken.
    2: { apply sort_sorted;
         [apply (newest_first_total Client.createdAt)
         | apply (newest_first_trans Client.createdAt)]. }
    intros a b H. now apply Z.leb_le. }
  unfold Sync.stored. simpl Db.sales. simpl Db.sale_items.
  set (rows := JS.sort (fun a b => Db.created_at b <=? Db.created_at a) (Db.sales (db w))).
  assert (Hs : StronglySorted (fun a b => Db.created_at b <= Db.created_at a) rows).
  { eapply StronglySorted_weaken.
    2: { apply sort_sorted;
         [apply (newest_first_total Db.created_at)
         | apply (newest_first_trans Db.created_at)]. }
    intros a b H. now apply Z.leb_le. }
  split.
  { rewrite map_map. clear - Hs. induction Hs as [|x l Hl IH Hx]; simpl; constructor.
    - exact IH.
    - rewrite Forall_forall in *. intros s Hin. apply in_map_iff in Hin.
      destruct Hin as (r & <- & Hr). simpl. now apply Hx. }
  split.
  { rewrite !map_map. simpl.
    replace (map (fun x => Spec.saleRow (salesService.sale
                     (x, filter (fun r => String.eqb (Db.sale_id r) (Db.id x))
                                (Db.sale_items (db w))))) rows)
      with rows; [apply sort_perm|].
    symmetry. erewrite map_ext; [apply map_id|]. intros [] . reflexivity. }
  split.
  { apply Forall_forall. intros s Hin. rewrite map_map in Hin. apply in_map_iff in Hin.
    destruct Hin as (r & <- & _). reflexivity. }
  split; cbn [hook db Hook.products Hook.clients Db.products Db.clients Db.sent];
    rewrite all_rows; intros x Hx; apply in_map;
    apply (Permutation_in _ (sort_perm _ _) Hx).
Qed.

(** X11.  A sale whose first line item names a product the hook holds
    as a row fails, whatever the rest of the sale is, against a server
    that answers and for foreign keys that hold: the sale and its line
    items are stored and the sale recorded, one product update with
    [NaN] for the stock is sent and refused, no stock and no client
    changes, and [addSale] throws with its message set. *)
Theorem addSale_row_product_throws (saleData : SaleData.t) (w : World)
  (it : SaleItem.t) (rest : list SaleItem.t) (product : Product.t) :
  Spec.answers w -> Spec.referenced saleData w ->
  SaleData.items saleData = it :: rest ->
  JS.find (Spec.holds (SaleItem.productId it)) (Hook.products (hook w))
  = Some (Held.row product) ->
  let newSale := Spec.persisted saleData w in
  exists w',
    useDatabase.addSale saleData w = (Thrown (List.length (Db.log (db w)) + 2)%nat, w') /\
    Hook.products (hook w') = Hook.products (hook w) /\
    Hook.clients (hook w') = Hook.clients (hook w) /\
    Hook.sales (hook w') = newSale :: Hook.sales (hook w) /\
    Hook.error (hook w') = Some "Failed to add sale"%string /\
    Db.products (db w') = Db.products (db w) /\
    Db.clients (db w') = Db.clients (db w) /\
    Db.sales (db w') = Db.sales (db w) ++ [Spec.saleRow newSale] /\
    Db.sale_items (db w')
    = Db.sale_items (db w)
      ++ salesService.saleItemsData (Sale.id newSale) (SaleData.items saleData) /\
    Db.log (db w')
    = Db.log (db w)
      ++ Spec.createRequests saleData (Sale.id newSale)
      ++ [Db.UpdateProduct Spec.stockUpdateNaN (SaleItem.productId it)].
Proof.
  intros Ha Href Hitems Hfind newSale.
  destruct (create_answers Ha Href)
    as (w1 & Hcreate & Hhook1 & Henv1 & Hp1 & Hc1 & Hs1 & Hi1 & Hlog1).
  fold newSale in Hcreate, Hs1, Hi1, Hlog1.
  unfold useDatabase.addSale, try_catch, bind.
  rewrite Hcreate. unfold setSales. rewrite Hitems, for_of_cons.
  rewrite (updateStock_row _ _ _ Hfind). rewrite <- Hitems.
  eexists. split.
  { unfold setError, throw. simpl. rewrite Hlog1, length_app. reflexivity. }
  simpl. rewrite Hhook1, Hp1, Hc1, Hs1, Hi1, Hlog1, <- app_assoc.
  repeat split.
Qed.

Lemma addSale_row_product_throws_witness :
  exists w',
    useDatabase.addSale Fixtures.twice (Fixtures.loaded Fixtures.healthy)
    = (Thrown 5%nat, w') /\
    Spec.stockOf "p1" (Db.products (db w')) = Some 10.
Proof.
  destruct (@addSale_row_product_throws Fixtures.twice (Fixtures.loaded Fixtures.healthy)
              (Fixtures.item "p1" "Paracetamol" 2 10) [Fixtures.item "p1" "Paracetamol" 3 10]
              Fixtures.paracetamol)
    as (w' & Hrun & _ & _ & _ & _ & Hp & _).
  - intros n. reflexivity.
  - split; [vm_compute; tauto |].
    intros item [<- | [<- | []]]; vm_compute; tauto.
  - reflexivity.
  - reflexivity.
  - exists w'. split; [exact Hrun | rewrite Hp; reflexivity].
Defined.

(** X12.  When every product the hook holds is a mapped object and the
    client of the sale is held as a row, the sale is stored, every
    stock update is made, and then the client update carries [NaN], is
    refused, and [addSale] throws: the client's totals stay as they
    were, in the hook and in the database. *)
Theorem addSale_row_client_throws (saleData : SaleData.t) (w : World) (client : Client.t) :
  Spec.answers w ->
  (forall p : Product.t, In p (Hook.products (hook w)) ->
                         In (Product.id p) (map Product.id (Db.products (db w)))) ->
  Forall (fun p => Held.isMapped p = true) (Hook.products (hook w)) ->
  Spec.referenced saleData w ->
  JS.find (Spec.holdsClient (SaleData.clientId saleData)) (Hook.clients (hook w))
  = Some (Held.row client) ->
  let newSale := Spec.persisted saleData w in
  let stock := Spec.stockRequests (Hook.products (hook w)) (SaleData.items saleData) in
  exists w',
    useDatabase.addSale saleData w
    = (Thrown (List.length (Db.log (db w)) + 2 + List.length stock)%nat, w') /\
    Hook.clients (hook w') = Hook.clients (hook w) /\
    Db.clients (db w') = Db.clients (db w) /\
    Hook.sales (hook w') = newSale :: Hook.sales (hook w) /\
    Db.sales (db w') = Db.sales (db w) ++ [Spec.saleRow newSale] /\
    Hook.error (hook w') = Some "Failed to add sale"%string /\
    Db.log (db w')
    = Db.log (db w)
      ++ Spec.createRequests saleData (Sale.id newSale)
      ++ stock
      ++ [Db.UpdateClient (Spec.purchaseUpdateNaN (Sale.createdAt newSale))
                          (Client.id client)] /\
    (forall before it after product,
       SaleData.items saleData = before ++ it :: after ->
       (forall item, In item after -> SaleItem.productId item <> SaleItem.productId it) ->
       List.find (Spec.hasId (SaleItem.productId it)) (Hook.products (hook w)) = Some product ->
       Spec.stockOf (SaleItem.productId it) (Db.products (db w'))
       = Some (Product.currentStock product - SaleItem.quantity it)).
Proof.
  intros Ha Hbp Hmp Href Hfind newSale stock.
  destruct (create_answers Ha Href)
    as (w1 & Hcreate & Hhook1 & Henv1 & Hp1 & Hc1 & Hs1 & Hi1 & Hlog1).
  fold newSale in Hcreate, Hs1, Hi1, Hlog1.
  set (w2 := {| hook := {| Hook.products := Hook.products (hook w1);
                           Hook.clients := Hook.clients (hook w1);
                           Hook.sales := newSale :: Hook.sales (hook w1);
                           Hook.error := Hook.error (hook w1) |};
                db := db w1 |}).
  assert (Ha2 : Spec.answers w2) by (apply (@answers_env w); [exact Henv1 | exact Ha]).
  assert (Hrows2 : forall p : Product.t,
             In p (Hook.products (hook w)) ->
             In (Product.id p) (map Product.id (Db.products (db w2)))).
  { intros p Hp. simpl. rewrite Hp1. now apply Hbp. }
  assert (Hheld2 : forall p : Product.t,
             In p (Hook.products (hook w)) ->
             In (Product.id p) (map Product.id (Hook.products (hook w2)))).
  { intros p Hp. simpl. rewrite Hhook1. now apply in_map. }
  destruct (@stock_loop (Hook.products (hook w)) (SaleData.items saleData) Hmp w2 Ha2 Hrows2)
    as (w3 & Hloop & Hsame3 & Hids_h3 & Hids_d3 & Hlog3 & Hframe3).
  destruct Hsame3 as (Hc3 & Hs3 & He3 & Henv3 & Hdc3 & Hds3 & Hdi3).
  simpl in Hc3, Hs3, He3, Henv3, Hdc3, Hds3, Hdi3, Hlog3.
  unfold useDatabase.addSale, try_catch, bind.
  rewrite Hcreate. unfold setSales. fold w2. rewrite Hloop.
  rewrite (updatePurchases_row _ _ _ _ Hfind).
  eexists. split.
  { unfold setError, throw. simpl. rewrite Hlog3, Hlog1, !length_app. fold stock.
    simpl List.length. reflexivity. }
  simpl. rewrite Hc3, Hdc3, Hs3, Hds3, Hlog3, Hhook1, Hc1, Hs1, Hlog1, <- !app_assoc.
  repeat split.
  intros before it after product Hsplit Hafter F.
  destruct (@stock_loop_last (Hook.products (hook w)) before after it product w2
              Hmp Ha2 Hrows2 Hheld2 F Hafter) as (w3' & Hloop' & Hres).
  rewrite <- Hsplit, Hloop in Hloop'. inversion Hloop'; subst w3'. apply Hres.
Qed.

Lemma addSale_row_client_throws_witness :
  let w := snd (useDatabase.updateProduct "p2" Fixtures.restock
             (snd (useDatabase.updateProduct "p1" Fixtures.restock
                (Fixtures.loaded Fixtures.healthy)))) in
  exists w',
    useDatabase.addSale Fixtures.single w = (Thrown 8%nat, w') /\
    Spec.purchasesOf "c1" (Db.clients (db w')) = Spec.purchasesOf "c1" (Db.clients (db w)) /\
    Spec.stockOf "p1" (Db.products (db w')) = Some 18.
Proof.
  intros w.
  destruct (@addSale_row_client_throws Fixtures.single w Fixtures.alice)
    as (w' & Hrun & _ & Hc & _ & _ & _ & _ & Hstock).
  - intros n. reflexivity.
  - intros p Hp. vm_compute in Hp. destruct Hp as [<- | [<- | []]]; vm_compute; tauto.
  - vm_compute. repeat constructor.
  - split; [vm_compute; tauto |].
    intros item [<- | []]; vm_compute; tauto.
  - reflexivity.
  - exists w'. split; [exact Hrun |]. split; [now rewrite Hc |].
    exact (Hstock [] (Fixtures.item "p1" "Paracetamol" 2 10) [] _ eq_refl
             (fun item (H : In item []) => match H with end) eq_refl).
Defined.

(* ================================================================== *)
(** * Reasoning about [Async] code *)
(* ================================================================== *)

Section HoareRules.
Variables A B : Type.

Lemma hoare_ret (a : A) (Q : A -> World -> Prop) (E : World -> Prop) :
  Sync.hoare (Q a) (ret a) Q E.
Proof. intros w H. exact H. Qed.

Lemma hoare_bind (P : World -> Prop) (m : Async A) (k : A -> Async B)
  (Q : A -> World -> Prop) (R : B -> World -> Prop) (E : World -> Prop) :
  Sync.hoare P m Q E ->
  (forall a, Sync.hoare (Q a) (k a) R E) ->
  Sync.hoare P (bind m k) R E.
Proof.
  intros Hm Hk w H. unfold bind. specialize (Hm w H).
  destruct (m w) as [[a|n] w']; [apply (Hk a w' Hm) | exact Hm].
Qed.

Lemma hoare_try_catch (P : World -> Prop) (body : Async A) (handler : nat -> Async A)
  (Q : A -> World -> Prop) (E E' : World -> Prop) :
  Sync.hoare P body Q E' ->
  (forall n, Sync.hoare E' (handler n) Q E) ->
  Sync.hoare P (try_catch body handler) Q E.
Proof.
  intros Hb Hh w H. unfold try_catch. specialize (Hb w H).
  destruct (body w) as [[a|n] w']; [exact Hb | apply (Hh n w' Hb)].
Qed.

End HoareRules.

Lemma hoare_for_of (A : Type) (xs : list A) (body : A -> Async unit) (I : World -> Prop) :
  (forall x, In x xs -> Sync.hoare I (body x) (fun _ => I) I) ->
  Sync.hoare I (for_of xs body) (fun _ => I) I.
Proof.
  induction xs as [|x xs IH]; simpl; intros Hbody.
  - apply (@hoare_ret unit tt (fun _ => I) I).
  - eapply (@hoare_bind unit unit I (body x) _ (fun _ => I) (fun _ => I) I).
    + apply Hbody. now left.
    + intros _. apply IH. intros y Hy. apply Hbody. now right.
Qed.

Lemma hoare_run (A : Type) (P : World -> Prop) (m : Async A) (I : World -> Prop) (w : World) :
  Sync.hoare P m (fun _ => I) I -> P w -> I (snd (m w)).
Proof. intros H Hw. specialize (H w Hw). now destruct (m w) as [[a|n] w']. Qed.

Lemma grows_refl (w : World) : Sync.grows w w.
Proof.
  unfold Sync.grows. repeat split; exists []; now rewrite ?app_nil_r.
Qed.

Lemma grows_trans (a b c : World) : Sync.grows a b -> Sync.grows b c -> Sync.grows a c.
Proof.
  intros ([m1 H1] & [m2 H2] & [m3 H3] & [m4 H4] & [m5 H5] & [m6 H6] & [m7 H7] & [m8 H8])
         ([n1 K1] & [n2 K2] & [n3 K3] & [n4 K4] & [n5 K5] & [n6 K6] & [n7 K7] & [n8 K8]).
  unfold Sync.grows.
  split; [exists (n1 ++ m1); now rewrite K1, H1, app_assoc|].
  split; [exists (m2 ++ n2); now rewrite K2, H2, app_assoc|].
  split; [exists (n3 ++ m3); now rewrite K3, H3, app_assoc|].
  split; [exists (m4 ++ n4); now rewrite K4, H4, app_assoc|].
  split; [exists (n5 ++ m5); now rewrite K5, H5, app_assoc|].
  split; [exists (m6 ++ n6); now rewrite K6, H6, app_assoc|].
  split; [exists (m7 ++ n7); now rewrite K7, H7, app_assoc|].
  exists (m8 ++ n8). now rewrite K8, H8, app_assoc.
Qed.

Lemma safe_refl (w : World) : Sync.safe w w.
Proof. split; [apply grows_refl | auto]. Qed.

Lemma safe_trans (a b c : World) : Sync.safe a b -> Sync.safe b c -> Sync.safe a c.
Proof.
  intros [G1 B1] [G2 B2]. split; [eapply grows_trans; eauto | auto].
Qed.

(** A change of the database alone. *)
Lemma safe_db (w : World) (d : Db.t) :
  (exists more, map Product.id (Db.products d) = map Product.id (Db.products (db w)) ++ more) ->
  (exists more, map Client.id (Db.clients d) = map Client.id (Db.clients (db w)) ++ more) ->
  (exists more, Db.sales d = Db.sales (db w) ++ more) ->
  (exists more, Db.sale_items d = Db.sale_items (db w) ++ more) ->
  (exists more, Db.log d = Db.log (db w) ++ more) ->
  Sync.safe w {| hook := hook w; db := d |}.
Proof.
  intros [mp Hp] [mc Hc] Hs Hi Hl. split.
  - unfold Sync.grows. simpl.
    split; [now exists []|]. split; [now exists mp|].
    split; [now exists []|]. split; [now exists mc|].
    split; [now exists []|]. auto.
  - intros [Bp Bc]. split; simpl.
    + intros p Hin. rewrite Hp. apply in_or_app. left. now apply Bp.
    + intros c Hin. rewrite Hc. apply in_or_app. left. now apply Bc.
Qed.

(** A change of the hook's state alone. *)
Lemma safe_hook (w : World) (h : Hook.t) :
  (exists more, map Product.id (Hook.products h)
                = more ++ map Product.id (Hook.products (hook w)) /\
                incl more (map Product.id (Db.products (db w)))) ->
  (exists more, map Client.id (Hook.clients h) = more ++ map Client.id (Hook.clients (hook w)) /\
                incl more (map Client.id (Db.clients (db w)))) ->
  (exists more, Hook.sales h = more ++ Hook.sales (hook w)) ->
  Sync.safe w {| hook := h; db := db w |}.
Proof.
  intros [mp [Hp Hmp]] [mc [Hc Hmc]] Hs. split.
  - unfold Sync.grows. simpl.
    split; [now exists mp|].
    split; [exists []; now rewrite app_nil_r|].
    split; [now exists mc|].
    split; [exists []; now rewrite app_nil_r|].
    split; [exact Hs|].
    repeat split; exists []; now rewrite app_nil_r.
  - intros [Bp Bc]. split; simpl.
    + intros p Hin. apply (in_map Product.id) in Hin. rewrite Hp in Hin.
      apply in_app_or in Hin. destruct Hin as [Hin|Hin]; [now apply Hmp|].
      apply in_map_iff in Hin. destruct Hin as (q & Hq & Hin). rewrite <- Hq. now apply Bp.
    + intros c Hin. apply (in_map Client.id) in Hin. rewrite Hc in Hin.
      apply in_app_or in Hin. destruct Hin as [Hin|Hin]; [now apply Hmc|].
      apply in_map_iff in Hin. destruct Hin as (q & Hq & Hin). rewrite <- Hq. now apply Bc.
Qed.

Lemma map_id_replace (A : Type) (key : A -> string) (f : A -> A) (id : string) (l : list A) :
  (forall x, String.eqb (key x) id = true -> key (f x) = key x) ->
  map key (map (fun x => if String.eqb (key x) id then f x else x) l) = map key l.
Proof.
  intros Hf. rewrite map_map. apply map_ext_in. intros x _.
  destruct (String.eqb (key x) id) eqn:E; [now apply Hf | reflexivity].
Qed.

Lemma safe_request_updateProduct (u : ProductUpdate.t) (id : string) (w : World) :
  match request (Db.updateProduct u id) w with
  | (Returned p, w') => Sync.safe w w' /\ Product.id p = id
  | (Thrown _, w') => Sync.safe w w'
  end.
Proof.
  unfold request, Db.updateProduct. cbv zeta. simpl Db.env. simpl Db.products.
  destruct (Db.outage (Db.env (db w)) (List.length (Db.log (db w)))).
  { apply safe_db; simpl; eauto; same. }
  destruct (negb (Db.notNull (ProductUpdate.currentStock u))).
  { apply safe_db; simpl; eauto; same. }
  destruct (List.find (fun p => String.eqb (Product.id p) id) (Db.products (db w)))
    as [row|] eqn:F.
  - split.
    + apply safe_db; simpl; eauto; try same.
      exists []. rewrite app_nil_r.
      apply (@map_id_replace Product.t Product.id
               (Db.setProduct u (Db.now (Db.env (db w)) (List.length (Db.log (db w))))) id).
      reflexivity.
    + simpl. apply find_some in F. now apply String.eqb_eq.
  - apply safe_db; simpl; eauto; same.
Qed.

Lemma safe_request_updateClient (u : ClientUpdate.t) (id : string) (w : World) :
  match request (Db.updateClient u id) w with
  | (Returned c, w') => Sync.safe w w' /\ Client.id c = id
  | (Thrown _, w') => Sync.safe w w'
  end.
Proof.
  unfold request, Db.updateClient. cbv zeta. simpl Db.env. simpl Db.clients.
  destruct (Db.outage (Db.env (db w)) (List.length (Db.log (db w)))).
  { apply safe_db; simpl; eauto; same. }
  destruct (negb (Db.notNull (ClientUpdate.totalPurchases u))).
  { apply safe_db; simpl; eauto; same. }
  destruct (List.find (fun c => String.eqb (Client.id c) id) (Db.clients (db w)))
    as [row|] eqn:F.
  - split.
    + apply safe_db; simpl; eauto; try same.
      exists []. rewrite app_nil_r.
      apply (@map_id_replace Client.t Client.id (Db.setClient u) id). reflexivity.
    + simpl. apply find_some in F. now apply String.eqb_eq.
  - apply safe_db; simpl; eauto; same.
Qed.

Lemma safe_request_insertProduct (data : ProductData.t) (w : World) :
  match request (Db.insertProduct data) w with
  | (Returned p, w') =>
      Sync.safe w w' /\ In (Product.id p) (map Product.id (Db.products (db w')))
  | (Thrown _, w') => Sync.safe w w'
  end.
Proof.
  unfold request, Db.insertProduct. cbv zeta. simpl Db.env. simpl Db.products.
  destruct (Db.outage (Db.env (db w)) (List.length (Db.log (db w)))).
  - apply safe_db; simpl; eauto; same.
  - split.
    + apply safe_db; simpl; eauto; try same.
      rewrite map_app. eauto.
    + simpl. rewrite map_app. apply in_or_app. right. now left.
Qed.

Lemma safe_request_insertClient (data : ClientData.t) (w : World) :
  match request (Db.insertClient data) w with
  | (Returned c, w') =>
      Sync.safe w w' /\ In (Client.id c) (map Client.id (Db.clients (db w')))
  | (Thrown _, w') => Sync.safe w w'
  end.
Proof.
  unfold request, Db.insertClient. cbv zeta. simpl Db.env. simpl Db.clients.
  destruct (Db.outage (Db.env (db w)) (List.length (Db.log (db w)))).
  - apply safe_db; simpl; eauto; same.
  - split.
    + apply safe_db; simpl; eauto; try same.
      rewrite map_app. eauto.
    + simpl. rewrite map_app. apply in_or_app. right. now left.
Qed.

Lemma safe_request_insertSale (client_id client_name : string)
  (total_amount discount final_amount : Q) (payment_method : PaymentMethod) (w : World) :
  match request (Db.insertSale client_id client_name total_amount discount final_amount
                               payment_method) w with
  | (_, w') => Sync.safe w w'
  end.
Proof.
  unfold request, Db.insertSale. cbv zeta. simpl Db.env. simpl Db.sales.
  destruct (Db.outage (Db.env (db w)) (List.length (Db.log (db w))));
    [apply safe_db; simpl; eauto; same|].
  destruct (negb (Db.hasClient client_id _));
    apply safe_db; simpl; eauto; same.
Qed.

Lemma safe_request_insertSaleItems (rows : list Db.SaleItemRow) (w : World) :
  match request (Db.insertSaleItems rows) w with
  | (_, w') => Sync.safe w w'
  end.
Proof.
  unfold request, Db.insertSaleItems. cbv zeta. simpl Db.env. simpl Db.sale_items.
  destruct (Db.outage (Db.env (db w)) (List.length (Db.log (db w))));
    [apply safe_db; simpl; eauto; same|].
  destruct (negb (forallb _ rows));
    apply safe_db; simpl; eauto; same.
Qed.

Lemma safe_setError (msg : string) (w : World) : Sync.safe w (snd (setError msg w)).
Proof. apply (@safe_hook w); simpl; [nothing | nothing | now exists []]. Qed.

Lemma safe_setSales_cons (sale : Sale.t) (w : World) :
  Sync.safe w (snd (setSales (fun prev => sale :: prev) w)).
Proof. apply (@safe_hook w); simpl; [nothing | nothing | now exists [sale]]. Qed.

Lemma safe_setProducts_replace (id : string) (updated : Product.t) (w : World) :
  Product.id updated = id ->
  Sync.safe w (snd (setProducts (map (fun p => if String.eqb (Product.id (Held.columns p)) id
                                               then Held.mapped updated else p)) w)).
Proof.
  intros Hid. apply (@safe_hook w); simpl; [| nothing | now exists []].
  exists []. split; [|intros x []]. simpl.
  rewrite (@all_replace Product.t (fun p => String.eqb (Product.id p) id)).
  apply (@map_id_replace Product.t Product.id (fun _ => updated) id).
  intros x Hx. apply String.eqb_eq in Hx. congruence.
Qed.

Lemma safe_setClients_replace (id : string) (updated : Client.t) (w : World) :
  Client.id updated = id ->
  Sync.safe w (snd (setClients (map (fun c => if String.eqb (Client.id (Held.columns c)) id
                                              then Held.mapped updated else c)) w)).
Proof.
  intros Hid. apply (@safe_hook w); simpl; [nothing | | now exists []].
  exists []. split; [|intros x []]. simpl.
  rewrite (@all_replace Client.t (fun c => String.eqb (Client.id c) id)).
  apply (@map_id_replace Client.t Client.id (fun _ => updated) id).
  intros x Hx. apply String.eqb_eq in Hx. congruence.
Qed.

Lemma safe_setProducts_cons (p : Product.t) (w : World) :
  In (Product.id p) (map Product.id (Db.products (db w))) ->
  Sync.safe w (snd (setProducts (fun prev => Held.mapped p :: prev) w)).
Proof.
  intros Hin. apply (@safe_hook w); simpl; [| nothing | now exists []].
  exists [Product.id p]. split; [reflexivity|]. intros x [<-|[]]. exact Hin.
Qed.

Lemma safe_setClients_cons (c : Client.t) (w : World) :
  In (Client.id c) (map Client.id (Db.clients (db w))) ->
  Sync.safe w (snd (setClients (fun prev => Held.mapped c :: prev) w)).
Proof.
  intros Hin. apply (@safe_hook w); simpl; [nothing | | now exists []].
  exists [Client.id c]. split; [reflexivity|]. intros x [<-|[]]. exact Hin.
Qed.

(** The handlers of the hook: [setError(...); throw err]. *)
Lemma safe_handler (A : Type) (msg : string) (w0 : World) (n : nat)
  (Q : A -> World -> Prop) :
  Sync.hoare (Sync.safe w0) (setError msg ;;; @throw A n)%async Q (Sync.safe w0).
Proof.
  intros w H. unfold bind, throw. simpl.
  eapply safe_trans; [exact H | apply (safe_setError msg w)].
Qed.

Lemma updateProduct_safe (id : string) (updates : ProductUpdate.t) (w0 : World) :
  Sync.hoare (Sync.safe w0) (useDatabase.updateProduct id updates)
             (fun _ => Sync.safe w0) (Sync.safe w0).
Proof.
  unfold useDatabase.updateProduct.
  apply (@hoare_try_catch Product.t (Sync.safe w0) _ _ (fun _ => Sync.safe w0)
           (Sync.safe w0) (Sync.safe w0)); [|intros n; apply safe_handler].
  intros w H. unfold bind, productService.update.
  pose proof (safe_request_updateProduct (productService.updateData updates) id w) as R.
  destruct (request (Db.updateProduct (productService.updateData updates) id) w)
    as [[p|n] w1].
  - destruct R as [R Hid]. simpl.
    eapply safe_trans; [|apply (@safe_setProducts_replace id p w1 Hid)].
    eapply safe_trans; eauto.
  - eapply safe_trans; eauto.
Qed.

Lemma updateClient_safe (id : string) (updates : ClientUpdate.t) (w0 : World) :
  Sync.hoare (Sync.safe w0) (useDatabase.updateClient id updates)
             (fun _ => Sync.safe w0) (Sync.safe w0).
Proof.
  unfold useDatabase.updateClient.
  apply (@hoare_try_catch Client.t (Sync.safe w0) _ _ (fun _ => Sync.safe w0)
           (Sync.safe w0) (Sync.safe w0)); [|intros n; apply safe_handler].
  intros w H. unfold bind, clientService.update.
  pose proof (safe_request_updateClient (clientService.updateData updates) id w) as R.
  destruct (request (Db.updateClient (clientService.updateData updates) id) w)
    as [[c|n] w1].
  - destruct R as [R Hid]. simpl.
    eapply safe_trans; [|apply (@safe_setClients_replace id c w1 Hid)].
    eapply safe_trans; eauto.
  - eapply safe_trans; eauto.
Qed.

Lemma addProduct_safe (productData : ProductData.t) (w0 : World) :
  Sync.hoare (Sync.safe w0) (useDatabase.addProduct productData)
             (fun _ => Sync.safe w0) (Sync.safe w0).
Proof.
  unfold useDatabase.addProduct.
  apply (@hoare_try_catch Product.t (Sync.safe w0) _ _ (fun _ => Sync.safe w0)
           (Sync.safe w0) (Sync.safe w0)); [|intros n; apply safe_handler].
  intros w H. unfold bind, productService.create.
  pose proof (safe_request_insertProduct productData w) as R.
  destruct (request (Db.insertProduct productData) w) as [[p|n] w1].
  - destruct R as [R Hin]. simpl.
    eapply safe_trans; [|apply (@safe_setProducts_cons p w1 Hin)].
    eapply safe_trans; eauto.
  - eapply safe_trans; eauto.
Qed.

Lemma addClient_safe (clientData : ClientData.t) (w0 : World) :
  Sync.hoare (Sync.safe w0) (useDatabase.addClient clientData)
             (fun _ => Sync.safe w0) (Sync.safe w0).
Proof.
  unfold useDatabase.addClient.
  apply (@hoare_try_catch Client.t (Sync.safe w0) _ _ (fun _ => Sync.safe w0)
           (Sync.safe w0) (Sync.safe w0)); [|intros n; apply safe_handler].
  intros w H. unfold bind, clientService.create.
  pose proof (safe_request_insertClient clientData w) as R.
  destruct (request (Db.insertClient clientData) w) as [[c|n] w1].
  - destruct R as [R Hin]. simpl.
    eapply safe_trans; [|apply (@safe_setClients_cons c w1 Hin)].
    eapply safe_trans; eauto.
  - eapply safe_trans; eauto.
Qed.

Lemma create_safe (sale : SaleData.t) (w0 : World) :
  Sync.hoare (Sync.safe w0) (salesService.create sale)
             (fun _ => Sync.safe w0) (Sync.safe w0).
Proof.
  intros w H. unfold salesService.create, bind.
  pose proof (safe_request_insertSale (SaleData.clientId sale) (SaleData.clientName sale)
                (SaleData.totalAmount sale) (SaleData.discount sale)
                (SaleData.finalAmount sale) (SaleData.paymentMethod sale) w) as R1.
  destruct (request (Db.insertSale _ _ _ _ _ _) w) as [[row|n] w1].
  - pose proof (safe_request_insertSaleItems
                  (salesService.saleItemsData (Db.id row) (SaleData.items sale)) w1) as R2.
    destruct (request (Db.insertSaleItems _) w1) as [[[]|n] w2]; simpl;
      eapply safe_trans; [| exact R2 | | exact R2]; eapply safe_trans; eauto.
  - eapply safe_trans; eauto.
Qed.

Lemma addSale_safe (saleData : SaleData.t) (w0 : World) :
  Sync.hoare (Sync.safe w0) (useDatabase.addSale saleData)
             (fun _ => Sync.safe w0) (Sync.safe w0).
Proof.
  intros w H. unfold useDatabase.addSale. cbv zeta.
  revert H. generalize (Hook.products (hook w)) (Hook.clients (hook w)).
  intros products clients H.
  refine (@hoare_try_catch Sale.t (Sync.safe w0) _ _ (fun _ => Sync.safe w0)
            (Sync.safe w0) (Sync.safe w0) _ _ w H); [|intros n; apply safe_handler].
  eapply hoare_bind; [apply create_safe|]. intros newSale.
  eapply hoare_bind with (Q := fun _ => Sync.safe w0).
  { intros w1 H1. eapply safe_trans; [exact H1 | apply safe_setSales_cons]. }
  intros _.
  eapply hoare_bind with (Q := fun _ => Sync.safe w0).
  { apply hoare_for_of. intros item _. unfold useDatabase.updateStock.
    destruct (JS.find _ products) as [product|].
    - eapply hoare_bind; [apply updateProduct_safe|]. intros ?.
      apply (@hoare_ret unit tt (fun _ => Sync.safe w0)).
    - apply (@hoare_ret unit tt (fun _ => Sync.safe w0)). }
  intros _.
  eapply hoare_bind with (Q := fun _ => Sync.safe w0).
  { unfold useDatabase.updatePurchases.
    destruct (JS.find _ clients) as [client|].
    - eapply hoare_bind; [apply updateClient_safe|]. intros ?.
      apply (@hoare_ret unit tt (fun _ => Sync.safe w0)).
    - apply (@hoare_ret unit tt (fun _ => Sync.safe w0)). }
  intros _. apply (@hoare_ret Sale.t newSale (fun _ => Sync.safe w0)).
Qed.

(** X13.  The writes of the hook other than the two deletes take
    nothing away, whatever the database answers, whether they return
    or throw, and whether the hook holds rows or mapped objects: every
    product, client and sale that was in the hook or in the database is
    still there under its id, sale rows, item rows and requests are
    only added, and a hook whose products and clients all had their
    rows in the database still has them all. *)
Theorem hook_writes_take_nothing_away (w : World) :
  (forall productData, Sync.safe w (snd (useDatabase.addProduct productData w))) /\
  (forall id updates, Sync.safe w (snd (useDatabase.updateProduct id updates w))) /\
  (forall clientData, Sync.safe w (snd (useDatabase.addClient clientData w))) /\
  (forall id updates, Sync.safe w (snd (useDatabase.updateClient id updates w))) /\
  (forall saleData, Sync.safe w (snd (useDatabase.addSale saleData w))).
Proof.
  repeat apply conj.
  - intros productData.
    apply (@hoare_run _ _ _ _ w (@addProduct_safe productData w) (safe_refl w)).
  - intros id updates.
    apply (@hoare_run _ _ _ _ w (@updateProduct_safe id updates w) (safe_refl w)).
  - intros clientData.
    apply (@hoare_run _ _ _ _ w (@addClient_safe clientData w) (safe_refl w)).
  - intros id updates.
    apply (@hoare_run _ _ _ _ w (@updateClient_safe id updates w) (safe_refl w)).
  - intros saleData.
    apply (@hoare_run _ _ _ _ w (@addSale_safe saleData w) (safe_refl w)).
Qed.

(* ================================================================== *)
(** * The two deletes *)
(* ================================================================== *)

Lemma filter_comm (A : Type) (p q : A -> bool) (l : list A) :
  filter p (filter q l) = filter q (filter p l).
Proof.
  induction l as [|x l IH]; simpl; [reflexivity|].
  destruct (p x) eqn:P, (q x) eqn:Q; simpl; rewrite ?P, ?Q, IH; reflexivity.
Qed.

Lemma filter_map_swap (A B : Type) (f : A -> B) (p : B -> bool) (l : list A) :
  filter p (map f l) = map f (filter (fun a => p (f a)) l).
Proof.
  induction l as [|x l IH]; simpl; [reflexivity|].
  destruct (p (f x)); simpl; now rewrite IH.
Qed.

Lemma not_In_filtered (A : Type) (key : A -> string) (id : string) (l : list A) :
  ~ In id (map key (filter (fun a => negb (String.eqb (key a) id)) l)).
Proof.
  intros H. apply in_map_iff in H. destruct H as (a & Ha & Hin).
  apply filter_In in Hin. destruct Hin as [_ Hin].
  rewrite <- Ha, String.eqb_refl in Hin. discriminate.
Qed.

Lemma all_filter (A : Type) (f : A -> bool) (hs : Held.array A) :
  Held.all (filter (fun h => f (Held.columns h)) hs) = filter f (Held.all hs).
Proof. unfold Held.all. now rewrite filter_map_swap. Qed.

Lemma map_fixed (A : Type) (f : A -> A) (l : list A) :
  map f l = l -> forall x, In x l -> f x = x.
Proof.
  induction l as [|y l IH]; simpl; intros H x Hin; [contradiction|].
  injection H as Hy Hl. destruct Hin as [<-|Hin]; [exact Hy | now apply IH].
Qed.

Lemma stored_deleteProduct (id : string) (d : Db.t) (items : list Db.SaleItemRow) :
  items = filter (fun r => negb (String.eqb (Db.product_id r) id)) (Db.sale_items d) ->
  map salesService.sale
      (map (fun s => (s, filter (fun r => String.eqb (Db.sale_id r) (Db.id s)) items))
           (JS.sort (fun a b => Db.created_at b <=? Db.created_at a) (Db.sales d)))
  = map (Sync.withoutProduct id) (Sync.stored d).
Proof.
  intros ->. unfold Sync.stored. rewrite !map_map. apply map_ext. intros s.
  unfold Sync.withoutProduct, salesService.sale. simpl. f_equal.
  rewrite filter_comm.
  rewrite (filter_map_swap salesService.item
             (fun item => negb (String.eqb (SaleItem.productId item) id))).
  reflexivity.
Qed.

(** X14.  [deleteProduct]: when the request fails nothing changes but
    the message, and the call throws.  When it is answered, the product
    is gone from the hook and from the database and its line items are
    gone from the database, so that every stored sale is the sale it
    was without the lines of that product; the sales of the hook are
    left as they were.  A hook that held the stored sales before the
    call therefore differs from the database after it as soon as one of
    its sales has a line of the product. *)
Theorem deleteProduct_cascades (id : string) (w : World) :
  let n := List.length (Db.log (db w)) in
  let w' := snd (useDatabase.deleteProduct id w) in
  Db.log (db w') = Db.log (db w) ++ [Db.DeleteProduct id] /\
  Hook.clients (hook w') = Hook.clients (hook w) /\
  Hook.sales (hook w') = Hook.sales (hook w) /\
  Db.clients (db w') = Db.clients (db w) /\
  Db.sales (db w') = Db.sales (db w) /\
  if Db.outage (Db.env (db w)) n
  then
    fst (useDatabase.deleteProduct id w) = Thrown n /\
    Hook.products (hook w') = Hook.products (hook w) /\
    Hook.error (hook w') = Some "Failed to delete product"%string /\
    Db.products (db w') = Db.products (db w) /\
    Db.sale_items (db w') = Db.sale_items (db w)
  else
    fst (useDatabase.deleteProduct id w) = Returned tt /\
    Hook.error (hook w') = Hook.error (hook w) /\
    Held.all (Hook.products (hook w'))
    = filter (fun p => negb (Spec.hasId id p)) (Hook.products (hook w)) /\
    Db.products (db w') = filter (fun p => negb (Spec.hasId id p)) (Db.products (db w)) /\
    ~ In id (map Product.id (Hook.products (hook w'))) /\
    ~ In id (map Product.id (Db.products (db w'))) /\
    Sync.stored (db w') = map (Sync.withoutProduct id) (Sync.stored (db w)) /\
    (Spec.backed w -> Spec.backed w') /\
    (Hook.sales (hook w) = Sync.stored (db w) ->
     forall sale item,
       In sale (Hook.sales (hook w)) -> In item (Sale.items sale) ->
       SaleItem.productId item = id ->
       Hook.sales (hook w') <> Sync.stored (db w')).
Proof.
  intros n w'. unfold w', n.
  unfold useDatabase.deleteProduct, try_catch, bind, productService.delete, request,
    Db.deleteProduct.
  cbv zeta. simpl Db.env.
  destruct (Db.outage (Db.env (db w)) (List.length (Db.log (db w)))) eqn:O.
  { simpl. repeat split. }
  simpl.
  assert (Hstored :
    Sync.stored
      (Db.with_sale_items
         (filter (fun r => negb (String.eqb (Db.product_id r) id)) (Db.sale_items (db w)))
         (Db.with_products
            (filter (fun p => negb (String.eqb (Product.id p) id)) (Db.products (db w)))
            (Db.sent (Db.DeleteProduct id) (db w))))
    = map (Sync.withoutProduct id) (Sync.stored (db w))).
  { apply (@stored_deleteProduct id (db w)). reflexivity. }
  assert (Hall : Held.all (filter (fun p => negb (String.eqb (Product.id (Held.columns p)) id))
                                  (Hook.products (hook w)))
                 = filter (fun p => negb (Spec.hasId id p)) (Hook.products (hook w))).
  { apply (@all_filter Product.t (fun p => negb (String.eqb (Product.id p) id))). }
  split; [reflexivity|]. split; [reflexivity|]. split; [reflexivity|].
  split; [reflexivity|]. split; [reflexivity|].
  split; [reflexivity|]. split; [reflexivity|].
  split; [exact Hall|]. split; [reflexivity|].
  split; [rewrite Hall; apply (@not_In_filtered Product.t Product.id)|].
  split; [apply (@not_In_filtered Product.t Product.id)|].
  split; [exact Hstored|].
  split.
  - intros [Bp Bc]. split; simpl.
    + intros p Hp. rewrite Hall in Hp. apply filter_In in Hp. destruct Hp as [Hin Hne].
      specialize (Bp p Hin). apply in_map_iff in Bp. destruct Bp as (q & Hq & Hq').
      apply in_map_iff. exists q. split; [exact Hq|].
      apply filter_In. split; [exact Hq'|]. unfold Spec.hasId in Hne. now rewrite Hq.
    + exact Bc.
  - intros Hheld sale item Hsale Hitem Hid Heq.
    rewrite Hstored, <- Hheld in Heq. symmetry in Heq.
    pose proof (@map_fixed _ _ _ Heq sale Hsale) as Hfix.
    apply (f_equal Sale.items) in Hfix. simpl in Hfix.
    rewrite <- Hfix in Hitem. apply filter_In in Hitem. destruct Hitem as [_ Hne].
    rewrite Hid, String.eqb_refl in Hne. discriminate.
Qed.

Lemma deleteProduct_cascades_witness :
  let w := snd (useDatabase.loadAllData
                  (snd (useDatabase.addSale Fixtures.scenarioB
                          (Fixtures.world Fixtures.healthy)))) in
  let w' := snd (useDatabase.deleteProduct "p1" w) in
  Hook.sales (hook w) = Sync.stored (db w) /\
  Hook.sales (hook w') <> Sync.stored (db w').
Proof.
  intros w w'. split; [vm_compute; reflexivity|].
  assert (O : Db.outage (Db.env (db w)) (List.length (Db.log (db w))) = false)
    by (vm_compute; reflexivity).
  pose proof (deleteProduct_cascades "p1" w) as H. cbv zeta in H.
  destruct H as (_ & _ & _ & _ & _ & H).
  rewrite O in H.
  destruct H as (_ & _ & _ & _ & _ & _ & _ & _ & H).
  apply (H ltac:(vm_compute; reflexivity)
           (Spec.persisted Fixtures.scenarioB (Fixtures.world Fixtures.healthy))
           (Fixtures.item "p1" "Paracetamol" 2 10)).
  - vm_compute. left. reflexivity.
  - vm_compute. left. reflexivity.
  - reflexivity.
Defined.

(** X15.  [deleteClient]: when the request fails nothing changes but
    the message, and the call throws.  When it is answered, the client
    and the client's sales are gone from the hook and from the
    database, the other sales stay in their order, no line item of a
    sale of the client is left, products are untouched; a hook whose
    sales were the rows of the database, and whose objects had their
    rows, is still so. *)
Theorem deleteClient_cascades (id : string) (w : World) :
  let n := List.length (Db.log (db w)) in
  let w' := snd (useDatabase.deleteClient id w) in
  let others := fun s : Sale.t => negb (String.eqb (Sale.clientId s) id) in
  Db.log (db w') = Db.log (db w) ++ [Db.DeleteClient id] /\
  Hook.products (hook w') = Hook.products (hook w) /\
  Db.products (db w') = Db.products (db w) /\
  if Db.outage (Db.env (db w)) n
  then
    fst (useDatabase.deleteClient id w) = Thrown n /\
    Hook.clients (hook w') = Hook.clients (hook w) /\
    Hook.sales (hook w') = Hook.sales (hook w) /\
    Hook.error (hook w') = Some "Failed to delete client"%string /\
    Db.clients (db w') = Db.clients (db w) /\
    Db.sales (db w') = Db.sales (db w) /\
    Db.sale_items (db w') = Db.sale_items (db w)
  else
    fst (useDatabase.deleteClient id w) = Returned tt /\
    Hook.error (hook w') = Hook.error (hook w) /\
    Held.all (Hook.clients (hook w'))
    = filter (fun c => negb (Spec.isClient id c)) (Hook.clients (hook w)) /\
    Db.clients (db w') = filter (fun c => negb (Spec.isClient id c)) (Db.clients (db w)) /\
    ~ In id (map Client.id (Hook.clients (hook w'))) /\
    ~ In id (map Client.id (Db.clients (db w'))) /\
    Hook.sales (hook w') = filter others (Hook.sales (hook w)) /\
    Db.sales (db w')
    = filter (fun s => negb (String.eqb (Db.client_id s) id)) (Db.sales (db w)) /\
    (forall r s, In r (Db.sale_items (db w')) -> In s (Db.sales (db w)) ->
                 Db.client_id s = id -> Db.sale_id r <> Db.id s) /\
    (forall r, In r (Db.sale_items (db w')) -> In r (Db.sale_items (db w))) /\
    (Sync.mirrors w -> Sync.mirrors w') /\
    (Spec.backed w -> Spec.backed w').
Proof.
  intros n w' others. unfold w', n.
  unfold useDatabase.deleteClient, try_catch, bind, clientService.delete, request,
    Db.deleteClient.
  cbv zeta. simpl Db.env.
  destruct (Db.outage (Db.env (db w)) (List.length (Db.log (db w)))) eqn:O.
  { simpl. repeat split. }
  simpl.
  assert (Hall : Held.all (filter (fun c => negb (String.eqb (Client.id (Held.columns c)) id))
                                  (Hook.clients (hook w)))
                 = filter (fun c => negb (Spec.isClient id c)) (Hook.clients (hook w))).
  { apply (@all_filter Client.t (fun c => negb (String.eqb (Client.id c) id))). }
  split; [reflexivity|]. split; [reflexivity|]. split; [reflexivity|].
  split; [reflexivity|]. split; [reflexivity|].
  split; [exact Hall|]. split; [reflexivity|].
  split; [rewrite Hall; apply (@not_In_filtered Client.t Client.id)|].
  split; [apply (@not_In_filtered Client.t Client.id)|].
  split; [reflexivity|]. split; [reflexivity|].
  split.
  { intros r s Hr Hs Hc Heq. apply filter_In in Hr. destruct Hr as [_ Hr].
    apply negb_true_iff in Hr.
    assert (Hex : existsb (String.eqb (Db.sale_id r))
                    (map Db.id (filter (fun s0 => String.eqb (Db.client_id s0) id)
                                       (Db.sales (db w)))) = true).
    { apply existsb_exists. exists (Db.id s). split.
      - apply in_map, filter_In. split; [exact Hs | now apply String.eqb_eq].
      - now apply String.eqb_eq. }
    congruence. }
  split.
  { intros r Hr. apply filter_In in Hr. tauto. }
  split.
  - unfold Sync.mirrors. simpl. intros Hm.
    rewrite <- (filter_map_swap Spec.saleRow
                  (fun s => negb (String.eqb (Db.client_id s) id))).
    apply Permutation_filter'. exact Hm.
  - intros [Bp Bc]. split; simpl; [exact Bp|].
    intros c Hc. rewrite Hall in Hc. apply filter_In in Hc. destruct Hc as [Hin Hne].
    specialize (Bc c Hin). apply in_map_iff in Bc. destruct Bc as (q & Hq & Hq').
    apply in_map_iff. exists q. split; [exact Hq|].
    apply filter_In. split; [exact Hq'|]. unfold Spec.isClient in Hne. now rewrite Hq.
Qed.

(* ================================================================== *)
(** * The client page's statistics *)
(* ================================================================== *)





(* ================================================================== *)
(** * What an update and an insert leave in the hook *)
(* ================================================================== *)

Lemma find_replaced (A : Type) (key : A -> string) (id k : string) (u : A) (l : list A) :
  key u = id ->
  List.find (fun a => String.eqb (key a) k)
            (map (fun a => if String.eqb (key a) id then u else a) l)
  = if String.eqb id k
    then option_map (fun _ => u) (List.find (fun a => String.eqb (key a) id) l)
    else List.find (fun a => String.eqb (key a) k) l.
Proof.
  intros Hu. induction l as [|x l IH]; simpl.
  - now destruct (String.eqb id k).
  - destruct (String.eqb (key x) id) eqn:E; simpl.
    + rewrite Hu. apply String.eqb_eq in E. rewrite E.
      destruct (String.eqb id k) eqn:K; [reflexivity | exact IH].
    + destruct (String.eqb id k) eqn:K.
      * apply String.eqb_eq in K. subst k. rewrite E. exact IH.
      * rewrite IH. reflexivity.
Qed.

(** X17.  A product update that the database accepts leaves the
    product in the hook as a mapped object, whether it was held as a
    row or not: the object found under the id afterwards is the updated
    row through [mapDbToProduct], so its [currentStock] is a number;
    the objects under other ids are the ones that were there. *)
Theorem updateProduct_holds_mapped (id : string) (updates : ProductUpdate.t) (w : World)
  (row : Product.t) (held : Held.t Product.t) :
  Db.outage (Db.env (db w)) (List.length (Db.log (db w))) = false ->
  Db.notNull (ProductUpdate.currentStock updates) = true ->
  List.find (Spec.hasId id) (Db.products (db w)) = Some row ->
  JS.find (Spec.holds id) (Hook.products (hook w)) = Some held ->
  let w' := snd (useDatabase.updateProduct id updates w) in
  let updated := Db.setProduct (productService.updateData updates)
                               (Db.now (Db.env (db w)) (List.length (Db.log (db w)))) row in
  fst (useDatabase.updateProduct id updates w) = Returned updated /\
  JS.find (Spec.holds id) (Hook.products (hook w')) = Some (Held.mapped updated) /\
  Held.camel Product.currentStock (Held.mapped updated)
  = Some (Db.orElseNum (ProductUpdate.currentStock updates) (Product.currentStock row)) /\
  (forall k, k <> id ->
             JS.find (Spec.holds k) (Hook.products (hook w'))
             = JS.find (Spec.holds k) (Hook.products (hook w))) /\
  List.length (Hook.products (hook w')) = List.length (Hook.products (hook w)).
Proof.
  intros Ho Hn Hr Hheld w' updated. unfold w'.
  rewrite (@updateProduct_answers id updates w row Ho Hn Hr). cbv zeta. simpl fst. simpl snd.
  simpl hook. simpl Hook.products. fold updated.
  assert (Hid : Product.id updated = id).
  { unfold updated. simpl. apply find_some in Hr. now apply String.eqb_eq. }
  assert (Hfind : forall k,
    JS.find (Spec.holds k)
            (map (fun p => if Spec.holds id p then Held.mapped updated else p)
                 (Hook.products (hook w)))
    = if String.eqb id k
      then option_map (fun _ => Held.mapped updated)
                      (JS.find (Spec.holds id) (Hook.products (hook w)))
      else JS.find (Spec.holds k) (Hook.products (hook w))).
  { intros k.
    apply (@find_replaced (Held.t Product.t) (fun h => Product.id (Held.columns h))
             id k (Held.mapped updated) (Hook.products (hook w)) Hid). }
  split; [reflexivity|]. split.
  { rewrite Hfind, String.eqb_refl, Hheld. reflexivity. }
  split.
  { reflexivity. }
  split.
  { intros k Hk. rewrite Hfind.
    destruct (String.eqb id k) eqn:K; [|reflexivity].
    apply String.eqb_eq in K. congruence. }
  apply length_map.
Qed.

Lemma updateProduct_holds_mapped_witness :
  let w := Fixtures.loaded Fixtures.healthy in
  let w' := snd (useDatabase.updateProduct "p1" Fixtures.restock w) in
  JS.find (Spec.holds "p1") (Hook.products (hook w)) = Some (Held.row Fixtures.paracetamol) /\
  option_map (@Held.isMapped Product.t) (JS.find (Spec.holds "p1") (Hook.products (hook w')))
  = Some true.
Proof.
  intros w w'. split; [reflexivity|].
  destruct (@updateProduct_holds_mapped "p1" Fixtures.restock w Fixtures.paracetamol
              (Held.row Fixtures.paracetamol) eq_refl eq_refl eq_refl eq_refl)
    as (_ & H & _).
  fold w' in H. rewrite H. reflexivity.
Defined.

(* ================================================================== *)
(** * The sale form *)
(* ================================================================== *)






